(** * Cervical pose detection: the exercise detection engine

    A shallow embedding of [src/core/models.py], [src/utils/geometry.py]
    and [src/core/detection_system.py].

    Conventions of the embedding.
    - A Python [float] is an exact rational ([Q]); rounding, infinities
      and NaN are outside the model.  Equalities between computed floats
      are stated with [==] ([Qeq]).
    - A 2-element [np.ndarray] is a pair [Q * Q]; [p[0]] is [fst p].
    - [np.linalg.norm] is an operation of the external library; it is a
      method of the class [Numpy] and every theorem holds for any
      implementation of it.
    - An attribute holding [None] or a float is an [option Q].
    - A Python exception is a value of [Exception]; code that may raise
      returns in [Exc].
    - In-place mutation of [self] is explicit state passing: a method
      returns the new object next to its result.
    - A formatted status message is kept as its template and the values
      substituted into it ([Fmt]); the rendering of a float to decimal
      digits and the pictographs opening some messages are not
      modelled. *)

From Stdlib Require Import QArith Qabs Qminmax Qround ZArith List String Bool Lia Lqa.
From Stdlib Require Import Permutation Sorted.
Import ListNotations.

Local Open Scope string_scope.
Local Open Scope list_scope.
Local Open Scope Q_scope.

Set Implicit Arguments.

(** ** Exceptions *)

Inductive Exception : Type :=
| TypeError (msg : string)
| AttributeError (msg : string)
| KeyError (msg : string)
| RuntimeError (msg : string).

(** [str(e)] *)
Definition str (e : Exception) : string :=
  match e with
  | TypeError m | AttributeError m | KeyError m | RuntimeError m => m
  end.

Inductive Exc (A : Type) : Type :=
| Ok (a : A)
| Raise (e : Exception).

Arguments Ok {A} a.
Arguments Raise {A} e.

Definition bind {A B} (m : Exc A) (k : A -> Exc B) : Exc B :=
  match m with
  | Ok a => k a
  | Raise e => Raise e
  end.

Notation "x <- m ;; k" := (bind m (fun x => k))
  (at level 61, m at next level, right associativity).

(** ** Comparisons and the built-ins [min], [max], [abs] on floats *)

Definition Qlt_bool (a b : Q) : bool := negb (Qle_bool b a).

(** [min(a, b)]: the first argument unless the second is smaller. *)
Definition py_min (a b : Q) : Q := if Qlt_bool b a then b else a.

(** [max(a, b)]: the first argument unless the second is larger. *)
Definition py_max (a b : Q) : Q := if Qlt_bool a b then b else a.

(** ** [np.median]

    The middle element of the sorted samples, or the mean of the two
    middle ones when their number is even.  Every call site guards
    against the empty list, where numpy answers NaN. *)

Fixpoint insert_sorted (x : Q) (l : list Q) : list Q :=
  match l with
  | [] => [x]
  | y :: l' => if Qle_bool x y then x :: l else y :: insert_sorted x l'
  end.

Fixpoint np_sort (l : list Q) : list Q :=
  match l with
  | [] => []
  | x :: l' => insert_sorted x (np_sort l')
  end.

Definition np_median (l : list Q) : Q :=
  let s := np_sort l in
  let n := List.length l in
  if Nat.even n
  then (nth (n / 2 - 1) s 0 + nth (n / 2) s 0) / 2
  else nth (n / 2) s 0.

(** ** models.py *)

Inductive ExerciseType : Type :=
| CERVICAL_FLEXION
| CERVICAL_EXTENSION
| LATERAL_NECK_TILT
| NECK_ROTATION
| CHIN_TUCK.

Definition ExerciseType_eqb (a b : ExerciseType) : bool :=
  match a, b with
  | CERVICAL_FLEXION, CERVICAL_FLEXION
  | CERVICAL_EXTENSION, CERVICAL_EXTENSION
  | LATERAL_NECK_TILT, LATERAL_NECK_TILT
  | NECK_ROTATION, NECK_ROTATION
  | CHIN_TUCK, CHIN_TUCK => true
  | _, _ => false
  end.

Inductive DetectionStatus : Type :=
| CALIBRATING
| READY
| DETECTED
| NOT_DETECTED
| ERROR.

Definition Point : Type := (Q * Q)%type.

Record LandmarkPoints : Type := {
  nose : Point;
  left_ear : Point;
  right_ear : Point;
  left_shoulder : Point;
  right_shoulder : Point
}.

(** A value stored in a metrics dictionary. *)
Inductive MetricValue : Type :=
| MFloat (q : Q)
| MInt (z : Z)
| MStr (s : string).

Definition Metrics : Type := list (string * MetricValue).

Fixpoint metrics_get (d : Metrics) (k : string) : Exc MetricValue :=
  match d with
  | [] => Raise (KeyError k)
  | (k', v) :: d' => if String.eqb k k' then Ok v else metrics_get d' k
  end.

Inductive StatusMessage : Type :=
| Text (s : string)
| Fmt (template : string) (args : list MetricValue).

Record ExerciseResult : Type := {
  exercise_type : ExerciseType;
  detected : bool;
  confidence : Q;
  status : DetectionStatus;
  status_message : StatusMessage;
  metrics : option Metrics;
  timestamp : option Q
}.

(** The constructor call with five positional arguments:
    [metrics] and [timestamp] keep their default [None]. *)
Definition ExerciseResult5 (t : ExerciseType) (d : bool) (c : Q)
    (s : DetectionStatus) (m : StatusMessage) : ExerciseResult :=
  {| exercise_type := t; detected := d; confidence := c; status := s;
     status_message := m; metrics := None; timestamp := None |}.

Definition ExerciseResult6 (t : ExerciseType) (d : bool) (c : Q)
    (s : DetectionStatus) (m : StatusMessage) (ms : Metrics) : ExerciseResult :=
  {| exercise_type := t; detected := d; confidence := c; status := s;
     status_message := m; metrics := Some ms; timestamp := None |}.

Module CalibrationState.

Record t : Type := {
  frames_collected : Z;
  frames_required : Z;
  baseline_values : option Metrics;
  is_complete : bool
}.

End CalibrationState.

Record SystemConfig : Type := {
  flexion_threshold : Q;
  extension_threshold : Q;
  tilt_threshold : Q;
  rotation_threshold : Q;
  chin_tuck_threshold : Q;
  calibration_frames : Z;
  confidence_smoothing : Q;
  min_detection_confidence : Q;
  min_tracking_confidence : Q;
  model_complexity : Z;
  fps_limit : Z;
  video_width : Z;
  video_height : Z
}.

(** [SystemConfig()] *)
Definition SystemConfig_default : SystemConfig :=
  {| flexion_threshold := 85 # 100;
     extension_threshold := 115 # 100;
     tilt_threshold := 15 # 100;
     rotation_threshold := 15 # 10;
     chin_tuck_threshold := 8 # 10;
     calibration_frames := 15;
     confidence_smoothing := 3 # 10;
     min_detection_confidence := 5 # 10;
     min_tracking_confidence := 5 # 10;
     model_complexity := 1;
     fps_limit := 15;
     video_width := 640;
     video_height := 480 |}.

(** ** geometry.py *)

Class Numpy : Type := {
  (** [np.linalg.norm] of a 2-vector *)
  linalg_norm : Point -> Q
}.

Definition vadd (p q : Point) : Point := (fst p + fst q, snd p + snd q).
Definition vsub (p q : Point) : Point := (fst p - fst q, snd p - snd q).
Definition vdiv (p : Point) (c : Q) : Point := (fst p / c, snd p / c).

Module GeometryUtils.

Definition calculate_distance `{Numpy} (point1 point2 : Point) : Q :=
  linalg_norm (vsub point1 point2).

(** [baseline] is the attribute as stored: [None] before the first
    finalisation.  [None == 0] is false and [distance / None] raises. *)
Definition calculate_ratio (distance : Q) (baseline : option Q) : Exc Q :=
  match baseline with
  | None =>
      Raise (TypeError "unsupported operand type(s) for /: 'float' and 'NoneType'")
  | Some b => if Qeq_bool b 0 then Ok 1 else Ok (distance / b)
  end.

Definition default_smoothing_factor : Q := 3 # 10.

Definition smooth_value (current previous smoothing_factor : Q) : Q :=
  smoothing_factor * current + (1 - smoothing_factor) * previous.

End GeometryUtils.

(** A landmark of the pose model, in normalised coordinates. *)
Record NormalizedLandmark : Type := { lm_x : Q; lm_y : Q }.

Record PoseResults : Type := {
  pose_landmarks : option (list NormalizedLandmark)
}.

Module LandmarkExtractor.

(** [landmarks[i]], an [IndexError] being [None] here. *)
Definition scaled (landmarks : list NormalizedLandmark) (i : nat) (h w : Z)
  : option Point :=
  match nth_error landmarks i with
  | Some l => Some (lm_x l * inject_Z w, lm_y l * inject_Z h)
  | None => None
  end.

Definition extract_landmarks (pose_results : PoseResults) (frame_shape : Z * Z)
  : option LandmarkPoints :=
  match pose_landmarks pose_results with
  | None => None
  | Some landmarks =>
      let '(h, w) := frame_shape in
      match scaled landmarks 0 h w, scaled landmarks 7 h w,
            scaled landmarks 8 h w, scaled landmarks 11 h w,
            scaled landmarks 12 h w with
      | Some n, Some le, Some re, Some ls, Some rs =>
          Some {| nose := n; left_ear := le; right_ear := re;
                  left_shoulder := ls; right_shoulder := rs |}
      | _, _, _, _, _ => None
      end
  end.

End LandmarkExtractor.

(** ** detection_system.py: the base detector *)

Module BaseDetector.

(** The attributes set by [BaseDetector.__init__]. *)
Record fields : Type := {
  exercise_type : ExerciseType;
  config : SystemConfig;
  calibration_frames : Z;
  frames_collected : Z;
  is_calibrated : bool;
  previous_confidence : Q
}.

(** The abstract methods.  A subclass reads and writes only the
    attributes it adds itself, so its methods act on those ([S]). *)
Class Subclass (S : Type) : Type := {
  _collect_baseline_data : S -> LandmarkPoints -> S;
  _finalize_calibration : S -> S;
  _detect_exercise : S -> LandmarkPoints -> Exc (bool * Q * Metrics);
  _generate_status_message : bool -> Q -> Metrics -> Exc StatusMessage
}.

(** A detector object: the base attributes and the subclass's own. *)
Record obj (S : Type) : Type := {
  base : fields;
  ext : S
}.

Definition init (exercise_type : ExerciseType) (config : option SystemConfig)
  : fields :=
  {| exercise_type := exercise_type;
     config := match config with Some c => c | None => SystemConfig_default end;
     calibration_frames := 15;
     frames_collected := 0;
     is_calibrated := false;
     previous_confidence := 0 |}.

Definition set_frames_collected (v : Z) (b : fields) : fields :=
  {| exercise_type := exercise_type b; config := config b;
     calibration_frames := calibration_frames b;
     frames_collected := v;
     is_calibrated := is_calibrated b;
     previous_confidence := previous_confidence b |}.

Definition set_is_calibrated (v : bool) (b : fields) : fields :=
  {| exercise_type := exercise_type b; config := config b;
     calibration_frames := calibration_frames b;
     frames_collected := frames_collected b;
     is_calibrated := v;
     previous_confidence := previous_confidence b |}.

Definition set_previous_confidence (v : Q) (b : fields) : fields :=
  {| exercise_type := exercise_type b; config := config b;
     calibration_frames := calibration_frames b;
     frames_collected := frames_collected b;
     is_calibrated := is_calibrated b;
     previous_confidence := v |}.

Definition with_base {S} (f : fields -> fields) (self : obj S) : obj S :=
  {| base := f (base self); ext := ext self |}.

Definition with_ext {S} (f : S -> S) (self : obj S) : obj S :=
  {| base := base self; ext := f (ext self) |}.

(** What a caller does to a detector: one frame, or a reset. *)
Inductive call : Type :=
| Detect (landmarks : option LandmarkPoints)
| Reset.

Section Methods.

Context {S : Type} `{Subclass S}.

(** In the last branch [frames_collected < calibration_frames] and
    [frames_collected >= 1], so the division is by a positive count. *)
Definition _handle_calibration (self : obj S) (landmarks : LandmarkPoints)
  : obj S * ExerciseResult :=
  let self := with_base (fun b => set_frames_collected (frames_collected b + 1) b) self in
  let self := with_ext (fun s => _collect_baseline_data s landmarks) self in
  let b := base self in
  if (frames_collected b >=? calibration_frames b)%Z then
    let self := with_ext _finalize_calibration self in
    let self := with_base (set_is_calibrated true) self in
    (self,
     ExerciseResult5 (exercise_type b) false 0 READY
       (Text "Calibration complete! Start exercising now."))
  else
    let progress :=
      (inject_Z (frames_collected b) / inject_Z (calibration_frames b)) * 100 in
    (self,
     ExerciseResult5 (exercise_type b) false 0 CALIBRATING
       (Fmt "Calibrating... {progress:.0f}% ({frames_collected}/{calibration_frames})"
            [MFloat progress; MInt (frames_collected b);
             MInt (calibration_frames b)])).

Definition detection_error (self : obj S) (e : Exception) : ExerciseResult :=
  ExerciseResult5 (exercise_type (base self)) false 0 ERROR
    (Text ("Detection error: " ++ str e)).

Definition detect (self : obj S) (landmarks : option LandmarkPoints)
  : obj S * ExerciseResult :=
  match landmarks with
  | None =>
      (self,
       ExerciseResult5 (exercise_type (base self)) false 0 ERROR
         (Text "No pose detected - ensure you're visible to camera"))
  | Some landmarks =>
      if negb (is_calibrated (base self)) then
        _handle_calibration self landmarks
      else
        match _detect_exercise (ext self) landmarks with
        | Raise e => (self, detection_error self e)
        | Ok (detected, confidence, metrics) =>
            let smoothed_confidence :=
              GeometryUtils.smooth_value confidence
                (previous_confidence (base self))
                GeometryUtils.default_smoothing_factor in
            let self := with_base (set_previous_confidence smoothed_confidence) self in
            match _generate_status_message detected smoothed_confidence metrics with
            | Raise e => (self, detection_error self e)
            | Ok status_message =>
                (self,
                 ExerciseResult6 (exercise_type (base self)) detected
                   smoothed_confidence
                   (if detected then DETECTED else NOT_DETECTED)
                   status_message metrics)
            end
        end
  end.

Definition reset (self : obj S) : obj S :=
  let self := with_base (set_frames_collected 0) self in
  let self := with_base (set_is_calibrated false) self in
  with_base (set_previous_confidence 0) self.

Definition step (self : obj S) (c : call) : obj S * option ExerciseResult :=
  match c with
  | Detect l => let (self', r) := detect self l in (self', Some r)
  | Reset => (reset self, None)
  end.

(** The detector after a sequence of calls. *)
Fixpoint run (self : obj S) (cs : list call) : obj S :=
  match cs with
  | [] => self
  | c :: cs' => run (fst (step self c)) cs'
  end.

(** The results the [detect] calls of the sequence return, in order. *)
Fixpoint results (self : obj S) (cs : list call) : list ExerciseResult :=
  match cs with
  | [] => []
  | c :: cs' =>
      let (self', r) := step self c in
      match r with
      | Some r => r :: results self' cs'
      | None => results self' cs'
      end
  end.

(** The subclass attributes after collecting the frames [ls]. *)
Definition collect_all (s : S) (ls : list LandmarkPoints) : S :=
  fold_left _collect_baseline_data ls s.

(** [detect] on each landmark set of a list. *)
Definition frames (ls : list LandmarkPoints) : list call :=
  map (fun l => Detect (Some l)) ls.

End Methods.

End BaseDetector.

(** ** CervicalFlexionDetector *)

Module CervicalFlexionDetector.

Import BaseDetector.

Record state : Type := {
  baseline_distance : option Q;
  calibration_distances : list Q;
  threshold : Q
}.

Definition init (config : option SystemConfig) : obj state :=
  {| base := BaseDetector.init CERVICAL_FLEXION config;
     ext := {| baseline_distance := None;
               calibration_distances := [];
               threshold := 85 # 100 |} |}.

Section WithNumpy.

Context `{Numpy}.

Definition collect_baseline_data (self : state) (landmarks : LandmarkPoints)
  : state :=
  let mid_shoulder :=
    vdiv (vadd (left_shoulder landmarks) (right_shoulder landmarks)) 2 in
  let distance :=
    GeometryUtils.calculate_distance (nose landmarks) mid_shoulder in
  {| baseline_distance := baseline_distance self;
     calibration_distances := calibration_distances self ++ [distance];
     threshold := threshold self |}.

Definition finalize_calibration (self : state) : state :=
  match calibration_distances self with
  | [] => self
  | _ :: _ =>
      {| baseline_distance := Some (np_median (calibration_distances self));
         calibration_distances := calibration_distances self;
         threshold := threshold self |}
  end.

Definition detect_exercise (self : state) (landmarks : LandmarkPoints)
  : Exc (bool * Q * Metrics) :=
  let mid_shoulder :=
    vdiv (vadd (left_shoulder landmarks) (right_shoulder landmarks)) 2 in
  let current_distance :=
    GeometryUtils.calculate_distance (nose landmarks) mid_shoulder in
  distance_ratio <-
    GeometryUtils.calculate_ratio current_distance (baseline_distance self) ;;
  let detected := Qlt_bool distance_ratio (threshold self) in
  let confidence :=
    if detected
    then py_max 0 (py_min 1 ((threshold self - distance_ratio) / (15 # 100)))
    else 0 in
  let metrics :=
    [("distance_ratio", MFloat distance_ratio);
     ("threshold", MFloat (threshold self))] in
  Ok (detected, confidence, metrics).

Definition generate_status_message (detected : bool) (confidence : Q)
    (metrics : Metrics) : Exc StatusMessage :=
  ratio <- metrics_get metrics "distance_ratio" ;;
  if detected
  then Ok (Fmt "FLEXION DETECTED! Keep lowering chin (ratio: {ratio:.2f})" [ratio])
  else Ok (Fmt "Lower your chin more towards chest (ratio: {ratio:.2f})" [ratio]).

#[global] Instance impl : Subclass state := {
  _collect_baseline_data := collect_baseline_data;
  _finalize_calibration := finalize_calibration;
  _detect_exercise := detect_exercise;
  _generate_status_message := generate_status_message
}.

End WithNumpy.

End CervicalFlexionDetector.

(** ** CervicalExtensionDetector *)

Module CervicalExtensionDetector.

Import BaseDetector.

Record state : Type := {
  baseline_distance : option Q;
  calibration_distances : list Q;
  threshold : Q
}.

Definition init (config : option SystemConfig) : obj state :=
  {| base := BaseDetector.init CERVICAL_EXTENSION config;
     ext := {| baseline_distance := None;
               calibration_distances := [];
               threshold := 115 # 100 |} |}.

Section WithNumpy.

Context `{Numpy}.

Definition collect_baseline_data (self : state) (landmarks : LandmarkPoints)
  : state :=
  let mid_shoulder :=
    vdiv (vadd (left_shoulder landmarks) (right_shoulder landmarks)) 2 in
  let distance :=
    GeometryUtils.calculate_distance (nose landmarks) mid_shoulder in
  {| baseline_distance := baseline_distance self;
     calibration_distances := calibration_distances self ++ [distance];
     threshold := threshold self |}.

Definition finalize_calibration (self : state) : state :=
  match calibration_distances self with
  | [] => self
  | _ :: _ =>
      {| baseline_distance := Some (np_median (calibration_distances self));
         calibration_distances := calibration_distances self;
         threshold := threshold self |}
  end.

Definition detect_exercise (self : state) (landmarks : LandmarkPoints)
  : Exc (bool * Q * Metrics) :=
  let mid_shoulder :=
    vdiv (vadd (left_shoulder landmarks) (right_shoulder landmarks)) 2 in
  let current_distance :=
    GeometryUtils.calculate_distance (nose landmarks) mid_shoulder in
  distance_ratio <-
    GeometryUtils.calculate_ratio current_distance (baseline_distance self) ;;
  let detected := Qlt_bool (threshold self) distance_ratio in
  let confidence :=
    if detected
    then py_max 0 (py_min 1 ((distance_ratio - threshold self) / (15 # 100)))
    else 0 in
  let metrics :=
    [("distance_ratio", MFloat distance_ratio);
     ("threshold", MFloat (threshold self))] in
  Ok (detected, confidence, metrics).

Definition generate_status_message (detected : bool) (confidence : Q)
    (metrics : Metrics) : Exc StatusMessage :=
  ratio <- metrics_get metrics "distance_ratio" ;;
  if detected
  then Ok (Fmt "EXTENSION DETECTED! Keep tilting head back (ratio: {ratio:.2f})" [ratio])
  else Ok (Fmt "Tilt head back more to look upward (ratio: {ratio:.2f})" [ratio]).

#[global] Instance impl : Subclass state := {
  _collect_baseline_data := collect_baseline_data;
  _finalize_calibration := finalize_calibration;
  _detect_exercise := detect_exercise;
  _generate_status_message := generate_status_message
}.

End WithNumpy.

End CervicalExtensionDetector.

(** ** LateralNeckTiltDetector *)

Module LateralNeckTiltDetector.

Import BaseDetector.

Record state : Type := {
  baseline_left : option Q;
  baseline_right : option Q;
  calibration_left : list Q;
  calibration_right : list Q;
  threshold : Q
}.

Definition init (config : option SystemConfig) : obj state :=
  {| base := BaseDetector.init LATERAL_NECK_TILT config;
     ext := {| baseline_left := None;
               baseline_right := None;
               calibration_left := [];
               calibration_right := [];
               threshold := 15 # 100 |} |}.

Section WithNumpy.

Context `{Numpy}.

Definition collect_baseline_data (self : state) (landmarks : LandmarkPoints)
  : state :=
  let a := GeometryUtils.calculate_distance (nose landmarks) (left_ear landmarks) in
  let b := GeometryUtils.calculate_distance (nose landmarks) (right_ear landmarks) in
  {| baseline_left := baseline_left self;
     baseline_right := baseline_right self;
     calibration_left := calibration_left self ++ [a];
     calibration_right := calibration_right self ++ [b];
     threshold := threshold self |}.

Definition finalize_calibration (self : state) : state :=
  match calibration_left self, calibration_right self with
  | _ :: _, _ :: _ =>
      {| baseline_left := Some (np_median (calibration_left self));
         baseline_right := Some (np_median (calibration_right self));
         calibration_left := calibration_left self;
         calibration_right := calibration_right self;
         threshold := threshold self |}
  | _, _ => self
  end.

Definition detect_exercise (self : state) (landmarks : LandmarkPoints)
  : Exc (bool * Q * Metrics) :=
  let left_dist :=
    GeometryUtils.calculate_distance (nose landmarks) (left_ear landmarks) in
  let right_dist :=
    GeometryUtils.calculate_distance (nose landmarks) (right_ear landmarks) in
  left_ratio <- GeometryUtils.calculate_ratio left_dist (baseline_left self) ;;
  right_ratio <- GeometryUtils.calculate_ratio right_dist (baseline_right self) ;;
  let ratio_diff := Qabs (left_ratio - right_ratio) in
  let detected := Qlt_bool (threshold self) ratio_diff in
  let confidence :=
    if detected then py_max 0 (py_min 1 (ratio_diff / (3 # 10))) else 0 in
  let direction := if Qlt_bool left_ratio right_ratio then "LEFT" else "RIGHT" in
  let metrics :=
    [("ratio_diff", MFloat ratio_diff);
     ("direction", MStr direction);
     ("threshold", MFloat (threshold self))] in
  Ok (detected, confidence, metrics).

Definition generate_status_message (detected : bool) (confidence : Q)
    (metrics : Metrics) : Exc StatusMessage :=
  diff <- metrics_get metrics "ratio_diff" ;;
  direction <- metrics_get metrics "direction" ;;
  if detected
  then Ok (Fmt "{direction} TILT DETECTED! (difference: {diff:.2f})" [direction; diff])
  else Ok (Fmt "Tilt head more to the side (difference: {diff:.2f})" [diff]).

#[global] Instance impl : Subclass state := {
  _collect_baseline_data := collect_baseline_data;
  _finalize_calibration := finalize_calibration;
  _detect_exercise := detect_exercise;
  _generate_status_message := generate_status_message
}.

End WithNumpy.

End LateralNeckTiltDetector.

(** ** NeckRotationDetector *)

Module NeckRotationDetector.

Import BaseDetector.

Record state : Type := {
  baseline_left : option Q;
  baseline_right : option Q;
  calibration_left : list Q;
  calibration_right : list Q;
  threshold : Q
}.

Definition init (config : option SystemConfig) : obj state :=
  {| base := BaseDetector.init NECK_ROTATION config;
     ext := {| baseline_left := None;
               baseline_right := None;
               calibration_left := [];
               calibration_right := [];
               threshold := 15 # 10 |} |}.

Definition collect_baseline_data (self : state) (landmarks : LandmarkPoints)
  : state :=
  let a := Qabs (fst (nose landmarks) - fst (left_ear landmarks)) in
  let b := Qabs (fst (nose landmarks) - fst (right_ear landmarks)) in
  {| baseline_left := baseline_left self;
     baseline_right := baseline_right self;
     calibration_left := calibration_left self ++ [a];
     calibration_right := calibration_right self ++ [b];
     threshold := threshold self |}.

Definition finalize_calibration (self : state) : state :=
  match calibration_left self, calibration_right self with
  | _ :: _, _ :: _ =>
      {| baseline_left := Some (np_median (calibration_left self));
         baseline_right := Some (np_median (calibration_right self));
         calibration_left := calibration_left self;
         calibration_right := calibration_right self;
         threshold := threshold self |}
  | _, _ => self
  end.

Definition detect_exercise (self : state) (landmarks : LandmarkPoints)
  : Exc (bool * Q * Metrics) :=
  let left_vis := Qabs (fst (nose landmarks) - fst (left_ear landmarks)) in
  let right_vis := Qabs (fst (nose landmarks) - fst (right_ear landmarks)) in
  left_ratio <- GeometryUtils.calculate_ratio left_vis (baseline_left self) ;;
  right_ratio <- GeometryUtils.calculate_ratio right_vis (baseline_right self) ;;
  let max_ratio := py_max left_ratio right_ratio in
  let detected := Qlt_bool (threshold self) max_ratio in
  let confidence :=
    if detected
    then py_max 0 (py_min 1 ((max_ratio - threshold self) / 1))
    else 0 in
  let direction := if Qlt_bool right_ratio left_ratio then "RIGHT" else "LEFT" in
  let metrics :=
    [("max_ratio", MFloat max_ratio);
     ("direction", MStr direction);
     ("threshold", MFloat (threshold self))] in
  Ok (detected, confidence, metrics).

Definition generate_status_message (detected : bool) (confidence : Q)
    (metrics : Metrics) : Exc StatusMessage :=
  ratio <- metrics_get metrics "max_ratio" ;;
  direction <- metrics_get metrics "direction" ;;
  if detected
  then Ok (Fmt "{direction} ROTATION DETECTED! (ratio: {ratio:.2f})" [direction; ratio])
  else Ok (Fmt "Turn head more to the side (ratio: {ratio:.2f})" [ratio]).

#[global] Instance impl : Subclass state := {
  _collect_baseline_data := collect_baseline_data;
  _finalize_calibration := finalize_calibration;
  _detect_exercise := detect_exercise;
  _generate_status_message := generate_status_message
}.

End NeckRotationDetector.

(** ** ChinTuckDetector *)

Module ChinTuckDetector.

Import BaseDetector.

Record state : Type := {
  baseline_offset : option Q;
  baseline_depth : option Q;
  calibration_offsets : list Q;
  calibration_depths : list Q;
  threshold : Q
}.

Definition init (config : option SystemConfig) : obj state :=
  {| base := BaseDetector.init CHIN_TUCK config;
     ext := {| baseline_offset := None;
               baseline_depth := None;
               calibration_offsets := [];
               calibration_depths := [];
               threshold := 8 # 10 |} |}.

Definition collect_baseline_data (self : state) (landmarks : LandmarkPoints)
  : state :=
  let mid_ear := vdiv (vadd (left_ear landmarks) (right_ear landmarks)) 2 in
  let a := Qabs (fst (nose landmarks) - fst mid_ear) in
  let b := Qabs (snd (nose landmarks) - snd mid_ear) in
  {| baseline_offset := baseline_offset self;
     baseline_depth := baseline_depth self;
     calibration_offsets := calibration_offsets self ++ [a];
     calibration_depths := calibration_depths self ++ [b];
     threshold := threshold self |}.

Definition finalize_calibration (self : state) : state :=
  match calibration_offsets self, calibration_depths self with
  | _ :: _, _ :: _ =>
      {| baseline_offset := Some (np_median (calibration_offsets self));
         baseline_depth := Some (np_median (calibration_depths self));
         calibration_offsets := calibration_offsets self;
         calibration_depths := calibration_depths self;
         threshold := threshold self |}
  | _, _ => self
  end.

Definition detect_exercise (self : state) (landmarks : LandmarkPoints)
  : Exc (bool * Q * Metrics) :=
  let mid_ear := vdiv (vadd (left_ear landmarks) (right_ear landmarks)) 2 in
  let horizontal_offset := Qabs (fst (nose landmarks) - fst mid_ear) in
  let vertical_depth := Qabs (snd (nose landmarks) - snd mid_ear) in
  offset_ratio <-
    GeometryUtils.calculate_ratio horizontal_offset (baseline_offset self) ;;
  depth_ratio <-
    GeometryUtils.calculate_ratio vertical_depth (baseline_depth self) ;;
  let detected :=
    Qlt_bool offset_ratio (threshold self) && Qlt_bool (105 # 100) depth_ratio in
  let confidence :=
    if detected
    then py_max 0
           (py_min 1 ((threshold self - offset_ratio) + (depth_ratio - (105 # 100))))
    else 0 in
  let metrics :=
    [("offset_ratio", MFloat offset_ratio);
     ("depth_ratio", MFloat depth_ratio);
     ("threshold", MFloat (threshold self))] in
  Ok (detected, confidence, metrics).

Definition generate_status_message (detected : bool) (confidence : Q)
    (metrics : Metrics) : Exc StatusMessage :=
  offset <- metrics_get metrics "offset_ratio" ;;
  depth <- metrics_get metrics "depth_ratio" ;;
  if detected
  then Ok (Fmt "CHIN TUCK DETECTED! (offset: {offset:.2f}, depth: {depth:.2f})"
               [offset; depth])
  else Ok (Fmt "Pull chin back more (offset: {offset:.2f})" [offset]).

#[global] Instance impl : Subclass state := {
  _collect_baseline_data := collect_baseline_data;
  _finalize_calibration := finalize_calibration;
  _detect_exercise := detect_exercise;
  _generate_status_message := generate_status_message
}.

End ChinTuckDetector.

(** ** The five detector classes, by exercise type *)

Section Dispatch.

Context `{Numpy}.

Definition state_of (t : ExerciseType) : Type :=
  match t with
  | CERVICAL_FLEXION => CervicalFlexionDetector.state
  | CERVICAL_EXTENSION => CervicalExtensionDetector.state
  | LATERAL_NECK_TILT => LateralNeckTiltDetector.state
  | NECK_ROTATION => NeckRotationDetector.state
  | CHIN_TUCK => ChinTuckDetector.state
  end.

Definition impl_of (t : ExerciseType) : BaseDetector.Subclass (state_of t) :=
  match t with
  | CERVICAL_FLEXION => CervicalFlexionDetector.impl
  | CERVICAL_EXTENSION => CervicalExtensionDetector.impl
  | LATERAL_NECK_TILT => LateralNeckTiltDetector.impl
  | NECK_ROTATION => NeckRotationDetector.impl
  | CHIN_TUCK => ChinTuckDetector.impl
  end.

(** The constructor of the class detecting exercise [t]. *)
Definition new_detector (t : ExerciseType) (config : option SystemConfig)
  : BaseDetector.obj (state_of t) :=
  match t with
  | CERVICAL_FLEXION => CervicalFlexionDetector.init config
  | CERVICAL_EXTENSION => CervicalExtensionDetector.init config
  | LATERAL_NECK_TILT => LateralNeckTiltDetector.init config
  | NECK_ROTATION => NeckRotationDetector.init config
  | CHIN_TUCK => ChinTuckDetector.init config
  end.

Definition class_name (t : ExerciseType) : string :=
  match t with
  | CERVICAL_FLEXION => "CervicalFlexionDetector"
  | CERVICAL_EXTENSION => "CervicalExtensionDetector"
  | LATERAL_NECK_TILT => "LateralNeckTiltDetector"
  | NECK_ROTATION => "NeckRotationDetector"
  | CHIN_TUCK => "ChinTuckDetector"
  end.

End Dispatch.

#[global] Existing Instance impl_of.

(** ** Detector objects as the coordinator sees them

    The coordinator keeps its detectors in a dictionary and only calls
    [detect] and [reset] on them and reads their [calibration]
    attribute; any of the three may raise. *)

Record DetectorClass : Type := {
  instance : Type;
  m_detect : instance -> option LandmarkPoints -> instance * Exc ExerciseResult;
  m_reset : instance -> instance * Exc unit;
  get_calibration : instance -> Exc CalibrationState.t
}.

Record DetectorObject : Type := {
  class_of : DetectorClass;
  self_of : instance class_of
}.

Definition call_detect (d : DetectorObject) (landmarks : option LandmarkPoints)
  : DetectorObject * Exc ExerciseResult :=
  let (self', r) := m_detect (class_of d) (self_of d) landmarks in
  ({| class_of := class_of d; self_of := self' |}, r).

Definition call_reset (d : DetectorObject) : DetectorObject * Exc unit :=
  let (self', r) := m_reset (class_of d) (self_of d) in
  ({| class_of := class_of d; self_of := self' |}, r).

Definition read_calibration (d : DetectorObject) : Exc CalibrationState.t :=
  get_calibration (class_of d) (self_of d).

(** A subclass of [BaseDetector] as such an object.  Neither
    [BaseDetector.__init__] nor a subclass sets an attribute
    [calibration], so reading it raises [AttributeError]. *)
Definition base_detector_class (name : string) (S : Type)
    (impl : BaseDetector.Subclass S) : DetectorClass :=
  {| instance := BaseDetector.obj S;
     m_detect := fun self landmarks =>
       let (self', r) := BaseDetector.detect self landmarks in (self', Ok r);
     m_reset := fun self => (BaseDetector.reset self, Ok tt);
     get_calibration := fun _ =>
       Raise (AttributeError
                ("'" ++ name ++ "' object has no attribute 'calibration'")) |}.

Definition detector_object `{Numpy} (t : ExerciseType)
    (self : BaseDetector.obj (state_of t)) : DetectorObject :=
  {| class_of := base_detector_class (class_name t) (impl_of t);
     self_of := self |}.

(** ** ExerciseDetectionSystem *)

Module ExerciseDetectionSystem.

(** A dictionary keyed by exercise type, in insertion order. *)
Definition dict (V : Type) : Type := list (ExerciseType * V).

Fixpoint dict_get {V} (d : dict V) (k : ExerciseType) : option V :=
  match d with
  | [] => None
  | (k', v) :: d' => if ExerciseType_eqb k k' then Some v else dict_get d' k
  end.

(** [d[k] = v] *)
Fixpoint dict_set {V} (d : dict V) (k : ExerciseType) (v : V) : dict V :=
  match d with
  | [] => [(k, v)]
  | (k', v') :: d' =>
      if ExerciseType_eqb k k' then (k, v) :: d' else (k', v') :: dict_set d' k v
  end.

Definition keys {V} (d : dict V) : list ExerciseType := map fst d.

Record t : Type := {
  config : SystemConfig;
  detectors : dict DetectorObject;
  total_detections : Z;
  session_start_time : Q
}.

Definition all_exercise_types : list ExerciseType :=
  [CERVICAL_FLEXION; CERVICAL_EXTENSION; LATERAL_NECK_TILT; NECK_ROTATION;
   CHIN_TUCK].

(** [now] is the reading of [time.time()]. *)
Definition init `{Numpy} (config : option SystemConfig) (now : Q) : t :=
  let config := match config with Some c => c | None => SystemConfig_default end in
  {| config := config;
     detectors :=
       map (fun ty => (ty, detector_object ty (new_detector ty (Some config))))
           all_exercise_types;
     total_detections := 0;
     session_start_time := now |}.

(** The fallback of the [except] branch. *)
Definition fallback (exercise_type : ExerciseType) (e : Exception)
  : ExerciseResult :=
  ExerciseResult5 exercise_type false 0 ERROR (Text ("Error: " ++ str e)).

(** The loop over [self.detectors.items()]. *)
Fixpoint detect_loop (ds : dict DetectorObject)
    (landmarks : option LandmarkPoints) (results : dict ExerciseResult)
  : dict DetectorObject * dict ExerciseResult :=
  match ds with
  | [] => ([], results)
  | (exercise_type, detector) :: ds' =>
      let (detector', r) := call_detect detector landmarks in
      let results :=
        match r with
        | Ok result => dict_set results exercise_type result
        | Raise e => dict_set results exercise_type (fallback exercise_type e)
        end in
      let (ds'', results) := detect_loop ds' landmarks results in
      ((exercise_type, detector') :: ds'', results)
  end.

Definition detect_exercises (self : t) (pose_results : PoseResults)
    (frame_shape : Z * Z) : t * dict ExerciseResult :=
  let landmarks := LandmarkExtractor.extract_landmarks pose_results frame_shape in
  let (ds, results) := detect_loop (detectors self) landmarks [] in
  ({| config := config self;
      detectors := ds;
      total_detections := (total_detections self + 1)%Z;
      session_start_time := session_start_time self |},
   results).

(** The loop of [reset_baselines]; a raising [reset] leaves the
    detectors after it untouched. *)
Fixpoint reset_loop (ds : dict DetectorObject)
  : dict DetectorObject * Exc unit :=
  match ds with
  | [] => ([], Ok tt)
  | (exercise_type, detector) :: ds' =>
      let (detector', r) := call_reset detector in
      match r with
      | Raise e => ((exercise_type, detector') :: ds', Raise e)
      | Ok _ =>
          let (ds'', r') := reset_loop ds' in
          ((exercise_type, detector') :: ds'', r')
      end
  end.

(** The class body defines [reset_baselines] twice; the second
    definition is the one bound. *)
Definition reset_baselines (self : t) (now : Q) : t * Exc unit :=
  let (ds, r) := reset_loop (detectors self) in
  match r with
  | Raise e =>
      ({| config := config self; detectors := ds;
          total_detections := total_detections self;
          session_start_time := session_start_time self |}, Raise e)
  | Ok _ =>
      ({| config := config self; detectors := ds;
          total_detections := 0;
          session_start_time := now |}, Ok tt)
  end.

(** [all(detector.calibration.is_complete for detector in ...)] *)
Fixpoint all_complete (ds : list DetectorObject) : Exc bool :=
  match ds with
  | [] => Ok true
  | detector :: ds' =>
      calibration <- read_calibration detector ;;
      if CalibrationState.is_complete calibration
      then all_complete ds'
      else Ok false
  end.

Definition is_fully_calibrated (self : t) : Exc bool :=
  all_complete (map snd (detectors self)).

End ExerciseDetectionSystem.

(** ** Construction as a call that may fail

    The dataclass [SystemConfig] has no [__post_init__], and no
    statement of the constructors of the detectors or of the coordinator
    raises: each constructor call returns its object. *)

Definition construct_detector `{Numpy} (t : ExerciseType)
    (config : option SystemConfig) : Exc (BaseDetector.obj (state_of t)) :=
  Ok (new_detector t config).

Definition construct_system `{Numpy} (config : option SystemConfig) (now : Q)
  : Exc ExerciseDetectionSystem.t :=
  Ok (ExerciseDetectionSystem.init config now).

(** ** The per-frame metrics, in the words of the specification *)

Section Metrics.

Context `{Numpy}.

Definition midpoint (p q : Point) : Point := vdiv (vadd p q) 2.

Definition nose_to_mid_shoulder (l : LandmarkPoints) : Q :=
  GeometryUtils.calculate_distance (nose l)
    (midpoint (left_shoulder l) (right_shoulder l)).

Definition nose_to_left_ear (l : LandmarkPoints) : Q :=
  GeometryUtils.calculate_distance (nose l) (left_ear l).

Definition nose_to_right_ear (l : LandmarkPoints) : Q :=
  GeometryUtils.calculate_distance (nose l) (right_ear l).

Definition left_offset (l : LandmarkPoints) : Q :=
  Qabs (fst (nose l) - fst (left_ear l)).

Definition right_offset (l : LandmarkPoints) : Q :=
  Qabs (fst (nose l) - fst (right_ear l)).

Definition chin_offset (l : LandmarkPoints) : Q :=
  Qabs (fst (nose l) - fst (midpoint (left_ear l) (right_ear l))).

Definition chin_depth (l : LandmarkPoints) : Q :=
  Qabs (snd (nose l) - snd (midpoint (left_ear l) (right_ear l))).

(** Every baseline of the detector for [t] is the median of its metric
    over the frames [ls]. *)
Definition baseline_is_median (t : ExerciseType) (ls : list LandmarkPoints)
  : state_of t -> Prop :=
  match t as t0 return state_of t0 -> Prop with
  | CERVICAL_FLEXION => fun s =>
      CervicalFlexionDetector.baseline_distance s
      = Some (np_median (map nose_to_mid_shoulder ls))
  | CERVICAL_EXTENSION => fun s =>
      CervicalExtensionDetector.baseline_distance s
      = Some (np_median (map nose_to_mid_shoulder ls))
  | LATERAL_NECK_TILT => fun s =>
      LateralNeckTiltDetector.baseline_left s
      = Some (np_median (map nose_to_left_ear ls))
      /\ LateralNeckTiltDetector.baseline_right s
         = Some (np_median (map nose_to_right_ear ls))
  | NECK_ROTATION => fun s =>
      NeckRotationDetector.baseline_left s
      = Some (np_median (map left_offset ls))
      /\ NeckRotationDetector.baseline_right s
         = Some (np_median (map right_offset ls))
  | CHIN_TUCK => fun s =>
      ChinTuckDetector.baseline_offset s
      = Some (np_median (map chin_offset ls))
      /\ ChinTuckDetector.baseline_depth s
         = Some (np_median (map chin_depth ls))
  end.

(** The calibration samples a detector holds. *)
Definition accumulators (t : ExerciseType) : state_of t -> list (list Q) :=
  match t as t0 return state_of t0 -> list (list Q) with
  | CERVICAL_FLEXION => fun s => [CervicalFlexionDetector.calibration_distances s]
  | CERVICAL_EXTENSION => fun s =>
      [CervicalExtensionDetector.calibration_distances s]
  | LATERAL_NECK_TILT => fun s =>
      [LateralNeckTiltDetector.calibration_left s;
       LateralNeckTiltDetector.calibration_right s]
  | NECK_ROTATION => fun s =>
      [NeckRotationDetector.calibration_left s;
       NeckRotationDetector.calibration_right s]
  | CHIN_TUCK => fun s =>
      [ChinTuckDetector.calibration_offsets s;
       ChinTuckDetector.calibration_depths s]
  end.

(** The baselines a detector holds. *)
Definition baselines (t : ExerciseType) : state_of t -> list (option Q) :=
  match t as t0 return state_of t0 -> list (option Q) with
  | CERVICAL_FLEXION => fun s => [CervicalFlexionDetector.baseline_distance s]
  | CERVICAL_EXTENSION => fun s => [CervicalExtensionDetector.baseline_distance s]
  | LATERAL_NECK_TILT => fun s =>
      [LateralNeckTiltDetector.baseline_left s;
       LateralNeckTiltDetector.baseline_right s]
  | NECK_ROTATION => fun s =>
      [NeckRotationDetector.baseline_left s;
       NeckRotationDetector.baseline_right s]
  | CHIN_TUCK => fun s =>
      [ChinTuckDetector.baseline_offset s; ChinTuckDetector.baseline_depth s]
  end.

Definition threshold_of (t : ExerciseType) : state_of t -> Q :=
  match t as t0 return state_of t0 -> Q with
  | CERVICAL_FLEXION => CervicalFlexionDetector.threshold
  | CERVICAL_EXTENSION => CervicalExtensionDetector.threshold
  | LATERAL_NECK_TILT => LateralNeckTiltDetector.threshold
  | NECK_ROTATION => NeckRotationDetector.threshold
  | CHIN_TUCK => ChinTuckDetector.threshold
  end.

End Metrics.

(** [x] clamped to [[0,1]]. *)
Definition clamp01 (x : Q) : Q := Qmax 0 (Qmin 1 x).

Definition in_unit_interval (x : Q) : Prop := 0 <= x /\ x <= 1.

(** The raw confidence a subclass computes lies in [[0,1]]. *)
Definition confidence_clamped (S : Type) `{BaseDetector.Subclass S} : Prop :=
  forall (s : S) (l : LandmarkPoints) (d : bool) (c : Q) (m : Metrics),
    BaseDetector._detect_exercise s l = Ok (d, c, m) -> in_unit_interval c.

Arguments confidence_clamped S {_}.

(** The statuses a detector returns over the frames [ls]. *)
Definition statuses {S : Type} `{BaseDetector.Subclass S}
    (d : BaseDetector.obj S) (ls : list LandmarkPoints) : list DetectionStatus :=
  map status (BaseDetector.results d (BaseDetector.frames ls)).

(** Calibration lasts exactly [n] frames: whatever the landmarks, the
    first [n - 1] frames answer CALIBRATING and frame [n] answers READY. *)
Definition calibration_lasts {S : Type} `{BaseDetector.Subclass S}
    (n : nat) (d : BaseDetector.obj S) : Prop :=
  forall ls, List.length ls = n ->
    statuses d ls = repeat CALIBRATING (n - 1) ++ [READY].

(** The direction names the side whose ratio is larger. *)
Definition names_larger_side (left_ratio right_ratio : Q) (direction : string)
  : Prop :=
  (right_ratio < left_ratio -> direction = "LEFT")
  /\ (left_ratio < right_ratio -> direction = "RIGHT").

(** ** Concrete inputs *)

(** A norm that is exact on squares of rationals. *)
Definition exact_sqrt (q : Q) : Q :=
  (Z.sqrt (Qnum q * Z.pos (Qden q)) # Qden q).

Definition exact_numpy : Numpy :=
  {| linalg_norm := fun p => exact_sqrt (fst p * fst p + snd p * snd p) |}.

(** A face on the vertical [x = 100], the nose at height [y], the ears
    at [x = 100 - l] and [x = 100 + r], the shoulders at height 200. *)
Definition face (y l r : Q) : LandmarkPoints :=
  {| nose := (100, y);
     left_ear := (100 - l, y);
     right_ear := (100 + r, y);
     left_shoulder := (60, 200);
     right_shoulder := (140, 200) |}.

(** A detector whose [detect] raises [e]. *)
Definition raising_class (e : Exception) : DetectorClass :=
  {| instance := unit;
     m_detect := fun self _ => (self, Raise e);
     m_reset := fun self => (self, Ok tt);
     get_calibration := fun _ => Raise e |}.

Definition raising_detector (e : Exception) : DetectorObject :=
  {| class_of := raising_class e; self_of := tt |}.

(** The coordinator with its neck-rotation detector replaced by one
    that raises. *)
Definition system_with_faulty_rotation : ExerciseDetectionSystem.t :=
  let s := @ExerciseDetectionSystem.init exact_numpy None 0 in
  {| ExerciseDetectionSystem.config := ExerciseDetectionSystem.config s;
     ExerciseDetectionSystem.detectors :=
       ExerciseDetectionSystem.dict_set (ExerciseDetectionSystem.detectors s)
         NECK_ROTATION (raising_detector (RuntimeError "boom"));
     ExerciseDetectionSystem.total_detections := 0;
     ExerciseDetectionSystem.session_start_time := 0 |}.

Definition pose_of (l : LandmarkPoints) : PoseResults :=
  let p (q : Point) := {| lm_x := fst q; lm_y := snd q |} in
  let z := {| lm_x := 0; lm_y := 0 |} in
  {| pose_landmarks :=
       Some [p (nose l); z; z; z; z; z; z; p (left_ear l); p (right_ear l);
             z; z; p (left_shoulder l); p (right_shoulder l)] |}.

(** [SystemConfig(calibration_frames=n)] and
    [SystemConfig(confidence_smoothing=f)]. *)
Definition with_calibration_frames (n : Z) (c : SystemConfig) : SystemConfig :=
  {| flexion_threshold := flexion_threshold c;
     extension_threshold := extension_threshold c;
     tilt_threshold := tilt_threshold c;
     rotation_threshold := rotation_threshold c;
     chin_tuck_threshold := chin_tuck_threshold c;
     calibration_frames := n;
     confidence_smoothing := confidence_smoothing c;
     min_detection_confidence := min_detection_confidence c;
     min_tracking_confidence := min_tracking_confidence c;
     model_complexity := model_complexity c;
     fps_limit := fps_limit c;
     video_width := video_width c;
     video_height := video_height c |}.

Definition with_confidence_smoothing (f : Q) (c : SystemConfig) : SystemConfig :=
  {| flexion_threshold := flexion_threshold c;
     extension_threshold := extension_threshold c;
     tilt_threshold := tilt_threshold c;
     rotation_threshold := rotation_threshold c;
     chin_tuck_threshold := chin_tuck_threshold c;
     calibration_frames := calibration_frames c;
     confidence_smoothing := f;
     min_detection_confidence := min_detection_confidence c;
     min_tracking_confidence := min_tracking_confidence c;
     model_complexity := model_complexity c;
     fps_limit := fps_limit c;
     video_width := video_width c;
     video_height := video_height c |}.

(** Fifteen frames of a face at rest, and the neck-rotation and
    cervical-flexion detectors calibrated on them. *)
Definition rest_frames : list LandmarkPoints := repeat (face 100 20 20) 15.

Definition calibrated_rotation : BaseDetector.obj NeckRotationDetector.state :=
  BaseDetector.run (NeckRotationDetector.init None) (BaseDetector.frames rest_frames).

Definition calibrated_flexion : BaseDetector.obj CervicalFlexionDetector.state :=
  @BaseDetector.run _ (@CervicalFlexionDetector.impl exact_numpy)
    (CervicalFlexionDetector.init None) (BaseDetector.frames rest_frames).

(** The head turned so that the left-ear offset doubles. *)
Definition turned : LandmarkPoints := face 100 40 20.

(** The chin lowered: nose-to-mid-shoulder distance 80 instead of 100. *)
Definition lowered : LandmarkPoints := face 120 20 20.

(** Fifteen frames at nose-to-mid-shoulder distance 200. *)
Definition raised_frames : list LandmarkPoints := repeat (face 0 20 20) 15.

(** ** Sentences of the specification that the code does not follow *)

(** The direction metric of a neck-rotation result names the side whose
    ratio is larger. *)
Definition rotation_direction_names_larger_side
    (d : BaseDetector.obj NeckRotationDetector.state) (l : LandmarkPoints)
  : Prop :=
  forall left_ratio right_ratio,
    GeometryUtils.calculate_ratio (left_offset l)
      (NeckRotationDetector.baseline_left (BaseDetector.ext d)) = Ok left_ratio ->
    GeometryUtils.calculate_ratio (right_offset l)
      (NeckRotationDetector.baseline_right (BaseDetector.ext d)) = Ok right_ratio ->
    exists m direction,
      metrics (snd (BaseDetector.detect d (Some l))) = Some m
      /\ metrics_get m "direction" = Ok (MStr direction)
      /\ names_larger_side left_ratio right_ratio direction.

(** The calibration of the detector for [t] built with [cfg] lasts
    [cfg.calibration_frames] frames. *)
Definition calibration_follows_config `{Numpy} (t : ExerciseType)
    (cfg : SystemConfig) : Prop :=
  calibration_lasts (Z.to_nat (calibration_frames cfg))
    (new_detector t (Some cfg)).

(** Construction with [cfg] is rejected. *)
Definition rejected_at_construction `{Numpy} (cfg : SystemConfig) : Prop :=
  (forall now, exists e, construct_system (Some cfg) now = Raise e)
  /\ (forall t, exists e, construct_detector t (Some cfg) = Raise e).

(** Two sets of base attributes that differ at most in [config]. *)
Definition same_but_config (b1 b2 : BaseDetector.fields) : Prop :=
  BaseDetector.exercise_type b1 = BaseDetector.exercise_type b2
  /\ BaseDetector.calibration_frames b1 = BaseDetector.calibration_frames b2
  /\ BaseDetector.frames_collected b1 = BaseDetector.frames_collected b2
  /\ BaseDetector.is_calibrated b1 = BaseDetector.is_calibrated b2
  /\ BaseDetector.previous_confidence b1 = BaseDetector.previous_confidence b2.

(** What the coordinator stores for a detector's outcome. *)
Definition outcome (exercise_type : ExerciseType) (r : Exc ExerciseResult)
  : ExerciseResult :=
  match r with
  | Ok result => result
  | Raise e => ExerciseDetectionSystem.fallback exercise_type e
  end.

(** The coordinator after a sequence of frames and resets. *)
Inductive system_call : Type :=
| Frame (pose_results : PoseResults) (frame_shape : Z * Z)
| ResetBaselines (now : Q).

Definition system_step (self : ExerciseDetectionSystem.t) (c : system_call)
  : ExerciseDetectionSystem.t :=
  match c with
  | Frame p s => fst (ExerciseDetectionSystem.detect_exercises self p s)
  | ResetBaselines now => fst (ExerciseDetectionSystem.reset_baselines self now)
  end.

Definition system_run (self : ExerciseDetectionSystem.t) (cs : list system_call)
  : ExerciseDetectionSystem.t :=
  fold_left system_step cs self.

(** How the [detect] call of the detector stored under [k] ends. *)
Definition detect_outcome (self : ExerciseDetectionSystem.t) (k : ExerciseType)
    (landmarks : option LandmarkPoints) : option (Exc ExerciseResult) :=
  match ExerciseDetectionSystem.dict_get (ExerciseDetectionSystem.detectors self) k with
  | Some d => Some (snd (call_detect d landmarks))
  | None => None
  end.

(** * Further code of the repository *)

(** ** geometry.py: MathUtils and the visibility check *)

Module MathUtils.

(** [angle % 360]: the remainder takes the sign of the divisor. *)
Definition normalize_angle (angle : Q) : Q :=
  angle - 360 * inject_Z (Qfloor (angle / 360)).

Definition clamp (value min_val max_val : Q) : Q :=
  py_max min_val (py_min max_val value).

Definition map_range (value from_min from_max to_min to_max : Q) : Q :=
  if Qeq_bool from_max from_min then to_min
  else
    let ratio := (value - from_min) / (from_max - from_min) in
    to_min + ratio * (to_max - to_min).

End MathUtils.

(** [np.any(point < 0)] *)
Definition any_negative (point : Point) : bool :=
  Qlt_bool (fst point) 0 || Qlt_bool (snd point) 0.

(** The loop of [LandmarkExtractor.is_pose_visible] over the five
    points; the test for NaN is outside the model of floats, and no
    statement of the body raises on well-formed landmarks.
    [min_visibility] is accepted and not read. *)
Fixpoint all_visible (points : list Point) : bool :=
  match points with
  | [] => true
  | point :: points' => if any_negative point then false else all_visible points'
  end.

Definition is_pose_visible (landmarks : LandmarkPoints) (min_visibility : Q)
  : bool :=
  all_visible
    [nose landmarks; left_ear landmarks; right_ear landmarks;
     left_shoulder landmarks; right_shoulder landmarks].

(** ** models.py: CalibrationState *)

(** The outcome of an expression that divides two integers. *)
Inductive Division (A : Type) : Type :=
| Quotient (a : A)
| ZeroDivisionError.

Arguments Quotient {A} a.
Arguments ZeroDivisionError {A}.

(** The property [CalibrationState.progress_percentage]: both counts
    are integers, and [/] on a zero count raises. *)
Definition progress_percentage (self : CalibrationState.t) : Division Q :=
  if (CalibrationState.frames_required self =? 0)%Z then ZeroDivisionError
  else
    Quotient
      (py_min 100
         ((inject_Z (CalibrationState.frames_collected self)
           / inject_Z (CalibrationState.frames_required self)) * 100)).


(** ** detection_system.py: the statistics of the coordinator *)

(** [sum(1 for detector in ... if detector.calibration.is_complete)] *)
Fixpoint count_complete (ds : list DetectorObject) : Exc Z :=
  match ds with
  | [] => Ok 0%Z
  | detector :: ds' =>
      calibration <- read_calibration detector ;;
      n <- count_complete ds' ;;
      Ok (if CalibrationState.is_complete calibration then (1 + n)%Z else n)
  end.

(** The second, bound definition of [get_system_stats]; [now] is the
    reading of [time.time()]. *)
Definition get_system_stats (self : ExerciseDetectionSystem.t) (now : Q)
  : Exc Metrics :=
  let session_duration := now - ExerciseDetectionSystem.session_start_time self in
  calibrated_count <-
    count_complete (map snd (ExerciseDetectionSystem.detectors self)) ;;
  Ok [("total_detections", MInt (ExerciseDetectionSystem.total_detections self));
      ("session_duration", MFloat session_duration);
      ("detections_per_second",
       MFloat (inject_Z (ExerciseDetectionSystem.total_detections self)
               / py_max session_duration 1));
      ("calibrated_detectors", MInt calibrated_count);
      ("total_detectors",
       MInt (Z.of_nat (List.length (ExerciseDetectionSystem.detectors self))))].

(** ** video_processor.py

    The pose model, the colour conversion and the drawing calls belong
    to external libraries and act on the image only; [process_frame]
    is modelled from the pose result on, with the measured processing
    time as an input. *)

Module VideoProcessor.

Record t : Type := {
  config : SystemConfig;
  exercise_system : ExerciseDetectionSystem.t;
  processing_times : list Q;
  frame_count : Z
}.

(** The detection system is built without the configuration. *)
Definition init `{Numpy} (config : option SystemConfig) (now : Q) : t :=
  {| config := match config with Some c => c | None => SystemConfig_default end;
     exercise_system := ExerciseDetectionSystem.init None now;
     processing_times := [];
     frame_count := 0 |}.

(** [append], then [pop(0)] when more than 30 times are held. *)
Definition record_time (times : list Q) (processing_time : Q) : list Q :=
  let times := times ++ [processing_time] in
  if (30 <? List.length times)%nat then tl times else times.

Definition process_frame (self : t) (pose_results : PoseResults)
    (frame_shape : Z * Z) (processing_time : Q)
  : t * ExerciseDetectionSystem.dict ExerciseResult :=
  let (system, exercise_results) :=
    ExerciseDetectionSystem.detect_exercises (exercise_system self)
      pose_results frame_shape in
  ({| config := config self;
      exercise_system := system;
      processing_times := record_time (processing_times self) processing_time;
      frame_count := (frame_count self + 1)%Z |},
   exercise_results).

Definition reset_baselines (self : t) (now : Q) : t * Exc unit :=
  let (system, r) :=
    ExerciseDetectionSystem.reset_baselines (exercise_system self) now in
  ({| config := config self;
      exercise_system := system;
      processing_times := processing_times self;
      frame_count := frame_count self |}, r).

(** One processed frame: what the pose model found, the shape of the
    frame and the time the processing took. *)
Definition frame_input : Type := (PoseResults * (Z * Z) * Q)%type.

Definition run_frames (self : t) (fs : list frame_input) : t :=
  fold_left (fun s f => fst (process_frame s (fst (fst f)) (snd (fst f)) (snd f)))
    fs self.

End VideoProcessor.

(** ** Vocabulary of the further properties *)

(** The detectors of a coordinator whose detector for [t] is [d t]. *)
Definition detectors_of `{Numpy}
    (d : forall t : ExerciseType, BaseDetector.obj (state_of t))
  : ExerciseDetectionSystem.dict DetectorObject :=
  map (fun t => (t, detector_object t (d t)))
      ExerciseDetectionSystem.all_exercise_types.

(** What a call to the coordinator asks of each detector. *)
Definition detector_call (c : system_call) : BaseDetector.call :=
  match c with
  | Frame p s => BaseDetector.Detect (LandmarkExtractor.extract_landmarks p s)
  | ResetBaselines _ => BaseDetector.Reset
  end.

(** The number of frames since the last reset. *)
Fixpoint frames_since_reset (cs : list system_call) (n : Z) : Z :=
  match cs with
  | [] => n
  | Frame _ _ :: cs' => frames_since_reset cs' (n + 1)
  | ResetBaselines _ :: cs' => frames_since_reset cs' 0
  end.

(** The [detect] calls of a sequence that carry landmarks. *)
Fixpoint count_present (cs : list BaseDetector.call) : nat :=
  match cs with
  | [] => 0
  | BaseDetector.Detect (Some _) :: cs' => S (count_present cs')
  | _ :: cs' => count_present cs'
  end.

Definition is_detect (c : BaseDetector.call) : bool :=
  match c with
  | BaseDetector.Detect _ => true
  | BaseDetector.Reset => false
  end.

(** The status belongs to the detection phase. *)
Definition detecting (s : DetectionStatus) : bool :=
  match s with
  | DETECTED | NOT_DETECTED => true
  | _ => false
  end.

(** Every baseline of the detector for [t] is set. *)
Definition has_baselines (t : ExerciseType) (s : state_of t) : Prop :=
  Forall (fun b => b <> None) (baselines t s).

(** Two detectors at the same point of their calibration. *)
Definition same_progress (b1 b2 : BaseDetector.fields) : Prop :=
  BaseDetector.calibration_frames b1 = BaseDetector.calibration_frames b2
  /\ BaseDetector.frames_collected b1 = BaseDetector.frames_collected b2
  /\ BaseDetector.is_calibrated b1 = BaseDetector.is_calibrated b2.

(** The last [n] elements of a list. *)
Definition last_n {A : Type} (n : nat) (l : list A) : list A :=
  skipn (List.length l - n) l.

(** * Properties *)

Unset Implicit Arguments.

(** ** Floats *)

Lemma Qlt_bool_iff (a b : Q) : Qlt_bool a b = true <-> a < b.
Proof.
  unfold Qlt_bool. rewrite negb_true_iff.
  split; intro Hab.
  - apply Qnot_le_lt. intro Hle.
    apply Qle_bool_iff in Hle. congruence.
  - destruct (Qle_bool b a) eqn:E; [|reflexivity].
    apply Qle_bool_iff in E. exfalso. apply (Qlt_not_le _ _ Hab E).
Qed.

Lemma Qlt_bool_false_iff (a b : Q) : Qlt_bool a b = false <-> b <= a.
Proof.
  unfold Qlt_bool. rewrite negb_false_iff. apply Qle_bool_iff.
Qed.

Lemma Qlt_bool_comp (a a' b b' : Q) :
  a == a' -> b == b' -> Qlt_bool a b = Qlt_bool a' b'.
Proof.
  intros Ha Hb.
  destruct (Qlt_bool a b) eqn:E1, (Qlt_bool a' b') eqn:E2; try reflexivity.
  - apply Qlt_bool_iff in E1. apply Qlt_bool_false_iff in E2. lra.
  - apply Qlt_bool_iff in E2. apply Qlt_bool_false_iff in E1. lra.
Qed.

Lemma py_min_Qmin (a b : Q) : py_min a b == Qmin a b.
Proof.
  unfold py_min. destruct (Qlt_bool b a) eqn:E.
  - apply Qlt_bool_iff in E. rewrite Q.min_r; [reflexivity | lra].
  - apply Qlt_bool_false_iff in E. rewrite Q.min_l; [reflexivity | exact E].
Qed.

Lemma py_max_Qmax (a b : Q) : py_max a b == Qmax a b.
Proof.
  unfold py_max. destruct (Qlt_bool a b) eqn:E.
  - apply Qlt_bool_iff in E. rewrite Q.max_r; [reflexivity | lra].
  - apply Qlt_bool_false_iff in E. rewrite Q.max_l; [reflexivity | exact E].
Qed.

Lemma py_clamp_clamp01 (x : Q) : py_max 0 (py_min 1 x) == clamp01 x.
Proof.
  unfold clamp01. rewrite py_max_Qmax.
  apply Q.max_compat; [reflexivity | apply py_min_Qmin].
Qed.

Lemma py_clamp_unit (x : Q) : in_unit_interval (py_max 0 (py_min 1 x)).
Proof.
  unfold in_unit_interval, py_max, py_min.
  destruct (Qlt_bool x 1) eqn:E1.
  - apply Qlt_bool_iff in E1.
    destruct (Qlt_bool 0 x) eqn:E2.
    + apply Qlt_bool_iff in E2. lra.
    + lra.
  - destruct (Qlt_bool 0 1) eqn:E2.
    + lra.
    + lra.
Qed.

Lemma zero_unit : in_unit_interval 0.
Proof. unfold in_unit_interval. lra. Qed.

Lemma smooth_value_unit (c p : Q) :
  in_unit_interval c -> in_unit_interval p ->
  in_unit_interval
    (GeometryUtils.smooth_value c p GeometryUtils.default_smoothing_factor).
Proof.
  unfold in_unit_interval, GeometryUtils.smooth_value,
    GeometryUtils.default_smoothing_factor.
  intros [Hc0 Hc1] [Hp0 Hp1]. lra.
Qed.

(** ** The median *)

Lemma insert_sorted_perm (x : Q) (l : list Q) :
  Permutation (insert_sorted x l) (x :: l).
Proof.
  induction l as [|y l IH]; simpl.
  - apply Permutation_refl.
  - destruct (Qle_bool x y).
    + apply Permutation_refl.
    + eapply perm_trans; [apply perm_skip, IH | apply perm_swap].
Qed.

Lemma np_sort_perm (l : list Q) : Permutation (np_sort l) l.
Proof.
  induction l as [|x l IH]; simpl.
  - constructor.
  - eapply perm_trans; [apply insert_sorted_perm | apply perm_skip, IH].
Qed.

Lemma insert_sorted_sorted (x : Q) (l : list Q) :
  StronglySorted Qle l -> StronglySorted Qle (insert_sorted x l).
Proof.
  induction l as [|y l IH]; simpl; intro Hs.
  - repeat constructor.
  - inversion Hs as [|? ? Hl Hy]; subst.
    destruct (Qle_bool x y) eqn:E.
    + apply Qle_bool_iff in E.
      constructor; [exact Hs|].
      constructor; [exact E|].
      eapply Forall_impl; [|exact Hy].
      intros z Hz. lra.
    + assert (Hyx : y <= x).
      { destruct (Qlt_le_dec y x) as [Hlt|Hle]; [lra|].
        apply Qle_bool_iff in Hle. congruence. }
      constructor; [apply IH, Hl|].
      eapply Permutation_Forall;
        [apply Permutation_sym, insert_sorted_perm|].
      constructor; assumption.
Qed.

Lemma np_sort_sorted (l : list Q) : StronglySorted Qle (np_sort l).
Proof.
  induction l as [|x l IH]; simpl.
  - constructor.
  - apply insert_sorted_sorted, IH.
Qed.

Lemma np_sort_length (l : list Q) : List.length (np_sort l) = List.length l.
Proof. apply Permutation_length, np_sort_perm. Qed.

Lemma nth_Forall (P : Q -> Prop) (l : list Q) (i : nat) :
  Forall P l -> (i < List.length l)%nat -> P (nth i l 0).
Proof.
  intros Hall Hi. rewrite Forall_forall in Hall.
  apply Hall, nth_In, Hi.
Qed.

(** The median of samples that all equal [c] is [c]. *)
Lemma np_median_constant (c : Q) (l : list Q) :
  l <> [] -> Forall (fun x => x == c) l -> np_median l == c.
Proof.
  intros Hne Hall.
  assert (Hs : Forall (fun x => x == c) (np_sort l)).
  { eapply Permutation_Forall; [apply Permutation_sym, np_sort_perm | exact Hall]. }
  assert (Hlen : (0 < List.length l)%nat).
  { destruct l; [congruence | simpl; lia]. }
  assert (Hhalf : (List.length l / 2 < List.length l)%nat).
  { apply Nat.div_lt; lia. }
  unfold np_median.
  destruct (Nat.even (List.length l)).
  - assert (H1 : nth (List.length l / 2 - 1) (np_sort l) 0 == c).
    { apply (nth_Forall (fun x => x == c)); [exact Hs|].
      rewrite np_sort_length. lia. }
    assert (H2 : nth (List.length l / 2) (np_sort l) 0 == c).
    { apply (nth_Forall (fun x => x == c)); [exact Hs|].
      rewrite np_sort_length. lia. }
    rewrite H1, H2. field.
  - apply (nth_Forall (fun x => x == c)); [exact Hs|].
    rewrite np_sort_length. lia.
Qed.

(** ** The shared state machine *)

Section StateMachine.

Import BaseDetector.

Context {S : Type} `{Subclass S}.

Lemma run_app (self : obj S) (cs1 cs2 : list call) :
  run self (cs1 ++ cs2) = run (run self cs1) cs2.
Proof.
  revert self. induction cs1 as [|c cs1 IH]; intro self; simpl.
  - reflexivity.
  - apply IH.
Qed.

Lemma results_app (self : obj S) (cs1 cs2 : list call) :
  results self (cs1 ++ cs2) = results self cs1 ++ results (run self cs1) cs2.
Proof.
  revert self. induction cs1 as [|c cs1 IH]; intro self; simpl.
  - reflexivity.
  - destruct (step self c) as [self' [r|]] eqn:E; simpl; rewrite IH; reflexivity.
Qed.

Lemma frames_app (ls1 ls2 : list LandmarkPoints) :
  frames (ls1 ++ ls2) = frames ls1 ++ frames ls2.
Proof. unfold frames. apply map_app. Qed.

Lemma detect_absent (self : obj S) :
  detect self None
  = (self,
     ExerciseResult5 (BaseDetector.exercise_type (base self)) false 0 ERROR
       (Text "No pose detected - ensure you're visible to camera")).
Proof. reflexivity. Qed.

(** A frame that does not complete the calibration. *)
Lemma detect_calibrating (self : obj S) (l : LandmarkPoints) :
  is_calibrated (base self) = false ->
  (frames_collected (base self) + 1 < BaseDetector.calibration_frames (base self))%Z ->
  let (self', r) := detect self (Some l) in
  status r = CALIBRATING /\ detected r = false /\ confidence r = 0
  /\ ext self' = _collect_baseline_data (ext self) l
  /\ base self'
     = set_frames_collected (frames_collected (base self) + 1) (base self).
Proof.
  intros Hc Hlt. unfold detect, _handle_calibration. rewrite Hc. simpl.
  destruct (Z.geb_spec (frames_collected (base self) + 1)
              (BaseDetector.calibration_frames (base self))) as [Hge|_];
    [lia|].
  simpl. repeat split; reflexivity.
Qed.

(** The frame that completes the calibration. *)
Lemma detect_completing (self : obj S) (l : LandmarkPoints) :
  is_calibrated (base self) = false ->
  (BaseDetector.calibration_frames (base self) <= frames_collected (base self) + 1)%Z ->
  let (self', r) := detect self (Some l) in
  status r = READY /\ detected r = false /\ confidence r = 0
  /\ ext self' = _finalize_calibration (_collect_baseline_data (ext self) l)
  /\ base self'
     = set_is_calibrated true
         (set_frames_collected (frames_collected (base self) + 1) (base self)).
Proof.
  intros Hc Hle. unfold detect, _handle_calibration. rewrite Hc. simpl.
  destruct (Z.geb_spec (frames_collected (base self) + 1)
              (BaseDetector.calibration_frames (base self))) as [_|Hlt];
    [|lia].
  simpl. repeat split; reflexivity.
Qed.

(** Frames that leave the calibration incomplete. *)
Lemma run_calibrating (ls : list LandmarkPoints) (self : obj S) :
  is_calibrated (base self) = false ->
  (frames_collected (base self) + Z.of_nat (List.length ls)
   < BaseDetector.calibration_frames (base self))%Z ->
  let self' := run self (frames ls) in
  is_calibrated (base self') = false
  /\ frames_collected (base self')
     = (frames_collected (base self) + Z.of_nat (List.length ls))%Z
  /\ BaseDetector.calibration_frames (base self')
     = BaseDetector.calibration_frames (base self)
  /\ previous_confidence (base self') = previous_confidence (base self)
  /\ BaseDetector.exercise_type (base self') = BaseDetector.exercise_type (base self)
  /\ BaseDetector.config (base self') = BaseDetector.config (base self)
  /\ ext self' = collect_all (ext self) ls
  /\ statuses self ls = repeat CALIBRATING (List.length ls).
Proof.
  revert self. induction ls as [|l ls IH]; intros self Hc Hlt.
  - simpl. repeat split; try reflexivity; [exact Hc | lia].
  - cbn [List.length] in Hlt. rewrite Nat2Z.inj_succ in Hlt.
    pose proof (detect_calibrating self l Hc ltac:(lia)) as Hd.
    unfold statuses. cbn [frames map run results step]. cbn zeta.
    destruct (detect self (Some l)) as [self1 r1]. cbn [fst map].
    destruct Hd as (Hs & _ & _ & He & Hb).
    assert (Hc1 : is_calibrated (base self1) = false) by (rewrite Hb; exact Hc).
    assert (Hf1 : frames_collected (base self1)
                  = (frames_collected (base self) + 1)%Z)
      by (rewrite Hb; reflexivity).
    assert (Hn1 : BaseDetector.calibration_frames (base self1)
                  = BaseDetector.calibration_frames (base self))
      by (rewrite Hb; reflexivity).
    specialize (IH self1 Hc1 ltac:(rewrite Hf1, Hn1; lia)).
    cbn zeta in IH. unfold statuses, frames in IH.
    destruct IH as (I1 & I2 & I3 & I4 & I5 & I6 & I7 & I8).
    repeat split.
    + exact I1.
    + rewrite I2, Hf1. cbn [List.length]. lia.
    + rewrite I3. exact Hn1.
    + rewrite I4, Hb. reflexivity.
    + rewrite I5, Hb. reflexivity.
    + rewrite I6, Hb. reflexivity.
    + rewrite I7, He. reflexivity.
    + cbn [List.length repeat]. rewrite I8, Hs. reflexivity.
Qed.

(** Frames of which the last completes the calibration. *)
Lemma run_completing (ls : list LandmarkPoints) (l : LandmarkPoints)
    (self : obj S) :
  is_calibrated (base self) = false ->
  (frames_collected (base self) + Z.of_nat (List.length ls) + 1
   = BaseDetector.calibration_frames (base self))%Z ->
  let self' := run self (frames (ls ++ [l])) in
  is_calibrated (base self') = true
  /\ previous_confidence (base self') = previous_confidence (base self)
  /\ ext self' = _finalize_calibration (collect_all (ext self) (ls ++ [l]))
  /\ statuses self (ls ++ [l]) = repeat CALIBRATING (List.length ls) ++ [READY].
Proof.
  intros Hc Hn.
  pose proof (run_calibrating ls self Hc ltac:(lia)) as Hr.
  cbn zeta in Hr. destruct Hr as (I1 & I2 & I3 & I4 & _ & _ & I7 & I8).
  pose proof (detect_completing (run self (frames ls)) l I1
                ltac:(rewrite I2, I3; lia)) as Hd.
  cbn zeta. unfold statuses in *.
  rewrite frames_app, run_app, results_app, map_app, I8.
  cbn [frames map run results step fst].
  destruct (detect (run self (frames ls)) (Some l)) as [self1 r1].
  destruct Hd as (Hs & _ & _ & He & Hb).
  cbn [fst map]. repeat split.
  - rewrite Hb. reflexivity.
  - rewrite Hb. cbn. exact I4.
  - rewrite He, I7. unfold collect_all. rewrite fold_left_app. reflexivity.
  - rewrite Hs. reflexivity.
Qed.

End StateMachine.

Section Detection.

Import BaseDetector.

Context {S : Type} `{Subclass S}.

(** A frame on a calibrated detector touches only the previous
    confidence. *)
Lemma detect_calibrated_frame (self : obj S) (l : LandmarkPoints) :
  is_calibrated (base self) = true ->
  let (self', r) := detect self (Some l) in
  ext self' = ext self
  /\ is_calibrated (base self') = true
  /\ frames_collected (base self') = frames_collected (base self)
  /\ BaseDetector.calibration_frames (base self')
     = BaseDetector.calibration_frames (base self).
Proof.
  intro Hc. unfold detect. rewrite Hc. cbn [negb].
  destruct (_detect_exercise (ext self) l) as [[[d c] m]|e].
  - destruct (_generate_status_message d _ m); cbn; auto.
  - cbn; auto.
Qed.

(** What a calibrated detector answers when its subclass methods
    return. *)
Lemma detect_calibrated_result (self : obj S) (l : LandmarkPoints)
    (d : bool) (c : Q) (m : Metrics) (msg : StatusMessage) :
  is_calibrated (base self) = true ->
  _detect_exercise (ext self) l = Ok (d, c, m) ->
  _generate_status_message d
    (GeometryUtils.smooth_value c (previous_confidence (base self))
       GeometryUtils.default_smoothing_factor) m = Ok msg ->
  detect self (Some l)
  = (with_base
       (set_previous_confidence
          (GeometryUtils.smooth_value c (previous_confidence (base self))
             GeometryUtils.default_smoothing_factor)) self,
     ExerciseResult6 (BaseDetector.exercise_type (base self)) d
       (GeometryUtils.smooth_value c (previous_confidence (base self))
          GeometryUtils.default_smoothing_factor)
       (if d then DETECTED else NOT_DETECTED) msg m).
Proof.
  intros Hc Hd Hm. unfold detect. rewrite Hc, Hd. cbn [negb].
  rewrite Hm. reflexivity.
Qed.

(** One call keeps the confidences in [[0,1]]. *)
Lemma step_confidence (self : obj S) (c : call) :
  confidence_clamped S ->
  in_unit_interval (previous_confidence (base self)) ->
  in_unit_interval (previous_confidence (base (fst (step self c))))
  /\ (forall r, snd (step self c) = Some r -> in_unit_interval (confidence r)).
Proof.
  intros Hlaw Hp. destruct c as [[l|]|]; cbn [step].
  - unfold detect.
    destruct (is_calibrated (base self)) eqn:Hc; cbn [negb].
    + destruct (_detect_exercise (ext self) l) as [[[d c] m]|e] eqn:Hd.
      * pose proof (smooth_value_unit c _ (Hlaw _ _ _ _ _ Hd) Hp) as Hs.
        destruct (_generate_status_message d _ m); cbn; split; try exact Hs;
          intros r Hr; inversion Hr; subst; cbn;
          [exact Hs | apply zero_unit].
      * cbn. split; [exact Hp|].
        intros r Hr; inversion Hr; subst; cbn. apply zero_unit.
    + unfold _handle_calibration. cbn.
      destruct (_ >=? _)%Z; cbn; (split; [exact Hp|]);
        intros r Hr; inversion Hr; subst; cbn; apply zero_unit.
  - cbn. split; [exact Hp|].
    intros r Hr; inversion Hr; subst; cbn. apply zero_unit.
  - cbn. split; [apply zero_unit|]. intros r Hr. discriminate.
Qed.

Lemma run_confidence (cs : list call) (self : obj S) :
  confidence_clamped S ->
  in_unit_interval (previous_confidence (base self)) ->
  in_unit_interval (previous_confidence (base (run self cs)))
  /\ Forall (fun r => in_unit_interval (confidence r)) (results self cs).
Proof.
  intro Hlaw. revert self.
  induction cs as [|c cs IH]; intros self Hp; cbn [run results].
  - split; [exact Hp | constructor].
  - destruct (step_confidence self c Hlaw Hp) as [Hp' Hr].
    destruct (step self c) as [self' r]. cbn [fst snd] in *.
    destruct (IH self' Hp') as [I1 I2].
    split; [exact I1|].
    destruct r as [r|]; [constructor; [apply Hr; reflexivity | exact I2] | exact I2].
Qed.

(** [reset] writes three base attributes and nothing else. *)
Lemma reset_fields (self : obj S) :
  frames_collected (base (reset self)) = 0%Z
  /\ is_calibrated (base (reset self)) = false
  /\ previous_confidence (base (reset self)) = 0
  /\ BaseDetector.calibration_frames (base (reset self))
     = BaseDetector.calibration_frames (base self)
  /\ ext (reset self) = ext self.
Proof. repeat split; reflexivity. Qed.

End Detection.

(** ** The subclasses *)

Section Subclasses.

Context `{Numpy}.

Lemma flexion_clamped : confidence_clamped CervicalFlexionDetector.state.
Proof.
  intros s l d c m. cbn. unfold CervicalFlexionDetector.detect_exercise.
  destruct (GeometryUtils.calculate_ratio _ _) as [r|e]; cbn; [|discriminate].
  intro E; inversion E; subst.
  destruct (Qlt_bool _ _); [apply py_clamp_unit | apply zero_unit].
Qed.

Lemma extension_clamped : confidence_clamped CervicalExtensionDetector.state.
Proof.
  intros s l d c m. cbn. unfold CervicalExtensionDetector.detect_exercise.
  destruct (GeometryUtils.calculate_ratio _ _) as [r|e]; cbn; [|discriminate].
  intro E; inversion E; subst.
  destruct (Qlt_bool _ _); [apply py_clamp_unit | apply zero_unit].
Qed.

Lemma tilt_clamped : confidence_clamped LateralNeckTiltDetector.state.
Proof.
  intros s l d c m. cbn. unfold LateralNeckTiltDetector.detect_exercise.
  destruct (GeometryUtils.calculate_ratio _ _) as [r|e]; cbn; [|discriminate].
  destruct (GeometryUtils.calculate_ratio _ _) as [r'|e]; cbn; [|discriminate].
  intro E; inversion E; subst.
  destruct (Qlt_bool _ _); [apply py_clamp_unit | apply zero_unit].
Qed.

Lemma rotation_clamped : confidence_clamped NeckRotationDetector.state.
Proof.
  intros s l d c m. cbn. unfold NeckRotationDetector.detect_exercise.
  destruct (GeometryUtils.calculate_ratio _ _) as [r|e]; cbn; [|discriminate].
  destruct (GeometryUtils.calculate_ratio _ _) as [r'|e]; cbn; [|discriminate].
  intro E; inversion E; subst.
  destruct (Qlt_bool _ _); [apply py_clamp_unit | apply zero_unit].
Qed.

Lemma chin_tuck_clamped : confidence_clamped ChinTuckDetector.state.
Proof.
  intros s l d c m. cbn. unfold ChinTuckDetector.detect_exercise.
  destruct (GeometryUtils.calculate_ratio _ _) as [r|e]; cbn; [|discriminate].
  destruct (GeometryUtils.calculate_ratio _ _) as [r'|e]; cbn; [|discriminate].
  intro E; inversion E; subst.
  destruct (_ && _); [apply py_clamp_unit | apply zero_unit].
Qed.

Lemma every_detector_clamped (t : ExerciseType) :
  confidence_clamped (state_of t).
Proof.
  destruct t;
    [ apply flexion_clamped | apply extension_clamped | apply tilt_clamped
    | apply rotation_clamped | apply chin_tuck_clamped ].
Qed.

End Subclasses.

(** ** What calibration collects *)

Section Collected.

Context `{Numpy}.

Lemma flexion_collect_all (ls : list LandmarkPoints)
    (s : CervicalFlexionDetector.state) :
  BaseDetector.collect_all s ls
  = {| CervicalFlexionDetector.baseline_distance :=
         CervicalFlexionDetector.baseline_distance s;
       CervicalFlexionDetector.calibration_distances :=
         CervicalFlexionDetector.calibration_distances s
         ++ map nose_to_mid_shoulder ls;
       CervicalFlexionDetector.threshold := CervicalFlexionDetector.threshold s |}.
Proof.
  revert s. unfold BaseDetector.collect_all.
  induction ls as [|l ls IH]; intro s; cbn [fold_left map].
  - destruct s; cbn. rewrite app_nil_r. reflexivity.
  - rewrite IH. cbn. rewrite <- app_assoc. reflexivity.
Qed.

Lemma extension_collect_all (ls : list LandmarkPoints)
    (s : CervicalExtensionDetector.state) :
  BaseDetector.collect_all s ls
  = {| CervicalExtensionDetector.baseline_distance :=
         CervicalExtensionDetector.baseline_distance s;
       CervicalExtensionDetector.calibration_distances :=
         CervicalExtensionDetector.calibration_distances s
         ++ map nose_to_mid_shoulder ls;
       CervicalExtensionDetector.threshold :=
         CervicalExtensionDetector.threshold s |}.
Proof.
  revert s. unfold BaseDetector.collect_all.
  induction ls as [|l ls IH]; intro s; cbn [fold_left map].
  - destruct s; cbn. rewrite app_nil_r. reflexivity.
  - rewrite IH. cbn. rewrite <- app_assoc. reflexivity.
Qed.

Lemma tilt_collect_all (ls : list LandmarkPoints)
    (s : LateralNeckTiltDetector.state) :
  BaseDetector.collect_all s ls
  = {| LateralNeckTiltDetector.baseline_left :=
         LateralNeckTiltDetector.baseline_left s;
       LateralNeckTiltDetector.baseline_right :=
         LateralNeckTiltDetector.baseline_right s;
       LateralNeckTiltDetector.calibration_left :=
         LateralNeckTiltDetector.calibration_left s ++ map nose_to_left_ear ls;
       LateralNeckTiltDetector.calibration_right :=
         LateralNeckTiltDetector.calibration_right s ++ map nose_to_right_ear ls;
       LateralNeckTiltDetector.threshold := LateralNeckTiltDetector.threshold s |}.
Proof.
  revert s. unfold BaseDetector.collect_all.
  induction ls as [|l ls IH]; intro s; cbn [fold_left map].
  - destruct s; cbn. rewrite !app_nil_r. reflexivity.
  - rewrite IH. cbn. rewrite <- !app_assoc. reflexivity.
Qed.

Lemma rotation_collect_all (ls : list LandmarkPoints)
    (s : NeckRotationDetector.state) :
  BaseDetector.collect_all s ls
  = {| NeckRotationDetector.baseline_left := NeckRotationDetector.baseline_left s;
       NeckRotationDetector.baseline_right := NeckRotationDetector.baseline_right s;
       NeckRotationDetector.calibration_left :=
         NeckRotationDetector.calibration_left s ++ map left_offset ls;
       NeckRotationDetector.calibration_right :=
         NeckRotationDetector.calibration_right s ++ map right_offset ls;
       NeckRotationDetector.threshold := NeckRotationDetector.threshold s |}.
Proof.
  revert s. unfold BaseDetector.collect_all.
  induction ls as [|l ls IH]; intro s; cbn [fold_left map].
  - destruct s; cbn. rewrite !app_nil_r. reflexivity.
  - rewrite IH. cbn. rewrite <- !app_assoc. reflexivity.
Qed.

Lemma chin_tuck_collect_all (ls : list LandmarkPoints)
    (s : ChinTuckDetector.state) :
  BaseDetector.collect_all s ls
  = {| ChinTuckDetector.baseline_offset := ChinTuckDetector.baseline_offset s;
       ChinTuckDetector.baseline_depth := ChinTuckDetector.baseline_depth s;
       ChinTuckDetector.calibration_offsets :=
         ChinTuckDetector.calibration_offsets s ++ map chin_offset ls;
       ChinTuckDetector.calibration_depths :=
         ChinTuckDetector.calibration_depths s ++ map chin_depth ls;
       ChinTuckDetector.threshold := ChinTuckDetector.threshold s |}.
Proof.
  revert s. unfold BaseDetector.collect_all.
  induction ls as [|l ls IH]; intro s; cbn [fold_left map].
  - destruct s; cbn. rewrite !app_nil_r. reflexivity.
  - rewrite IH. cbn. rewrite <- !app_assoc. reflexivity.
Qed.

(** Finalising the samples of a fresh detector over non-empty [ls]. *)
Lemma fresh_baseline_is_median (t : ExerciseType) (cfg : option SystemConfig)
    (ls : list LandmarkPoints) :
  ls <> [] ->
  baseline_is_median t ls
    (BaseDetector._finalize_calibration
       (BaseDetector.collect_all (BaseDetector.ext (new_detector t cfg)) ls)).
Proof.
  intro Hne. destruct ls as [|l ls]; [congruence|].
  destruct t; cbn [new_detector state_of impl_of baseline_is_median].
  - rewrite flexion_collect_all. reflexivity.
  - rewrite extension_collect_all. reflexivity.
  - rewrite tilt_collect_all. split; reflexivity.
  - rewrite rotation_collect_all. split; reflexivity.
  - rewrite chin_tuck_collect_all. split; reflexivity.
Qed.

Lemma fresh_detector (t : ExerciseType) (cfg : option SystemConfig) :
  BaseDetector.base (new_detector t cfg)
  = BaseDetector.init t cfg.
Proof. destruct t; reflexivity. Qed.

End Collected.

(** ** A fresh detector over fifteen frames *)

Lemma fresh_run_15 `{Numpy} (t : ExerciseType) (cfg : option SystemConfig)
    (ls : list LandmarkPoints) :
  List.length ls = 15%nat ->
  let d := BaseDetector.run (new_detector t cfg) (BaseDetector.frames ls) in
  BaseDetector.is_calibrated (BaseDetector.base d) = true
  /\ BaseDetector.previous_confidence (BaseDetector.base d) = 0
  /\ BaseDetector.ext d
     = BaseDetector._finalize_calibration
         (BaseDetector.collect_all (BaseDetector.ext (new_detector t cfg)) ls)
  /\ statuses (new_detector t cfg) ls = repeat CALIBRATING 14 ++ [READY].
Proof.
  intro Hlen.
  destruct (exists_last (l := ls)) as (ls' & l & ->).
  { intro E; subst ls; discriminate. }
  rewrite length_app in Hlen. cbn [List.length] in Hlen.
  pose proof (run_completing ls' l (new_detector t cfg)) as Hr.
  rewrite fresh_detector in Hr. cbn in Hr.
  destruct (Hr eq_refl ltac:(lia)) as (R1 & R2 & R3 & R4).
  cbn zeta. repeat split; try assumption.
  rewrite R4. replace (List.length ls') with 14%nat by lia. reflexivity.
Qed.

Lemma py_clamp_id (x : Q) : in_unit_interval x -> py_max 0 (py_min 1 x) == x.
Proof.
  intros [H0 H1]. rewrite py_clamp_clamp01. unfold clamp01.
  rewrite Q.min_r by exact H1. rewrite Q.max_r by exact H0. reflexivity.
Qed.

Lemma calculate_ratio_nonzero (x b : Q) :
  ~ b == 0 -> GeometryUtils.calculate_ratio x (Some b) = Ok (x / b).
Proof.
  intro Hb. unfold GeometryUtils.calculate_ratio.
  destruct (Qeq_bool b 0) eqn:E; [|reflexivity].
  apply Qeq_bool_iff in E. contradiction.
Qed.

(** ** The neck-rotation detector over its lifetime *)

Lemma rotation_step_invariant (d : BaseDetector.obj NeckRotationDetector.state)
    (c : BaseDetector.call) :
  (NeckRotationDetector.threshold (BaseDetector.ext d) = 15 # 10
   /\ (BaseDetector.is_calibrated (BaseDetector.base d) = true ->
       exists bl br,
         NeckRotationDetector.baseline_left (BaseDetector.ext d) = Some bl
         /\ NeckRotationDetector.baseline_right (BaseDetector.ext d) = Some br)) ->
  let d' := fst (BaseDetector.step d c) in
  NeckRotationDetector.threshold (BaseDetector.ext d') = 15 # 10
  /\ (BaseDetector.is_calibrated (BaseDetector.base d') = true ->
      exists bl br,
        NeckRotationDetector.baseline_left (BaseDetector.ext d') = Some bl
        /\ NeckRotationDetector.baseline_right (BaseDetector.ext d') = Some br).
Proof.
  intros [Ht Hb]. destruct c as [[l|]|]; cbn [BaseDetector.step].
  - destruct (BaseDetector.is_calibrated (BaseDetector.base d)) eqn:Hc.
    + pose proof (detect_calibrated_frame d l Hc) as Hd.
      destruct (BaseDetector.detect d (Some l)) as [d1 r]. cbn [fst].
      destruct Hd as (He & _). rewrite He. split; [exact Ht | intros _; auto].
    + unfold BaseDetector.detect, BaseDetector._handle_calibration.
      rewrite Hc. cbn [negb]. cbn.
      destruct (_ >=? _)%Z; cbn.
      * unfold NeckRotationDetector.finalize_calibration. cbn.
        destruct (NeckRotationDetector.calibration_left (BaseDetector.ext d)),
          (NeckRotationDetector.calibration_right (BaseDetector.ext d));
          cbn; (split; [exact Ht | intros _; eauto]).
      * split; [exact Ht | intro E; congruence].
  - cbn. split; [exact Ht | exact Hb].
  - cbn. split; [exact Ht | discriminate].
Qed.

Lemma rotation_run_invariant (cfg : option SystemConfig)
    (cs : list BaseDetector.call) :
  let d := BaseDetector.run (NeckRotationDetector.init cfg) cs in
  NeckRotationDetector.threshold (BaseDetector.ext d) = 15 # 10
  /\ (BaseDetector.is_calibrated (BaseDetector.base d) = true ->
      exists bl br,
        NeckRotationDetector.baseline_left (BaseDetector.ext d) = Some bl
        /\ NeckRotationDetector.baseline_right (BaseDetector.ext d) = Some br).
Proof.
  cbn zeta.
  assert (H0 : NeckRotationDetector.threshold
                 (BaseDetector.ext (NeckRotationDetector.init cfg)) = 15 # 10
               /\ (BaseDetector.is_calibrated
                     (BaseDetector.base (NeckRotationDetector.init cfg)) = true ->
                   exists bl br,
                     NeckRotationDetector.baseline_left
                       (BaseDetector.ext (NeckRotationDetector.init cfg)) = Some bl
                     /\ NeckRotationDetector.baseline_right
                          (BaseDetector.ext (NeckRotationDetector.init cfg))
                        = Some br)).
  { split; [reflexivity | discriminate]. }
  revert H0. generalize (NeckRotationDetector.init cfg).
  induction cs as [|c cs IH]; intros d Hd; cbn [BaseDetector.run].
  - exact Hd.
  - apply IH. apply (rotation_step_invariant d c Hd).
Qed.

Lemma calculate_ratio_some (x b : Q) :
  exists r, GeometryUtils.calculate_ratio x (Some b) = Ok r.
Proof.
  unfold GeometryUtils.calculate_ratio. destruct (Qeq_bool b 0); eauto.
Qed.

(** ** The coordinator *)

Section Coordinator.

Import ExerciseDetectionSystem.

Lemma ExerciseType_eqb_spec (a b : ExerciseType) :
  reflect (a = b) (ExerciseType_eqb a b).
Proof. destruct a, b; cbn; constructor; congruence. Qed.

Lemma dict_get_set_same {V : Type} (d : dict V) (k : ExerciseType) (v : V) :
  dict_get (dict_set d k v) k = Some v.
Proof.
  induction d as [|[k' v'] d IH]; cbn.
  - destruct (ExerciseType_eqb_spec k k); congruence.
  - destruct (ExerciseType_eqb_spec k k') as [->|Hne]; cbn.
    + destruct (ExerciseType_eqb_spec k' k'); congruence.
    + destruct (ExerciseType_eqb_spec k k'); [contradiction | exact IH].
Qed.

Lemma dict_get_set_other {V : Type} (d : dict V) (k k' : ExerciseType) (v : V) :
  k' <> k -> dict_get (dict_set d k v) k' = dict_get d k'.
Proof.
  intro Hne. induction d as [|[k0 v0] d IH]; cbn.
  - destruct (ExerciseType_eqb_spec k' k); [contradiction | reflexivity].
  - destruct (ExerciseType_eqb_spec k k0) as [->|Hk]; cbn.
    + destruct (ExerciseType_eqb_spec k' k0); [contradiction | reflexivity].
    + destruct (ExerciseType_eqb_spec k' k0); [reflexivity | exact IH].
Qed.

(** After the loop every detector's key holds that detector's outcome,
    and the other keys hold what they held. *)
Lemma detect_loop_results (ds : dict DetectorObject)
    (landmarks : option LandmarkPoints) (acc : dict ExerciseResult) :
  NoDup (keys ds) ->
  let res := snd (detect_loop ds landmarks acc) in
  (forall k d, In (k, d) ds ->
     dict_get res k = Some (outcome k (snd (call_detect d landmarks))))
  /\ (forall k, ~ In k (keys ds) -> dict_get res k = dict_get acc k).
Proof.
  revert acc. induction ds as [|[k0 d0] ds IH]; intros acc Hnd; cbn zeta.
  - cbn. split; [intros k d []|reflexivity].
  - cbn [keys map fst] in Hnd. inversion Hnd as [|? ? Hnotin Hnd']; subst.
    cbn [detect_loop].
    destruct (call_detect d0 landmarks) as [d0' r0] eqn:E0.
    set (acc' := match r0 with
                 | Ok result => dict_set acc k0 result
                 | Raise e => dict_set acc k0 (fallback k0 e)
                 end).
    specialize (IH acc' Hnd'). cbn zeta in IH.
    destruct (detect_loop ds landmarks acc') as [ds'' res]. cbn [snd] in *.
    destruct IH as [IH1 IH2].
    assert (Hk0 : dict_get acc' k0 = Some (outcome k0 r0)).
    { unfold acc', outcome. destruct r0; apply dict_get_set_same. }
    split.
    + intros k d [Heq|Hin].
      * inversion Heq; subst. rewrite E0. cbn [snd].
        rewrite (IH2 k Hnotin). exact Hk0.
      * apply IH1, Hin.
    + intros k Hk. cbn [keys map fst] in Hk.
      assert (Hne : k <> k0) by (intro; subst; apply Hk; left; reflexivity).
      rewrite IH2 by (intro Hin; apply Hk; right; exact Hin).
      unfold acc'. destruct r0; apply dict_get_set_other; exact Hne.
Qed.

Lemma detect_exercises_results (self : t) (pose_results : PoseResults)
    (frame_shape : Z * Z) (k : ExerciseType) (d : DetectorObject) :
  NoDup (keys (detectors self)) ->
  In (k, d) (detectors self) ->
  dict_get (snd (detect_exercises self pose_results frame_shape)) k
  = Some (outcome k
            (snd (call_detect d
                    (LandmarkExtractor.extract_landmarks pose_results frame_shape)))).
Proof.
  intros Hnd Hin. unfold detect_exercises.
  pose proof (detect_loop_results (detectors self)
                (LandmarkExtractor.extract_landmarks pose_results frame_shape)
                [] Hnd) as Hl.
  cbn zeta in Hl.
  destruct (detect_loop _ _ _) as [ds res]. cbn [snd] in *.
  apply Hl, Hin.
Qed.

(** Reading [calibration] from the first detector raises, whatever the
    coordinator has done so far. *)
Lemma first_detector_lacks_calibration `{Numpy} (cfg : option SystemConfig)
    (now : Q) (cs : list system_call) :
  exists k d ds,
    detectors (system_run (init cfg now) cs) = (k, d) :: ds
    /\ forall x : instance (class_of d),
         get_calibration (class_of d) x
         = Raise (AttributeError
                    "'CervicalFlexionDetector' object has no attribute 'calibration'").
Proof.
  unfold system_run.
  assert (H0 : exists k d ds,
             detectors (init cfg now) = (k, d) :: ds
             /\ forall x : instance (class_of d),
                  get_calibration (class_of d) x
                  = Raise (AttributeError
                             "'CervicalFlexionDetector' object has no attribute 'calibration'")).
  { eexists _, _, _. split; [reflexivity|]. intro x. reflexivity. }
  revert H0. generalize (init cfg now).
  induction cs as [|c cs IH]; intros self Hs; cbn [fold_left].
  - exact Hs.
  - apply IH. destruct Hs as (k & d & ds & Hd & Hx).
    destruct c as [p s|now']; cbn [system_step].
    + unfold detect_exercises. rewrite Hd. cbn [detect_loop].
      unfold call_detect at 1.
      destruct (m_detect (class_of d) (self_of d) _) as [self' r].
      destruct (detect_loop ds _ _) as [ds'' res]. cbn.
      eexists _, _, _. split; [reflexivity|]. exact Hx.
    + unfold reset_baselines. rewrite Hd. cbn [reset_loop].
      unfold call_reset at 1.
      destruct (m_reset (class_of d) (self_of d)) as [self' r].
      destruct r as [u|e].
      * destruct (reset_loop ds) as [ds'' r']. destruct r'; cbn;
          (eexists _, _, _; split; [reflexivity | exact Hx]).
      * cbn. eexists _, _, _. split; [reflexivity | exact Hx].
Qed.

End Coordinator.

Lemma dict_get_In {V : Type} (d : ExerciseDetectionSystem.dict V)
    (k : ExerciseType) (v : V) :
  ExerciseDetectionSystem.dict_get d k = Some v -> In (k, v) d.
Proof.
  induction d as [|[k' v'] d IH]; cbn; [discriminate|].
  destruct (ExerciseType_eqb_spec k k') as [->|Hne].
  - intro E; inversion E; subst. left; reflexivity.
  - intro E. right. apply IH, E.
Qed.

(** ** The configuration and the detectors *)

Section Configuration.

Import BaseDetector.

Lemma step_same_but_config {S : Type} `{Subclass S} (self1 self2 : obj S)
    (c : call) :
  same_but_config (base self1) (base self2) ->
  ext self1 = ext self2 ->
  same_but_config (base (fst (step self1 c))) (base (fst (step self2 c)))
  /\ ext (fst (step self1 c)) = ext (fst (step self2 c))
  /\ snd (step self1 c) = snd (step self2 c).
Proof.
  destruct self1 as [[t1 c1 n1 f1 k1 p1] e1], self2 as [[t2 c2 n2 f2 k2 p2] e2].
  unfold same_but_config. cbn.
  intros (-> & -> & -> & -> & ->) ->.
  destruct c as [[l|]|]; cbn.
  - unfold detect. cbn. destruct k2; cbn.
    + destruct (_detect_exercise e2 l) as [[[d c] m]|e]; cbn.
      * destruct (_generate_status_message d _ m); cbn; auto 10.
      * auto 10.
    + unfold _handle_calibration. cbn. destruct (_ >=? _)%Z; cbn; auto 10.
  - auto 10.
  - auto 10.
Qed.

Lemma results_same_but_config {S : Type} `{Subclass S} (cs : list call)
    (self1 self2 : obj S) :
  same_but_config (base self1) (base self2) ->
  ext self1 = ext self2 ->
  results self1 cs = results self2 cs.
Proof.
  revert self1 self2.
  induction cs as [|c cs IH]; intros self1 self2 Hb He; cbn [results].
  - reflexivity.
  - destruct (step_same_but_config self1 self2 c Hb He) as (Hb' & He' & Hr).
    destruct (step self1 c) as [s1 r1], (step self2 c) as [s2 r2].
    cbn [fst snd] in *. subst r2.
    rewrite (IH s1 s2 Hb' He'). reflexivity.
Qed.

Lemma fresh_same_but_config `{Numpy} (t : ExerciseType)
    (cfg1 cfg2 : option SystemConfig) :
  same_but_config (base (new_detector t cfg1)) (base (new_detector t cfg2))
  /\ ext (new_detector t cfg1) = ext (new_detector t cfg2).
Proof. destruct t; cbn; unfold same_but_config; cbn; auto 10. Qed.

Lemma fresh_calibration_lasts_15 `{Numpy} (t : ExerciseType)
    (cfg : option SystemConfig) :
  calibration_lasts 15 (new_detector t cfg).
Proof.
  intros ls Hlen. apply (fresh_run_15 t cfg ls Hlen).
Qed.

(** The message of a subclass is defined on the metrics that subclass
    computes. *)
Lemma messages_total `{Numpy} (t : ExerciseType) (s : state_of t)
    (l : LandmarkPoints) (d : bool) (c conf : Q) (m : Metrics) :
  _detect_exercise s l = Ok (d, c, m) ->
  exists msg, _generate_status_message (S := state_of t) d conf m = Ok msg.
Proof.
  destruct t; cbn;
    [ unfold CervicalFlexionDetector.detect_exercise
    | unfold CervicalExtensionDetector.detect_exercise
    | unfold LateralNeckTiltDetector.detect_exercise
    | unfold NeckRotationDetector.detect_exercise
    | unfold ChinTuckDetector.detect_exercise ];
    (destruct (GeometryUtils.calculate_ratio _ _) as [r|e]; cbn; [|discriminate]);
    try (destruct (GeometryUtils.calculate_ratio _ _) as [r'|e]; cbn;
         [|discriminate]);
    intro E; inversion E; subst; cbn;
    match goal with
    | |- context [if ?b then _ else _] => destruct b; eauto
    end.
Qed.

End Configuration.

(** [reset] leaves every attribute of the subclass as it is: the
    calibration samples, the baselines and the threshold. *)
Lemma reset_keeps_subclass_attributes `{Numpy} (t : ExerciseType)
    (self : BaseDetector.obj (state_of t)) :
  accumulators t (BaseDetector.ext (BaseDetector.reset self))
  = accumulators t (BaseDetector.ext self)
  /\ baselines t (BaseDetector.ext (BaseDetector.reset self))
     = baselines t (BaseDetector.ext self)
  /\ threshold_of t (BaseDetector.ext (BaseDetector.reset self))
     = threshold_of t (BaseDetector.ext self).
Proof. repeat split; reflexivity. Qed.

(** * The claims *)

(** C4.  From a freshly constructed detector of any of the five
    classes, over exactly [calibration_frames] frames with landmarks
    present: the detector is not calibrated after any shorter prefix
    and is calibrated after the last frame; the last frame answers
    READY and every earlier one CALIBRATING; and each baseline is the
    median of its metric over those frames. *)
Theorem calibration_completes_on_last_frame `{Numpy} (t : ExerciseType)
    (cfg : option SystemConfig) (ls : list LandmarkPoints) :
  let d := new_detector t cfg in
  Z.of_nat (List.length ls)
  = BaseDetector.calibration_frames (BaseDetector.base d) ->
  (forall k, (k < List.length ls)%nat ->
     BaseDetector.is_calibrated
       (BaseDetector.base
          (BaseDetector.run d (BaseDetector.frames (firstn k ls)))) = false)
  /\ BaseDetector.is_calibrated
       (BaseDetector.base (BaseDetector.run d (BaseDetector.frames ls))) = true
  /\ statuses d ls = repeat CALIBRATING (List.length ls - 1) ++ [READY]
  /\ baseline_is_median t ls
       (BaseDetector.ext (BaseDetector.run d (BaseDetector.frames ls))).
Proof.
  intros d Hlen.
  assert (Hb : BaseDetector.base d = BaseDetector.init t cfg)
    by apply fresh_detector.
  rewrite Hb in Hlen. cbn in Hlen.
  assert (Hc : BaseDetector.is_calibrated (BaseDetector.base d) = false)
    by (rewrite Hb; reflexivity).
  assert (Hf : BaseDetector.frames_collected (BaseDetector.base d) = 0%Z)
    by (rewrite Hb; reflexivity).
  assert (Hn : BaseDetector.calibration_frames (BaseDetector.base d) = 15%Z)
    by (rewrite Hb; reflexivity).
  split.
  - intros k Hk.
    pose proof (run_calibrating (firstn k ls) d Hc) as Hr.
    rewrite Hf, Hn in Hr. rewrite length_firstn in Hr.
    apply Hr. lia.
  - destruct (exists_last (l := ls)) as (ls' & l & ->).
    { intro E; subst ls; discriminate. }
    rewrite length_app in Hlen |- *. cbn [List.length] in Hlen |- *.
    pose proof (run_completing ls' l d Hc) as Hr.
    rewrite Hf, Hn in Hr. cbn zeta in Hr.
    destruct (Hr ltac:(lia)) as (R1 & _ & R3 & R4).
    split; [exact R1|].
    split.
    + rewrite R4. replace (List.length ls' + 1 - 1)%nat with (List.length ls') by lia.
      reflexivity.
    + rewrite R3. apply fresh_baseline_is_median.
      intro E. apply app_eq_nil in E. destruct E; discriminate.
Qed.

(** C5.  For a detector in any state, [detect] without landmarks answers
    ERROR, not detected, confidence 0, and returns the detector
    unchanged: frames collected, accumulators, calibration flag,
    baselines and previous confidence are those before the call. *)
Theorem detect_absent_is_error_and_keeps_state `{Numpy} (t : ExerciseType)
    (self : BaseDetector.obj (state_of t)) :
  let (self', r) := BaseDetector.detect self None in
  status r = ERROR /\ detected r = false /\ confidence r = 0
  /\ self' = self
  /\ BaseDetector.frames_collected (BaseDetector.base self')
     = BaseDetector.frames_collected (BaseDetector.base self)
  /\ accumulators t (BaseDetector.ext self') = accumulators t (BaseDetector.ext self)
  /\ BaseDetector.is_calibrated (BaseDetector.base self')
     = BaseDetector.is_calibrated (BaseDetector.base self)
  /\ baselines t (BaseDetector.ext self') = baselines t (BaseDetector.ext self)
  /\ BaseDetector.previous_confidence (BaseDetector.base self')
     = BaseDetector.previous_confidence (BaseDetector.base self).
Proof.
  rewrite detect_absent. cbn. repeat split; reflexivity.
Qed.

(** C8.  For a detector of any of the five classes and any sequence of
    [detect] calls, with or without landmarks, and resets: every
    result's confidence lies in [[0,1]], and so does the stored previous
    confidence after every call. *)
Theorem confidence_stays_in_unit_interval `{Numpy} (t : ExerciseType)
    (cfg : option SystemConfig) (cs : list BaseDetector.call) :
  let d := new_detector t cfg in
  Forall (fun r => in_unit_interval (confidence r)) (BaseDetector.results d cs)
  /\ forall k,
       in_unit_interval
         (BaseDetector.previous_confidence
            (BaseDetector.base (BaseDetector.run d (firstn k cs)))).
Proof.
  intro d.
  assert (Hp : in_unit_interval
                 (BaseDetector.previous_confidence (BaseDetector.base d))).
  { unfold d. rewrite fresh_detector. apply zero_unit. }
  split.
  - apply run_confidence; [apply every_detector_clamped | exact Hp].
  - intro k. apply run_confidence; [apply every_detector_clamped | exact Hp].
Qed.

(** C10.  A fresh cervical-flexion detector calibrated over 15 frames
    whose nose-to-mid-shoulder distance is 100 has baseline 100; a
    following frame at distance 80 is detected, with raw confidence
    1/3 before smoothing. *)
Theorem flexion_end_to_end `{Numpy} (cfg : option SystemConfig)
    (ls : list LandmarkPoints) (l : LandmarkPoints) :
  List.length ls = 15%nat ->
  Forall (fun f => nose_to_mid_shoulder f == 100) ls ->
  nose_to_mid_shoulder l == 80 ->
  let d := BaseDetector.run (CervicalFlexionDetector.init cfg)
             (BaseDetector.frames ls) in
  exists b c m,
    CervicalFlexionDetector.baseline_distance (BaseDetector.ext d) = Some b
    /\ b == 100
    /\ CervicalFlexionDetector.detect_exercise (BaseDetector.ext d) l
       = Ok (true, c, m)
    /\ c == 1 # 3
    /\ detected (snd (BaseDetector.detect d (Some l))) = true.
Proof.
  intros Hlen Hall Hl d.
  assert (Hr : BaseDetector.is_calibrated (BaseDetector.base d) = true
               /\ BaseDetector.previous_confidence (BaseDetector.base d) = 0
               /\ BaseDetector.ext d
                  = CervicalFlexionDetector.finalize_calibration
                      (BaseDetector.collect_all
                         (BaseDetector.ext (CervicalFlexionDetector.init cfg)) ls)
               /\ statuses (CervicalFlexionDetector.init cfg) ls
                  = repeat CALIBRATING 14 ++ [READY])
    by exact (fresh_run_15 CERVICAL_FLEXION cfg ls Hlen).
  destruct Hr as (R1 & R2 & R3 & _).
  rewrite flexion_collect_all in R3.
  set (samples := map nose_to_mid_shoulder ls) in *.
  assert (Hne : samples <> []).
  { unfold samples. destruct ls; discriminate. }
  assert (Hfin : BaseDetector.ext d
                 = {| CervicalFlexionDetector.baseline_distance :=
                        Some (np_median samples);
                      CervicalFlexionDetector.calibration_distances := samples;
                      CervicalFlexionDetector.threshold := 85 # 100 |}).
  { rewrite R3. cbn. destruct samples; [congruence | reflexivity]. }
  clear R3.
  assert (Hb : np_median samples == 100).
  { apply np_median_constant; [exact Hne|].
    unfold samples. apply Forall_map. exact Hall. }
  assert (Hnz : ~ np_median samples == 0) by (rewrite Hb; discriminate).
  set (ratio := nose_to_mid_shoulder l / np_median samples).
  assert (Hratio : ratio == 4 # 5).
  { unfold ratio. rewrite Hl, Hb. reflexivity. }
  assert (Hdet : Qlt_bool ratio (85 # 100) = true).
  { apply Qlt_bool_iff. rewrite Hratio. reflexivity. }
  assert (Hde : CervicalFlexionDetector.detect_exercise (BaseDetector.ext d) l
                = Ok (true,
                      py_max 0 (py_min 1 (((85 # 100) - ratio) / (15 # 100))),
                      [("distance_ratio", MFloat ratio);
                       ("threshold", MFloat (85 # 100))])).
  { rewrite Hfin. unfold CervicalFlexionDetector.detect_exercise.
    cbn [CervicalFlexionDetector.baseline_distance
         CervicalFlexionDetector.threshold].
    change (GeometryUtils.calculate_distance (nose l)
              (vdiv (vadd (left_shoulder l) (right_shoulder l)) 2))
      with (nose_to_mid_shoulder l).
    rewrite (calculate_ratio_nonzero _ _ Hnz). cbn [bind].
    fold ratio. rewrite Hdet. reflexivity. }
  eexists (np_median samples), _, _.
  split; [rewrite Hfin; reflexivity|].
  split; [exact Hb|].
  split; [exact Hde|].
  split.
  - rewrite py_clamp_id.
    + rewrite Hratio. reflexivity.
    + unfold in_unit_interval. rewrite Hratio. split; discriminate.
  - unfold BaseDetector.detect. rewrite R1. cbn [negb].
    cbn [BaseDetector._detect_exercise CervicalFlexionDetector.impl].
    rewrite Hde. reflexivity.
Qed.

(** C3, as amended.  For a calibrated neck-rotation detector and
    landmarks present, with the two ratios those of the shared ratio
    utility on the per-ear horizontal offsets: the result is detected
    exactly when the larger ratio exceeds 1.5; the raw confidence is
    (max_ratio - 1.5)/1.0 clamped to [[0,1]] when detected and 0
    otherwise; and the direction metric is RIGHT when the left ratio is
    the strictly larger one and LEFT otherwise. *)
Theorem rotation_detection (cfg : option SystemConfig)
    (cs : list BaseDetector.call) (l : LandmarkPoints) :
  let d := BaseDetector.run (NeckRotationDetector.init cfg) cs in
  BaseDetector.is_calibrated (BaseDetector.base d) = true ->
  exists left_ratio right_ratio raw m direction,
    GeometryUtils.calculate_ratio (left_offset l)
      (NeckRotationDetector.baseline_left (BaseDetector.ext d)) = Ok left_ratio
    /\ GeometryUtils.calculate_ratio (right_offset l)
         (NeckRotationDetector.baseline_right (BaseDetector.ext d))
       = Ok right_ratio
    /\ let r := snd (BaseDetector.detect d (Some l)) in
       (detected r = true <-> 15 # 10 < Qmax left_ratio right_ratio)
       /\ NeckRotationDetector.detect_exercise (BaseDetector.ext d) l
          = Ok (detected r, raw, m)
       /\ raw == (if detected r
                  then clamp01 ((Qmax left_ratio right_ratio - (15 # 10)) / 1)
                  else 0)
       /\ metrics r = Some m
       /\ metrics_get m "direction" = Ok (MStr direction)
       /\ (right_ratio < left_ratio -> direction = "RIGHT")
       /\ (left_ratio <= right_ratio -> direction = "LEFT").
Proof.
  intros d Hc.
  destruct (rotation_run_invariant cfg cs) as [Ht Hb]. fold d in Ht, Hb.
  destruct (Hb Hc) as (bl & br & Hbl & Hbr).
  destruct (calculate_ratio_some (left_offset l) bl) as [lr Hlr].
  destruct (calculate_ratio_some (right_offset l) br) as [rr Hrr].
  set (mx := py_max lr rr).
  set (det := Qlt_bool (15 # 10) mx).
  set (raw := if det then py_max 0 (py_min 1 ((mx - (15 # 10)) / 1)) else 0).
  set (dir := if Qlt_bool rr lr then "RIGHT" else "LEFT").
  set (m := [("max_ratio", MFloat mx); ("direction", MStr dir);
             ("threshold", MFloat (15 # 10))]).
  assert (Hde : NeckRotationDetector.detect_exercise (BaseDetector.ext d) l
                = Ok (det, raw, m)).
  { unfold NeckRotationDetector.detect_exercise.
    change (Qabs (fst (nose l) - fst (left_ear l))) with (left_offset l).
    change (Qabs (fst (nose l) - fst (right_ear l))) with (right_offset l).
    rewrite Hbl, Hbr, Hlr, Hrr, Ht. reflexivity. }
  assert (Hdet : detected (snd (BaseDetector.detect d (Some l))) = det).
  { unfold BaseDetector.detect. rewrite Hc. cbn [negb].
    cbn [BaseDetector._detect_exercise NeckRotationDetector.impl].
    rewrite Hde. cbn. destruct det; reflexivity. }
  assert (Hmet : metrics (snd (BaseDetector.detect d (Some l))) = Some m).
  { unfold BaseDetector.detect. rewrite Hc. cbn [negb].
    cbn [BaseDetector._detect_exercise NeckRotationDetector.impl].
    rewrite Hde. cbn. destruct det; reflexivity. }
  exists lr, rr, raw, m, dir.
  rewrite Hbl, Hbr. split; [exact Hlr|]. split; [exact Hrr|].
  cbn zeta. rewrite Hdet, Hmet.
  split.
  { unfold det. rewrite Qlt_bool_iff. unfold mx. rewrite py_max_Qmax.
    reflexivity. }
  split; [exact Hde|].
  split.
  { unfold raw. destruct det; [|reflexivity].
    rewrite py_clamp_clamp01. unfold clamp01, mx.
    rewrite py_max_Qmax. reflexivity. }
  split; [reflexivity|].
  split; [reflexivity|].
  unfold dir. split.
  - intro Hlt. apply Qlt_bool_iff in Hlt. rewrite Hlt. reflexivity.
  - intro Hle. apply Qlt_bool_false_iff in Hle. rewrite Hle. reflexivity.
Qed.

(** C9.  On any frame, when the [detect] call of exactly one of the
    five detectors raises, the mapping [detect_exercises] returns has an
    entry for every exercise type: that of the raising detector is an
    ERROR result carrying the description of the failure, and each of
    the other four is the result that detector returned. *)
Theorem one_failing_detector_is_isolated (self : ExerciseDetectionSystem.t)
    (pose_results : PoseResults) (frame_shape : Z * Z) (k : ExerciseType) :
  let landmarks := LandmarkExtractor.extract_landmarks pose_results frame_shape in
  let results :=
    snd (ExerciseDetectionSystem.detect_exercises self pose_results frame_shape) in
  ExerciseDetectionSystem.keys (ExerciseDetectionSystem.detectors self)
  = ExerciseDetectionSystem.all_exercise_types ->
  (exists e, detect_outcome self k landmarks = Some (Raise e)) ->
  (forall j, j <> k -> exists r, detect_outcome self j landmarks = Some (Ok r)) ->
  (forall t, exists r, ExerciseDetectionSystem.dict_get results t = Some r)
  /\ (exists e,
        detect_outcome self k landmarks = Some (Raise e)
        /\ ExerciseDetectionSystem.dict_get results k
           = Some (ExerciseResult5 k false 0 ERROR (Text ("Error: " ++ str e))))
  /\ (forall j, j <> k ->
        exists r,
          detect_outcome self j landmarks = Some (Ok r)
          /\ ExerciseDetectionSystem.dict_get results j = Some r).
Proof.
  intros landmarks results Hkeys [e He] Hothers.
  assert (Hnd : NoDup (ExerciseDetectionSystem.keys
                         (ExerciseDetectionSystem.detectors self))).
  { rewrite Hkeys. repeat constructor; cbn; intuition discriminate. }
  assert (Hget : forall t o,
             detect_outcome self t landmarks = Some o ->
             ExerciseDetectionSystem.dict_get results t = Some (outcome t o)).
  { intros t o Ho. unfold detect_outcome in Ho.
    destruct (ExerciseDetectionSystem.dict_get
                (ExerciseDetectionSystem.detectors self) t) as [d|] eqn:Hd;
      [|discriminate].
    inversion Ho; subst.
    apply detect_exercises_results; [exact Hnd | apply dict_get_In, Hd]. }
  assert (Hk : ExerciseDetectionSystem.dict_get results k
               = Some (ExerciseResult5 k false 0 ERROR (Text ("Error: " ++ str e)))).
  { rewrite (Hget k _ He). reflexivity. }
  repeat split.
  - intro t. destruct (ExerciseType_eqb_spec t k) as [->|Hne].
    + eexists. exact Hk.
    + destruct (Hothers t Hne) as [r Hr]. exists r. rewrite (Hget t _ Hr). reflexivity.
  - exists e. split; [exact He | exact Hk].
  - intros j Hne. destruct (Hothers j Hne) as [r Hr]. exists r.
    split; [exact Hr|]. rewrite (Hget j _ Hr). reflexivity.
Qed.

(** C1: [is_fully_calibrated] on the failing input and on every later
    state.  Whatever frames and resets the coordinator has processed,
    the call raises [AttributeError]: the detectors have no attribute
    [calibration]. *)
Theorem is_fully_calibrated_raises `{Numpy} (cfg : option SystemConfig)
    (now : Q) (cs : list system_call) :
  ExerciseDetectionSystem.is_fully_calibrated
    (system_run (ExerciseDetectionSystem.init cfg now) cs)
  = Raise (AttributeError
             "'CervicalFlexionDetector' object has no attribute 'calibration'").
Proof.
  destruct (first_detector_lacks_calibration cfg now cs)
    as (k & d & ds & Hd & Hx).
  unfold ExerciseDetectionSystem.is_fully_calibrated. rewrite Hd.
  cbn [map snd ExerciseDetectionSystem.all_complete].
  unfold read_calibration. rewrite Hx. reflexivity.
Qed.

(** C6, as amended.  Whatever configuration is supplied at
    construction, the calibration of each detector lasts exactly 15
    frames, and a calibrated detector smooths the raw confidence with
    the factor 0.3: the configured frame count and smoothing factor are
    stored and not read. *)
Theorem calibration_and_smoothing_are_fixed `{Numpy} (t : ExerciseType)
    (cfg : option SystemConfig) :
  calibration_lasts 15 (new_detector t cfg)
  /\ forall (self : BaseDetector.obj (state_of t)) (l : LandmarkPoints)
       (d : bool) (c : Q) (m : Metrics),
       BaseDetector.is_calibrated (BaseDetector.base self) = true ->
       BaseDetector._detect_exercise (BaseDetector.ext self) l = Ok (d, c, m) ->
       let smoothed :=
         (3 # 10) * c
         + (1 - (3 # 10))
           * BaseDetector.previous_confidence (BaseDetector.base self) in
       confidence (snd (BaseDetector.detect self (Some l))) = smoothed
       /\ BaseDetector.previous_confidence
            (BaseDetector.base (fst (BaseDetector.detect self (Some l))))
          = smoothed.
Proof.
  split; [apply fresh_calibration_lasts_15|].
  intros self l d c m Hc Hd smoothed.
  destruct (messages_total t (BaseDetector.ext self) l d c smoothed m Hd)
    as [msg Hm].
  rewrite (detect_calibrated_result self l d c m msg Hc Hd Hm).
  split; reflexivity.
Qed.

(** C7, as amended.  Construction never fails: for every configuration,
    a calibration-frame count of 0 or less included, the coordinator
    and each detector are built, the configuration is stored as given,
    the detector's own frame count is 15, and the detector answers
    every sequence of calls as one built without a configuration
    does. *)
Theorem construction_accepts_every_config `{Numpy} (cfg : SystemConfig)
    (now : Q) :
  (exists sys,
     construct_system (Some cfg) now = Ok sys
     /\ ExerciseDetectionSystem.config sys = cfg)
  /\ forall t,
       exists d,
         construct_detector t (Some cfg) = Ok d
         /\ BaseDetector.config (BaseDetector.base d) = cfg
         /\ BaseDetector.calibration_frames (BaseDetector.base d) = 15%Z
         /\ forall cs,
              BaseDetector.results d cs
              = BaseDetector.results (new_detector t None) cs.
Proof.
  split.
  - eexists. split; reflexivity.
  - intro t. eexists. split; [reflexivity|].
    rewrite fresh_detector. split; [reflexivity|]. split; [reflexivity|].
    intro cs.
    destruct (fresh_same_but_config t (Some cfg) None) as [Hb He].
    apply results_same_but_config; assumption.
Qed.

(** * Further properties *)

(** ** Geometry utilities *)

(** X1.  The ratio does not depend on the unit of length: scaling the
    distance and the baseline by the same non-zero factor leaves it
    unchanged, a zero baseline included. *)
Theorem calculate_ratio_scale_invariant (k x b : Q) :
  ~ k == 0 ->
  exists r1 r2,
    GeometryUtils.calculate_ratio (k * x) (Some (k * b)) = Ok r1
    /\ GeometryUtils.calculate_ratio x (Some b) = Ok r2
    /\ r1 == r2.
Proof.
  intro Hk. unfold GeometryUtils.calculate_ratio.
  destruct (Qeq_bool b 0) eqn:Eb.
  - apply Qeq_bool_iff in Eb.
    assert (Ekb : Qeq_bool (k * b) 0 = true).
    { apply Qeq_bool_iff. rewrite Eb. ring. }
    rewrite Ekb. exists 1, 1. repeat split; reflexivity.
  - assert (Hb : ~ b == 0).
    { intro E. apply Qeq_bool_iff in E. congruence. }
    assert (Ekb : Qeq_bool (k * b) 0 = false).
    { destruct (Qeq_bool (k * b) 0) eqn:E; [|reflexivity].
      apply Qeq_bool_iff in E. apply Qmult_integral in E.
      destruct E; contradiction. }
    rewrite Ekb. eexists _, _. split; [reflexivity|]. split; [reflexivity|].
    field. split; assumption.
Qed.

(** X2.  A measurement equal to its baseline has ratio 1, whatever the
    baseline: for a zero baseline this is the default the utility
    returns. *)
Theorem calculate_ratio_at_baseline (b : Q) :
  exists r, GeometryUtils.calculate_ratio b (Some b) = Ok r /\ r == 1.
Proof.
  unfold GeometryUtils.calculate_ratio.
  destruct (Qeq_bool b 0) eqn:Eb.
  - exists 1. split; reflexivity.
  - eexists. split; [reflexivity|].
    field. intro E. apply Qeq_bool_iff in E. congruence.
Qed.

(** X3.  With a smoothing factor in [[0,1]] the smoothed value lies
    between the previous and the current value. *)
Theorem smooth_value_between (current previous factor : Q) :
  0 <= factor -> factor <= 1 ->
  Qmin current previous
  <= GeometryUtils.smooth_value current previous factor
  /\ GeometryUtils.smooth_value current previous factor
     <= Qmax current previous.
Proof.
  intros H0 H1. unfold GeometryUtils.smooth_value.
  destruct (Qlt_le_dec current previous) as [Hlt|Hle].
  - rewrite Q.min_l, Q.max_r by lra. split; nra.
  - rewrite Q.min_r, Q.max_l by lra. split; nra.
Qed.

(** X4.  [clamp] with ordered bounds returns a value within the bounds
    and leaves a value within the bounds as it is; with the bounds
    inverted it returns the lower bound argument. *)
Theorem clamp_within_bounds (value min_val max_val : Q) :
  (min_val <= max_val ->
   min_val <= MathUtils.clamp value min_val max_val
   /\ MathUtils.clamp value min_val max_val <= max_val
   /\ (min_val <= value -> value <= max_val ->
       MathUtils.clamp value min_val max_val == value))
  /\ (max_val < min_val -> MathUtils.clamp value min_val max_val == min_val).
Proof.
  unfold MathUtils.clamp, py_max, py_min.
  split.
  - intro Hle.
    destruct (Qlt_bool value max_val) eqn:E1;
      [apply Qlt_bool_iff in E1 | apply Qlt_bool_false_iff in E1].
    + destruct (Qlt_bool min_val value) eqn:E2;
        [apply Qlt_bool_iff in E2 | apply Qlt_bool_false_iff in E2];
        repeat split; intros; lra.
    + destruct (Qlt_bool min_val max_val) eqn:E2;
        [apply Qlt_bool_iff in E2 | apply Qlt_bool_false_iff in E2];
        repeat split; intros; lra.
  - intro Hlt.
    destruct (Qlt_bool value max_val) eqn:E1;
      [apply Qlt_bool_iff in E1 | apply Qlt_bool_false_iff in E1].
    + destruct (Qlt_bool min_val value) eqn:E2;
        [apply Qlt_bool_iff in E2 | apply Qlt_bool_false_iff in E2]; lra.
    + destruct (Qlt_bool min_val max_val) eqn:E2;
        [apply Qlt_bool_iff in E2 | apply Qlt_bool_false_iff in E2]; lra.
Qed.

Lemma Qfloor_unique (x : Q) (n : Z) :
  inject_Z n <= x -> x < inject_Z (n + 1) -> Qfloor x = n.
Proof.
  intros Hle Hlt.
  pose proof (Qfloor_le x) as F1. pose proof (Qlt_floor x) as F2.
  assert (H1 : (n < Qfloor x + 1)%Z).
  { rewrite Zlt_Qlt. lra. }
  assert (H2 : (Qfloor x < n + 1)%Z).
  { rewrite Zlt_Qlt. lra. }
  lia.
Qed.

(** X5.  [normalize_angle] returns the angle in [[0,360)] that differs
    from its argument by a whole number of turns; adding a turn to the
    argument does not change the result. *)
Theorem normalize_angle_range (angle : Q) :
  0 <= MathUtils.normalize_angle angle
  /\ MathUtils.normalize_angle angle < 360
  /\ (exists k : Z, angle == MathUtils.normalize_angle angle + 360 * inject_Z k)
  /\ MathUtils.normalize_angle (angle + 360) == MathUtils.normalize_angle angle.
Proof.
  unfold MathUtils.normalize_angle.
  pose proof (Qfloor_le (angle / 360)) as F1.
  pose proof (Qlt_floor (angle / 360)) as F2.
  rewrite inject_Z_plus in F2. change (inject_Z 1) with 1 in F2.
  assert (Ha : angle == 360 * (angle / 360)) by (field; discriminate).
  set (n := inject_Z (Qfloor (angle / 360))) in *.
  assert (Hplus : Qfloor ((angle + 360) / 360) = (Qfloor (angle / 360) + 1)%Z).
  { apply Qfloor_unique.
    - rewrite inject_Z_plus. fold n.
      setoid_replace ((angle + 360) / 360) with (angle / 360 + 1)
        by (field; discriminate).
      change (inject_Z 1) with 1. lra.
    - rewrite !inject_Z_plus. fold n.
      setoid_replace ((angle + 360) / 360) with (angle / 360 + 1)
        by (field; discriminate).
      change (inject_Z 1) with 1. lra. }
  split; [lra|]. split; [lra|]. split.
  - exists (Qfloor (angle / 360)). fold n. ring.
  - rewrite Hplus, inject_Z_plus. fold n. change (inject_Z 1) with 1. ring.
Qed.

(** X6.  [map_range] sends the ends of the source range to the ends of
    the target range, and mapping back from the target range returns
    the value, when neither range is degenerate. *)
Theorem map_range_round_trip (value from_min from_max to_min to_max : Q) :
  ~ from_max == from_min -> ~ to_max == to_min ->
  MathUtils.map_range from_min from_min from_max to_min to_max == to_min
  /\ MathUtils.map_range from_max from_min from_max to_min to_max == to_max
  /\ MathUtils.map_range
       (MathUtils.map_range value from_min from_max to_min to_max)
       to_min to_max from_min from_max == value.
Proof.
  intros Hf Ht. unfold MathUtils.map_range.
  assert (Ef : Qeq_bool from_max from_min = false).
  { destruct (Qeq_bool from_max from_min) eqn:E; [|reflexivity].
    apply Qeq_bool_iff in E. contradiction. }
  assert (Et : Qeq_bool to_max to_min = false).
  { destruct (Qeq_bool to_max to_min) eqn:E; [|reflexivity].
    apply Qeq_bool_iff in E. contradiction. }
  rewrite Ef, Et.
  assert (Hf' : ~ from_max - from_min == 0) by (intro E; apply Hf; lra).
  assert (Ht' : ~ to_max - to_min == 0) by (intro E; apply Ht; lra).
  repeat split; field; repeat split; assumption.
Qed.
(** ** Landmark extraction *)

Lemma scaled_some (landmarks : list NormalizedLandmark) (i : nat) (h w : Z) :
  (i < List.length landmarks)%nat ->
  exists l,
    nth_error landmarks i = Some l
    /\ LandmarkExtractor.scaled landmarks i h w
       = Some (lm_x l * inject_Z w, lm_y l * inject_Z h).
Proof.
  intro Hi. unfold LandmarkExtractor.scaled.
  destruct (nth_error landmarks i) as [l|] eqn:E.
  - exists l. split; reflexivity.
  - apply nth_error_None in E. lia.
Qed.

Lemma extract_landmarks_short (pose_results : PoseResults) (h w : Z)
    (landmarks : list NormalizedLandmark) :
  pose_landmarks pose_results = Some landmarks ->
  (List.length landmarks < 13)%nat ->
  LandmarkExtractor.extract_landmarks pose_results (h, w) = None.
Proof.
  intros Hp Hlt. unfold LandmarkExtractor.extract_landmarks. rewrite Hp.
  assert (E : LandmarkExtractor.scaled landmarks 12 h w = None).
  { unfold LandmarkExtractor.scaled.
    destruct (nth_error landmarks 12) eqn:E; [|reflexivity].
    assert (Hs : nth_error landmarks 12 <> None) by congruence.
    apply nth_error_Some in Hs. lia. }
  rewrite E.
  destruct (LandmarkExtractor.scaled landmarks 0 h w),
    (LandmarkExtractor.scaled landmarks 7 h w),
    (LandmarkExtractor.scaled landmarks 8 h w),
    (LandmarkExtractor.scaled landmarks 11 h w); reflexivity.
Qed.

Lemma extract_landmarks_long (pose_results : PoseResults) (h w : Z)
    (landmarks : list NormalizedLandmark) :
  pose_landmarks pose_results = Some landmarks ->
  (13 <= List.length landmarks)%nat ->
  exists l0 l7 l8 l11 l12,
    nth_error landmarks 0 = Some l0
    /\ nth_error landmarks 7 = Some l7
    /\ nth_error landmarks 8 = Some l8
    /\ nth_error landmarks 11 = Some l11
    /\ nth_error landmarks 12 = Some l12
    /\ LandmarkExtractor.extract_landmarks pose_results (h, w)
       = Some
           {| nose := (lm_x l0 * inject_Z w, lm_y l0 * inject_Z h);
              left_ear := (lm_x l7 * inject_Z w, lm_y l7 * inject_Z h);
              right_ear := (lm_x l8 * inject_Z w, lm_y l8 * inject_Z h);
              left_shoulder := (lm_x l11 * inject_Z w, lm_y l11 * inject_Z h);
              right_shoulder := (lm_x l12 * inject_Z w, lm_y l12 * inject_Z h) |}.
Proof.
  intros Hp Hge. unfold LandmarkExtractor.extract_landmarks. rewrite Hp.
  destruct (scaled_some landmarks 0 h w ltac:(lia)) as (l0 & N0 & S0).
  destruct (scaled_some landmarks 7 h w ltac:(lia)) as (l7 & N7 & S7).
  destruct (scaled_some landmarks 8 h w ltac:(lia)) as (l8 & N8 & S8).
  destruct (scaled_some landmarks 11 h w ltac:(lia)) as (l11 & N11 & S11).
  destruct (scaled_some landmarks 12 h w ltac:(lia)) as (l12 & N12 & S12).
  exists l0, l7, l8, l11, l12.
  rewrite S0, S7, S8, S11, S12. auto 10.
Qed.

(** X7.  [extract_landmarks] returns landmarks exactly when the pose
    model reports a pose with at least 13 landmarks; the five points
    are then landmarks 0, 7, 8, 11 and 12, their [x] scaled by the
    frame width and their [y] by the frame height. *)
Theorem extract_landmarks_spec (pose_results : PoseResults) (h w : Z) :
  match pose_landmarks pose_results with
  | None => LandmarkExtractor.extract_landmarks pose_results (h, w) = None
  | Some landmarks =>
      if (List.length landmarks <? 13)%nat
      then LandmarkExtractor.extract_landmarks pose_results (h, w) = None
      else
        exists l0 l7 l8 l11 l12,
          nth_error landmarks 0 = Some l0
          /\ nth_error landmarks 7 = Some l7
          /\ nth_error landmarks 8 = Some l8
          /\ nth_error landmarks 11 = Some l11
          /\ nth_error landmarks 12 = Some l12
          /\ LandmarkExtractor.extract_landmarks pose_results (h, w)
             = Some
                 {| nose := (lm_x l0 * inject_Z w, lm_y l0 * inject_Z h);
                    left_ear := (lm_x l7 * inject_Z w, lm_y l7 * inject_Z h);
                    right_ear := (lm_x l8 * inject_Z w, lm_y l8 * inject_Z h);
                    left_shoulder :=
                      (lm_x l11 * inject_Z w, lm_y l11 * inject_Z h);
                    right_shoulder :=
                      (lm_x l12 * inject_Z w, lm_y l12 * inject_Z h) |}
  end.
Proof.
  destruct (pose_landmarks pose_results) as [landmarks|] eqn:Hp.
  - destruct (Nat.ltb_spec (List.length landmarks) 13) as [Hlt|Hge].
    + apply (extract_landmarks_short _ _ _ landmarks Hp Hlt).
    + apply (extract_landmarks_long _ _ _ landmarks Hp Hge).
  - unfold LandmarkExtractor.extract_landmarks. rewrite Hp. reflexivity.
Qed.

Lemma any_negative_false (p : Point) :
  any_negative p = false <-> 0 <= fst p /\ 0 <= snd p.
Proof.
  unfold any_negative. rewrite orb_false_iff, !Qlt_bool_false_iff. reflexivity.
Qed.

Lemma all_visible_iff (ps : list Point) :
  all_visible ps = true <-> Forall (fun p => 0 <= fst p /\ 0 <= snd p) ps.
Proof.
  induction ps as [|p ps IH]; cbn [all_visible].
  - split; [constructor | reflexivity].
  - destruct (any_negative p) eqn:E.
    + split; [discriminate|].
      intro Hall. inversion Hall as [|? ? Hp _]; subst.
      apply any_negative_false in Hp. congruence.
    + rewrite IH. apply any_negative_false in E.
      split.
      * intro Hall. constructor; assumption.
      * intro Hall. inversion Hall; assumption.
Qed.


(** X9.  Landmarks extracted from a pose whose normalised coordinates
    are all non-negative, on a frame of non-negative size, pass the
    visibility check. *)
Theorem extracted_landmarks_are_visible (pose_results : PoseResults)
    (h w : Z) (landmarks : LandmarkPoints) (min_visibility : Q) :
  (0 <= h)%Z -> (0 <= w)%Z ->
  (forall ls l, pose_landmarks pose_results = Some ls -> In l ls ->
                0 <= lm_x l /\ 0 <= lm_y l) ->
  LandmarkExtractor.extract_landmarks pose_results (h, w) = Some landmarks ->
  is_pose_visible landmarks min_visibility = true.
Proof.
  intros Hh Hw Hpos Hex.
  destruct (pose_landmarks pose_results) as [ls|] eqn:Epl.
  2:{ unfold LandmarkExtractor.extract_landmarks in Hex. rewrite Epl in Hex.
      discriminate. }
  destruct (Nat.ltb_spec (List.length ls) 13) as [Hlt|Hge].
  { rewrite (extract_landmarks_short _ h w ls Epl Hlt) in Hex. discriminate. }
  destruct (extract_landmarks_long _ h w ls Epl Hge)
    as (l0 & l7 & l8 & l11 & l12 & N0 & N7 & N8 & N11 & N12 & Hs).
  rewrite Hs in Hex. inversion Hex; subst landmarks. clear Hex Hs.
  assert (Hh' : 0 <= inject_Z h)
    by (change 0 with (inject_Z 0); rewrite <- Zle_Qle; exact Hh).
  assert (Hw' : 0 <= inject_Z w)
    by (change 0 with (inject_Z 0); rewrite <- Zle_Qle; exact Hw).
  assert (Hp : forall i l, nth_error ls i = Some l ->
                 0 <= lm_x l * inject_Z w /\ 0 <= lm_y l * inject_Z h).
  { intros i l Hn. destruct (Hpos ls l eq_refl (nth_error_In _ _ Hn)) as [Hx Hy].
    split; apply Qmult_le_0_compat; assumption. }
  unfold is_pose_visible. apply all_visible_iff.
  cbn [nose left_ear right_ear left_shoulder right_shoulder].
  repeat constructor; cbn [fst snd]; eapply Hp; eassumption.
Qed.

(** ** The calibration record *)

Lemma progress_quotient (fc fr : Z) :
  (0 < fr)%Z ->
  ((fr <= fc)%Z -> 100 <= inject_Z fc / inject_Z fr * 100)
  /\ ((0 <= fc)%Z -> 0 <= inject_Z fc / inject_Z fr * 100).
Proof.
  intro Hpos.
  assert (Hfr : 0 < inject_Z fr)
    by (change 0 with (inject_Z 0); rewrite <- Zlt_Qlt; exact Hpos).
  split; intro Hle.
  - assert (Hq : 1 <= inject_Z fc / inject_Z fr).
    { apply Qle_shift_div_l; [exact Hfr|].
      rewrite Qmult_1_l. rewrite <- Zle_Qle. exact Hle. }
    lra.
  - assert (Hq : 0 <= inject_Z fc / inject_Z fr).
    { apply Qle_shift_div_l; [exact Hfr|].
      rewrite Qmult_0_l. change 0 with (inject_Z 0). rewrite <- Zle_Qle. exact Hle. }
    lra.
Qed.

(** X10.  The progress percentage of a calibration record raises
    [ZeroDivisionError] exactly when no frame is required; otherwise it
    is at most 100, it is 100 once the required positive number of
    frames is collected, and it is not negative for a positive
    requirement and a non-negative count. *)
Theorem progress_percentage_spec (self : CalibrationState.t) :
  match progress_percentage self with
  | ZeroDivisionError => CalibrationState.frames_required self = 0%Z
  | Quotient p =>
      CalibrationState.frames_required self <> 0%Z
      /\ p <= 100
      /\ ((0 < CalibrationState.frames_required self)%Z ->
          (CalibrationState.frames_required self
           <= CalibrationState.frames_collected self)%Z ->
          p == 100)
      /\ ((0 < CalibrationState.frames_required self)%Z ->
          (0 <= CalibrationState.frames_collected self)%Z -> 0 <= p)
  end.
Proof.
  unfold progress_percentage.
  destruct (Z.eqb_spec (CalibrationState.frames_required self) 0) as [E|Hne];
    [exact E|].
  split; [exact Hne|].
  rewrite py_min_Qmin.
  split; [apply Q.le_min_l|].
  split.
  - intros Hpos Hle. apply Q.min_l.
    apply (progress_quotient _ _ Hpos), Hle.
  - intros Hpos Hle. apply Q.min_glb; [discriminate|].
    apply (progress_quotient _ _ Hpos), Hle.
Qed.

(** ** The detector over its lifetime *)

Section Lifetime.

Import BaseDetector.

Context {S : Type} `{Subclass S}.

(** No call changes the frame count required, the exercise type or the
    configuration. *)
Lemma step_static (self : obj S) (c : call) :
  BaseDetector.calibration_frames (base (fst (step self c)))
  = BaseDetector.calibration_frames (base self)
  /\ BaseDetector.exercise_type (base (fst (step self c)))
     = BaseDetector.exercise_type (base self)
  /\ BaseDetector.config (base (fst (step self c))) = BaseDetector.config (base self).
Proof.
  destruct c as [[l|]|]; cbn [step].
  - unfold detect. destruct (is_calibrated (base self)); cbn [negb].
    + destruct (_detect_exercise (ext self) l) as [[[d c] m]|e].
      * destruct (_generate_status_message d _ m); cbn; auto.
      * cbn; auto.
    + unfold _handle_calibration. cbn. destruct (_ >=? _)%Z; cbn; auto.
  - cbn; auto.
  - cbn; auto.
Qed.

Lemma run_static (cs : list call) (self : obj S) :
  BaseDetector.calibration_frames (base (run self cs))
  = BaseDetector.calibration_frames (base self)
  /\ BaseDetector.exercise_type (base (run self cs))
     = BaseDetector.exercise_type (base self)
  /\ BaseDetector.config (base (run self cs)) = BaseDetector.config (base self).
Proof.
  revert self. induction cs as [|c cs IH]; intro self; cbn [run].
  - auto.
  - destruct (IH (fst (step self c))) as (I1 & I2 & I3).
    destruct (step_static self c) as (S1 & S2 & S3).
    rewrite I1, I2, I3. auto.
Qed.

(** [detect] calls on a calibrated detector leave everything but the
    previous confidence as it is. *)
Lemma run_calibrated (cs : list call) (self : obj S) :
  is_calibrated (base self) = true ->
  forallb is_detect cs = true ->
  ext (run self cs) = ext self
  /\ is_calibrated (base (run self cs)) = true
  /\ frames_collected (base (run self cs)) = frames_collected (base self).
Proof.
  revert self. induction cs as [|c cs IH]; intros self Hc Hd; cbn [run].
  - auto.
  - cbn [forallb] in Hd. apply andb_prop in Hd. destruct Hd as [Hd1 Hd2].
    destruct c as [[l|]|]; [| |discriminate]; cbn [step].
    + pose proof (detect_calibrated_frame self l Hc) as Hf.
      destruct (detect self (Some l)) as [self1 r]. cbn [fst].
      destruct Hf as (F1 & F2 & F3 & _).
      destruct (IH self1 F2 Hd2) as (I1 & I2 & I3).
      rewrite I1, I3, F1, F3. auto.
    + cbn [detect fst]. apply IH; assumption.
Qed.

(** Between resets the frames collected are the frames with landmarks,
    up to the count required, and the detector is calibrated once that
    count is reached. *)
Lemma run_counts_present (cs : list call) (self : obj S) :
  (0 < BaseDetector.calibration_frames (base self))%Z ->
  (0 <= frames_collected (base self)
   <= BaseDetector.calibration_frames (base self))%Z ->
  is_calibrated (base self)
  = (BaseDetector.calibration_frames (base self) <=? frames_collected (base self))%Z ->
  forallb is_detect cs = true ->
  frames_collected (base (run self cs))
  = Z.min (BaseDetector.calibration_frames (base self))
      (frames_collected (base self) + Z.of_nat (count_present cs))
  /\ is_calibrated (base (run self cs))
     = (BaseDetector.calibration_frames (base self)
        <=? frames_collected (base self) + Z.of_nat (count_present cs))%Z.
Proof.
  revert self. induction cs as [|c cs IH]; intros self Hpos Hfc Hcal Hd.
  - cbn [run count_present]. rewrite Z.add_0_r. split; [lia | exact Hcal].
  - cbn [forallb] in Hd. apply andb_prop in Hd. destruct Hd as [Hd1 Hd2].
    destruct c as [[l|]|]; [| |discriminate]; cbn [run step count_present].
    + destruct (is_calibrated (base self)) eqn:Hc.
      * symmetry in Hcal. apply Z.leb_le in Hcal.
        pose proof (detect_calibrated_frame self l Hc) as Hf.
        destruct (detect self (Some l)) as [self1 r]. cbn [fst].
        destruct Hf as (_ & F2 & F3 & F4).
        destruct (IH self1) as [I1 I2]; try assumption.
        { rewrite F4. exact Hpos. }
        { rewrite F3, F4. exact Hfc. }
        { rewrite F2, F3, F4. symmetry. apply Z.leb_le. lia. }
        rewrite I1, I2, F3, F4. rewrite Nat2Z.inj_succ.
        split; [lia|].
        destruct (Z.leb_spec (BaseDetector.calibration_frames (base self))
                    (frames_collected (base self) + Z.of_nat (count_present cs)));
          destruct (Z.leb_spec (BaseDetector.calibration_frames (base self))
                      (frames_collected (base self)
                       + Z.succ (Z.of_nat (count_present cs))));
          try reflexivity; lia.
      * symmetry in Hcal. apply Z.leb_gt in Hcal.
        assert (Hb : base (fst (detect self (Some l)))
                     = (if (BaseDetector.calibration_frames (base self)
                            <=? frames_collected (base self) + 1)%Z
                        then set_is_calibrated true
                               (set_frames_collected
                                  (frames_collected (base self) + 1) (base self))
                        else set_frames_collected
                               (frames_collected (base self) + 1) (base self))).
        { destruct (Z.leb_spec (BaseDetector.calibration_frames (base self))
                      (frames_collected (base self) + 1)) as [Hle|Hlt].
          - pose proof (detect_completing self l Hc Hle) as Hx.
            destruct (detect self (Some l)). apply Hx.
          - pose proof (detect_calibrating self l Hc Hlt) as Hx.
            destruct (detect self (Some l)). apply Hx. }
        destruct (detect self (Some l)) as [self1 r]. cbn [fst] in *.
        assert (F4 : BaseDetector.calibration_frames (base self1)
                     = BaseDetector.calibration_frames (base self)).
        { rewrite Hb. destruct (_ <=? _)%Z; reflexivity. }
        assert (F3 : frames_collected (base self1)
                     = (frames_collected (base self) + 1)%Z).
        { rewrite Hb. destruct (_ <=? _)%Z; reflexivity. }
        assert (F2 : is_calibrated (base self1)
                     = (BaseDetector.calibration_frames (base self)
                        <=? frames_collected (base self) + 1)%Z).
        { rewrite Hb. destruct (_ <=? _)%Z; [reflexivity | exact Hc]. }
        destruct (IH self1) as [I1 I2]; try assumption.
        { rewrite F4. exact Hpos. }
        { rewrite F3, F4. lia. }
        { rewrite F2, F3, F4. reflexivity. }
        rewrite I1, I2, F3, F4. rewrite Nat2Z.inj_succ.
        split; [f_equal; lia | f_equal; lia].
    + cbn [detect fst]. apply IH; assumption.
Qed.

(** Once calibrated, a detector answers no [detect] call with
    CALIBRATING or READY. *)
Lemma results_calibrated (cs : list call) (self : obj S) :
  is_calibrated (base self) = true ->
  forallb is_detect cs = true ->
  Forall (fun r => status r <> CALIBRATING /\ status r <> READY)
    (results self cs).
Proof.
  revert self. induction cs as [|c cs IH]; intros self Hc Hd; cbn [results].
  - constructor.
  - cbn [forallb] in Hd. apply andb_prop in Hd. destruct Hd as [Hd1 Hd2].
    destruct c as [[l|]|]; [| |discriminate]; cbn [step].
    + pose proof (detect_calibrated_frame self l Hc) as Hf.
      assert (Hs : status (snd (detect self (Some l))) <> CALIBRATING
                   /\ status (snd (detect self (Some l))) <> READY).
      { unfold detect. rewrite Hc. cbn [negb].
        destruct (_detect_exercise (ext self) l) as [[[d c] m]|e].
        - destruct (_generate_status_message d _ m); cbn;
            [destruct d|]; split; discriminate.
        - cbn. split; discriminate. }
      destruct (detect self (Some l)) as [self1 r]. cbn [snd] in Hs.
      destruct Hf as (_ & F2 & _).
      constructor; [exact Hs | apply IH; assumption].
    + cbn [detect]. constructor; [cbn; split; discriminate | apply IH; assumption].
Qed.

End Lifetime.

(** X12.  A calibrated detector is frozen: over any sequence of
    [detect] calls, with or without landmarks, its baselines, its
    calibration samples and its frame count stay as they are, it stays
    calibrated, and no result is CALIBRATING or READY. *)
Theorem calibrated_detector_is_frozen `{Numpy} (t : ExerciseType)
    (self : BaseDetector.obj (state_of t)) (cs : list BaseDetector.call) :
  BaseDetector.is_calibrated (BaseDetector.base self) = true ->
  forallb is_detect cs = true ->
  baselines t (BaseDetector.ext (BaseDetector.run self cs))
  = baselines t (BaseDetector.ext self)
  /\ accumulators t (BaseDetector.ext (BaseDetector.run self cs))
     = accumulators t (BaseDetector.ext self)
  /\ BaseDetector.frames_collected (BaseDetector.base (BaseDetector.run self cs))
     = BaseDetector.frames_collected (BaseDetector.base self)
  /\ BaseDetector.is_calibrated (BaseDetector.base (BaseDetector.run self cs))
     = true
  /\ Forall (fun r => status r <> CALIBRATING /\ status r <> READY)
       (BaseDetector.results self cs).
Proof.
  intros Hc Hd.
  destruct (run_calibrated cs self Hc Hd) as (E1 & E2 & E3).
  rewrite E1. repeat split; try assumption.
  apply results_calibrated; assumption.
Qed.

(** X13.  From construction and without a reset, the frames collected
    are the [detect] calls that carried landmarks, up to 15, frames
    without landmarks not counting; the detector is calibrated exactly
    when 15 frames with landmarks have been seen. *)
Theorem frames_collected_counts_present `{Numpy} (t : ExerciseType)
    (cfg : option SystemConfig) (cs : list BaseDetector.call) :
  forallb is_detect cs = true ->
  let d := BaseDetector.run (new_detector t cfg) cs in
  BaseDetector.frames_collected (BaseDetector.base d)
  = Z.min 15 (Z.of_nat (count_present cs))
  /\ BaseDetector.is_calibrated (BaseDetector.base d)
     = (15 <=? Z.of_nat (count_present cs))%Z.
Proof.
  intros Hd d.
  pose proof (run_counts_present cs (new_detector t cfg)) as Hr.
  rewrite fresh_detector in Hr. cbn in Hr.
  apply Hr; try reflexivity; try lia. exact Hd.
Qed.

(** X14.  After a reset, whatever the detector has seen before, the
    next 15 frames with landmarks answer CALIBRATING fourteen times
    and then READY, and leave the detector calibrated. *)
Theorem reset_restarts_calibration `{Numpy} (t : ExerciseType)
    (cfg : option SystemConfig) (cs : list BaseDetector.call)
    (ls : list LandmarkPoints) :
  List.length ls = 15%nat ->
  let d := BaseDetector.reset (BaseDetector.run (new_detector t cfg) cs) in
  statuses d ls = repeat CALIBRATING 14 ++ [READY]
  /\ BaseDetector.is_calibrated
       (BaseDetector.base (BaseDetector.run d (BaseDetector.frames ls))) = true.
Proof.
  intros Hlen d.
  destruct (exists_last (l := ls)) as (ls' & l & ->).
  { intro E; subst ls; discriminate. }
  rewrite length_app in Hlen. cbn [List.length] in Hlen.
  pose proof (run_completing ls' l d) as Hr.
  assert (Hn : BaseDetector.calibration_frames (BaseDetector.base d) = 15%Z).
  { unfold d. cbn.
    destruct (run_static cs (new_detector t cfg)) as (R1 & _).
    rewrite R1, fresh_detector. reflexivity. }
  rewrite Hn in Hr. cbn zeta in Hr.
  destruct (Hr eq_refl) as (R1 & _ & _ & R4).
  { unfold d. cbn. lia. }
  split; [|exact R1].
  rewrite R4. replace (List.length ls') with 14%nat by lia. reflexivity.
Qed.

(** X16.  In every result of every detector: the status is DETECTED
    exactly when the detected flag is set; a result that is neither
    DETECTED nor NOT_DETECTED has the flag unset, confidence 0 and no
    metrics; a DETECTED or NOT_DETECTED result carries metrics; and the
    result names the detector's exercise. *)
Theorem results_are_consistent {S : Type} `{BaseDetector.Subclass S}
    (self : BaseDetector.obj S) (l : option LandmarkPoints) :
  let r := snd (BaseDetector.detect self l) in
  (status r = DETECTED <-> detected r = true)
  /\ (detecting (status r) = false ->
      detected r = false /\ confidence r = 0 /\ metrics r = None)
  /\ (detecting (status r) = true -> metrics r <> None)
  /\ exercise_type r = BaseDetector.exercise_type (BaseDetector.base self).
Proof.
  destruct l as [l|]; cbn zeta.
  - unfold BaseDetector.detect.
    destruct (BaseDetector.is_calibrated (BaseDetector.base self)); cbn [negb].
    + destruct (BaseDetector._detect_exercise (BaseDetector.ext self) l)
        as [[[d c] m]|e].
      * destruct (BaseDetector._generate_status_message d _ m); cbn.
        -- destruct d; cbn; repeat split; try discriminate; auto.
        -- repeat split; try discriminate; auto.
      * cbn. repeat split; try discriminate; auto.
    + unfold BaseDetector._handle_calibration. cbn.
      destruct (_ >=? _)%Z; cbn; repeat split; try discriminate; auto.
  - cbn. repeat split; try discriminate; auto.
Qed.


(** ** Baselines, thresholds and the detection branch *)

Section Invariants.

Import BaseDetector.

Context {S : Type} `{Subclass S}.

(** A property of the subclass attributes that finalising after a
    collection establishes holds whenever the detector is calibrated. *)
Lemma run_calibrated_invariant (B : S -> Prop) (cs : list call) (self : obj S) :
  (forall s l, B (_finalize_calibration (_collect_baseline_data s l))) ->
  (is_calibrated (base self) = true -> B (ext self)) ->
  is_calibrated (base (run self cs)) = true -> B (ext (run self cs)).
Proof.
  intro HB. revert self.
  induction cs as [|c cs IH]; intros self Hs; cbn [run]; [exact Hs|].
  apply IH.
  destruct c as [[l|]|]; cbn [step].
  - destruct (is_calibrated (base self)) eqn:Hc.
    + pose proof (detect_calibrated_frame self l Hc) as Hd.
      destruct (detect self (Some l)) as [self1 r]. cbn [fst].
      destruct Hd as (He & _). rewrite He. intros _. apply Hs. reflexivity.
    + unfold detect, _handle_calibration. rewrite Hc. cbn.
      destruct (_ >=? _)%Z; cbn; [intros _; apply HB | congruence].
  - cbn. exact Hs.
  - cbn. discriminate.
Qed.

(** A property that collecting and finalising keep holds throughout. *)
Lemma run_ext_invariant (P : S -> Prop) (cs : list call) (self : obj S) :
  (forall s l, P s -> P (_collect_baseline_data s l)) ->
  (forall s, P s -> P (_finalize_calibration s)) ->
  P (ext self) -> P (ext (run self cs)).
Proof.
  intros Hcol Hfin. revert self.
  induction cs as [|c cs IH]; intros self Hs; cbn [run]; [exact Hs|].
  apply IH.
  destruct c as [[l|]|]; cbn [step].
  - destruct (is_calibrated (base self)) eqn:Hc.
    + pose proof (detect_calibrated_frame self l Hc) as Hd.
      destruct (detect self (Some l)) as [self1 r]. cbn [fst].
      destruct Hd as (He & _). rewrite He. exact Hs.
    + unfold detect, _handle_calibration. rewrite Hc. cbn.
      destruct (_ >=? _)%Z; cbn; auto.
  - cbn. exact Hs.
  - cbn. exact Hs.
Qed.

(** One call keeps the previous confidence below 1. *)
Lemma step_below_one (self : obj S) (c : call) :
  confidence_clamped S ->
  previous_confidence (base self) < 1 ->
  previous_confidence (base (fst (step self c))) < 1
  /\ (forall r, snd (step self c) = Some r -> confidence r < 1).
Proof.
  intros Hlaw Hp. destruct c as [[l|]|]; cbn [step].
  - unfold detect.
    destruct (is_calibrated (base self)) eqn:Hc; cbn [negb].
    + destruct (_detect_exercise (ext self) l) as [[[d c] m]|e] eqn:Hd.
      * assert (Hs : GeometryUtils.smooth_value c (previous_confidence (base self))
                       GeometryUtils.default_smoothing_factor < 1).
        { destruct (Hlaw _ _ _ _ _ Hd) as [_ Hc1].
          unfold GeometryUtils.smooth_value,
            GeometryUtils.default_smoothing_factor. lra. }
        destruct (_generate_status_message d _ m); cbn; split; try exact Hs;
          intros r Hr; inversion Hr; subst; cbn;
          [exact Hs | reflexivity].
      * cbn. split; [exact Hp|].
        intros r Hr; inversion Hr; subst; cbn. reflexivity.
    + unfold _handle_calibration. cbn.
      destruct (_ >=? _)%Z; cbn; (split; [exact Hp|]);
        intros r Hr; inversion Hr; subst; cbn; reflexivity.
  - cbn. split; [exact Hp|].
    intros r Hr; inversion Hr; subst; cbn. reflexivity.
  - cbn. split; [reflexivity|]. intros r Hr. discriminate.
Qed.

Lemma run_below_one (cs : list call) (self : obj S) :
  confidence_clamped S ->
  previous_confidence (base self) < 1 ->
  previous_confidence (base (run self cs)) < 1
  /\ Forall (fun r => confidence r < 1) (results self cs).
Proof.
  intro Hlaw. revert self.
  induction cs as [|c cs IH]; intros self Hp; cbn [run results].
  - split; [exact Hp | constructor].
  - destruct (step_below_one self c Hlaw Hp) as [Hp' Hr].
    destruct (step self c) as [self' r]. cbn [fst snd] in *.
    destruct (IH self' Hp') as [I1 I2].
    split; [exact I1|].
    destruct r as [r|]; [constructor; [apply Hr; reflexivity | exact I2] | exact I2].
Qed.

End Invariants.

Section FiveClasses.

Context `{Numpy}.

Lemma finalize_sets_baselines (t : ExerciseType) (s : state_of t)
    (l : LandmarkPoints) :
  has_baselines t
    (BaseDetector._finalize_calibration (BaseDetector._collect_baseline_data s l)).
Proof.
  unfold has_baselines.
  destruct t; cbn in s |- *;
    [ unfold CervicalFlexionDetector.finalize_calibration,
        CervicalFlexionDetector.collect_baseline_data; cbn;
      destruct (CervicalFlexionDetector.calibration_distances s)
    | unfold CervicalExtensionDetector.finalize_calibration,
        CervicalExtensionDetector.collect_baseline_data; cbn;
      destruct (CervicalExtensionDetector.calibration_distances s)
    | unfold LateralNeckTiltDetector.finalize_calibration,
        LateralNeckTiltDetector.collect_baseline_data; cbn;
      destruct (LateralNeckTiltDetector.calibration_left s),
        (LateralNeckTiltDetector.calibration_right s)
    | unfold NeckRotationDetector.finalize_calibration,
        NeckRotationDetector.collect_baseline_data; cbn;
      destruct (NeckRotationDetector.calibration_left s),
        (NeckRotationDetector.calibration_right s)
    | unfold ChinTuckDetector.finalize_calibration,
        ChinTuckDetector.collect_baseline_data; cbn;
      destruct (ChinTuckDetector.calibration_offsets s),
        (ChinTuckDetector.calibration_depths s) ];
    cbn; repeat constructor; discriminate.
Qed.

Lemma collect_keeps_threshold (t : ExerciseType) (s : state_of t)
    (l : LandmarkPoints) :
  threshold_of t (BaseDetector._collect_baseline_data s l) = threshold_of t s.
Proof. destruct t; reflexivity. Qed.

Lemma finalize_keeps_threshold (t : ExerciseType) (s : state_of t) :
  threshold_of t (BaseDetector._finalize_calibration s) = threshold_of t s.
Proof.
  destruct t; cbn in s |- *;
    [ unfold CervicalFlexionDetector.finalize_calibration;
      destruct (CervicalFlexionDetector.calibration_distances s)
    | unfold CervicalExtensionDetector.finalize_calibration;
      destruct (CervicalExtensionDetector.calibration_distances s)
    | unfold LateralNeckTiltDetector.finalize_calibration;
      destruct (LateralNeckTiltDetector.calibration_left s),
        (LateralNeckTiltDetector.calibration_right s)
    | unfold NeckRotationDetector.finalize_calibration;
      destruct (NeckRotationDetector.calibration_left s),
        (NeckRotationDetector.calibration_right s)
    | unfold ChinTuckDetector.finalize_calibration;
      destruct (ChinTuckDetector.calibration_offsets s),
        (ChinTuckDetector.calibration_depths s) ];
    reflexivity.
Qed.

(** The threshold of a detector is the one its constructor sets. *)
Lemma run_keeps_threshold (t : ExerciseType) (cfg : option SystemConfig)
    (cs : list BaseDetector.call) :
  threshold_of t (BaseDetector.ext (BaseDetector.run (new_detector t cfg) cs))
  = threshold_of t (BaseDetector.ext (new_detector t cfg)).
Proof.
  apply (run_ext_invariant
           (fun s => threshold_of t s
                     = threshold_of t (BaseDetector.ext (new_detector t cfg)))).
  - intros s l Hs. rewrite collect_keeps_threshold. exact Hs.
  - intros s Hs. rewrite finalize_keeps_threshold. exact Hs.
  - reflexivity.
Qed.

(** A calibrated detector has its baselines. *)
Lemma run_has_baselines (t : ExerciseType) (cfg : option SystemConfig)
    (cs : list BaseDetector.call) :
  BaseDetector.is_calibrated
    (BaseDetector.base (BaseDetector.run (new_detector t cfg) cs)) = true ->
  has_baselines t (BaseDetector.ext (BaseDetector.run (new_detector t cfg) cs)).
Proof.
  apply (run_calibrated_invariant (has_baselines t)).
  - apply finalize_sets_baselines.
  - rewrite fresh_detector. discriminate.
Qed.

(** With its baselines set, the detection of a subclass returns. *)
Lemma detect_exercise_total (t : ExerciseType) (s : state_of t)
    (l : LandmarkPoints) :
  has_baselines t s ->
  exists d c m, BaseDetector._detect_exercise s l = Ok (d, c, m).
Proof.
  unfold has_baselines.
  destruct t; cbn in s |- *; intro Hb;
    repeat match goal with
           | Hf : Forall _ (_ :: _) |- _ => inversion Hf; subst; clear Hf
           end.
  - unfold CervicalFlexionDetector.detect_exercise.
    destruct (CervicalFlexionDetector.baseline_distance s) as [b|]; [|congruence].
    destruct (calculate_ratio_some
                (GeometryUtils.calculate_distance (nose l)
                   (vdiv (vadd (left_shoulder l) (right_shoulder l)) 2)) b)
      as [r Hr].
    rewrite Hr. cbn. eauto.
  - unfold CervicalExtensionDetector.detect_exercise.
    destruct (CervicalExtensionDetector.baseline_distance s) as [b|]; [|congruence].
    destruct (calculate_ratio_some
                (GeometryUtils.calculate_distance (nose l)
                   (vdiv (vadd (left_shoulder l) (right_shoulder l)) 2)) b)
      as [r Hr].
    rewrite Hr. cbn. eauto.
  - unfold LateralNeckTiltDetector.detect_exercise.
    destruct (LateralNeckTiltDetector.baseline_left s) as [bl|]; [|congruence].
    destruct (LateralNeckTiltDetector.baseline_right s) as [br|]; [|congruence].
    destruct (calculate_ratio_some
                (GeometryUtils.calculate_distance (nose l) (left_ear l)) bl)
      as [r1 Hr1].
    destruct (calculate_ratio_some
                (GeometryUtils.calculate_distance (nose l) (right_ear l)) br)
      as [r2 Hr2].
    rewrite Hr1, Hr2. cbn. eauto.
  - unfold NeckRotationDetector.detect_exercise.
    destruct (NeckRotationDetector.baseline_left s) as [bl|]; [|congruence].
    destruct (NeckRotationDetector.baseline_right s) as [br|]; [|congruence].
    destruct (calculate_ratio_some (Qabs (fst (nose l) - fst (left_ear l))) bl)
      as [r1 Hr1].
    destruct (calculate_ratio_some (Qabs (fst (nose l) - fst (right_ear l))) br)
      as [r2 Hr2].
    rewrite Hr1, Hr2. cbn. eauto.
  - unfold ChinTuckDetector.detect_exercise.
    destruct (ChinTuckDetector.baseline_offset s) as [bo|]; [|congruence].
    destruct (ChinTuckDetector.baseline_depth s) as [bd|]; [|congruence].
    cbv zeta.
    destruct (calculate_ratio_some
                (Qabs (fst (nose l) - fst (vdiv (vadd (left_ear l) (right_ear l)) 2)))
                bo) as [r1 Hr1].
    destruct (calculate_ratio_some
                (Qabs (snd (nose l) - snd (vdiv (vadd (left_ear l) (right_ear l)) 2)))
                bd) as [r2 Hr2].
    rewrite Hr1, Hr2. cbn. eauto.
Qed.

End FiveClasses.
Lemma py_clamp_positive (x : Q) : 0 < x -> 0 < py_max 0 (py_min 1 x).
Proof.
  intro Hx. unfold py_max, py_min.
  destruct (Qlt_bool x 1) eqn:E1.
  - assert (E2 : Qlt_bool 0 x = true) by (apply Qlt_bool_iff; exact Hx).
    rewrite E2. exact Hx.
  - reflexivity.
Qed.

Lemma Qdiv_positive (x c : Q) : 0 < c -> 0 < x -> 0 < x / c.
Proof.
  intros Hc Hx. apply Qlt_shift_div_l; [exact Hc|]. rewrite Qmult_0_l. exact Hx.
Qed.

Section RawConfidence.

Context `{Numpy}.

(** When the threshold is not negative, the raw confidence of a
    subclass is positive on detection and 0 otherwise. *)
Lemma raw_confidence_sign (t : ExerciseType) (s : state_of t)
    (l : LandmarkPoints) (d : bool) (c : Q) (m : Metrics) :
  0 <= threshold_of t s ->
  BaseDetector._detect_exercise s l = Ok (d, c, m) ->
  (d = true -> 0 < c) /\ (d = false -> c = 0).
Proof.
  destruct t; cbn [state_of] in s;
    cbn [threshold_of impl_of BaseDetector._detect_exercise
         CervicalFlexionDetector.impl CervicalExtensionDetector.impl
         LateralNeckTiltDetector.impl NeckRotationDetector.impl
         ChinTuckDetector.impl];
    intro Ht;
    [ unfold CervicalFlexionDetector.detect_exercise
    | unfold CervicalExtensionDetector.detect_exercise
    | unfold LateralNeckTiltDetector.detect_exercise
    | unfold NeckRotationDetector.detect_exercise
    | unfold ChinTuckDetector.detect_exercise ];
    (destruct (GeometryUtils.calculate_ratio _ _) as [r|e]; cbn [bind];
     [|discriminate]);
    try (destruct (GeometryUtils.calculate_ratio _ _) as [r'|e]; cbn [bind];
         [|discriminate]);
    intro E; injection E as <- <- <-.
  - destruct (Qlt_bool r (CervicalFlexionDetector.threshold s)) eqn:Ed;
      split; try discriminate; try reflexivity.
    intros _. apply Qlt_bool_iff in Ed.
    apply py_clamp_positive, Qdiv_positive; [reflexivity | lra].
  - destruct (Qlt_bool (CervicalExtensionDetector.threshold s) r) eqn:Ed;
      split; try discriminate; try reflexivity.
    intros _. apply Qlt_bool_iff in Ed.
    apply py_clamp_positive, Qdiv_positive; [reflexivity | lra].
  - change (Z.abs (Qnum r * QDen r' + - Qnum r' * QDen r) # Qden r * Qden r')
      with (Qabs (r - r')).
    destruct (Qlt_bool (LateralNeckTiltDetector.threshold s) (Qabs (r - r')))
      eqn:Ed; split; try discriminate; try reflexivity.
    intros _. apply Qlt_bool_iff in Ed.
    apply py_clamp_positive, Qdiv_positive; [reflexivity | lra].
  - destruct (Qlt_bool (NeckRotationDetector.threshold s) (py_max r r')) eqn:Ed;
      split; try discriminate; try reflexivity.
    intros _. apply Qlt_bool_iff in Ed.
    apply py_clamp_positive, Qdiv_positive; [reflexivity | lra].
  - destruct (Qlt_bool r (ChinTuckDetector.threshold s)
              && Qlt_bool (105 # 100) r') eqn:Ed;
      split; try discriminate; try reflexivity.
    intros _. apply andb_prop in Ed. destruct Ed as [E1 E2].
    apply Qlt_bool_iff in E1. apply Qlt_bool_iff in E2.
    apply py_clamp_positive. lra.
Qed.

Lemma fresh_threshold_nonnegative (t : ExerciseType)
    (cfg : option SystemConfig) :
  0 <= threshold_of t (BaseDetector.ext (new_detector t cfg)).
Proof. destruct t; cbn; discriminate. Qed.

End RawConfidence.

(** X15.  A detector built by its constructor never answers a frame
    with landmarks with ERROR, whatever calls came before: while
    calibrating it answers CALIBRATING or READY, and once calibrated
    its baselines are set and its detection returns. *)
Theorem present_landmarks_never_error `{Numpy} (t : ExerciseType)
    (cfg : option SystemConfig) (cs : list BaseDetector.call)
    (l : LandmarkPoints) :
  status
    (snd (BaseDetector.detect (BaseDetector.run (new_detector t cfg) cs) (Some l)))
  <> ERROR.
Proof.
  set (d := BaseDetector.run (new_detector t cfg) cs).
  destruct (BaseDetector.is_calibrated (BaseDetector.base d)) eqn:Hc.
  - pose proof (run_has_baselines t cfg cs Hc) as Hb. fold d in Hb.
    destruct (detect_exercise_total t (BaseDetector.ext d) l Hb)
      as (dd & c & m & Hd).
    destruct (messages_total t (BaseDetector.ext d) l dd c
                (GeometryUtils.smooth_value c
                   (BaseDetector.previous_confidence (BaseDetector.base d))
                   GeometryUtils.default_smoothing_factor) m Hd) as [msg Hm].
    rewrite (detect_calibrated_result d l dd c m msg Hc Hd Hm).
    cbn. destruct dd; discriminate.
  - unfold BaseDetector.detect, BaseDetector._handle_calibration.
    rewrite Hc. cbn. destruct (_ >=? _)%Z; cbn; discriminate.
Qed.

(** X17.  For a detector built by its constructor, after any calls, the
    raw confidence its detection computes is positive exactly when the
    exercise is detected, and 0 otherwise. *)
Theorem raw_confidence_positive_iff_detected `{Numpy} (t : ExerciseType)
    (cfg : option SystemConfig) (cs : list BaseDetector.call)
    (l : LandmarkPoints) (d : bool) (c : Q) (m : Metrics) :
  BaseDetector._detect_exercise
    (BaseDetector.ext (BaseDetector.run (new_detector t cfg) cs)) l
  = Ok (d, c, m) ->
  (d = true <-> 0 < c) /\ (d = false <-> c = 0).
Proof.
  intro Hd.
  assert (Ht : 0 <= threshold_of t
                      (BaseDetector.ext (BaseDetector.run (new_detector t cfg) cs))).
  { rewrite run_keeps_threshold. apply fresh_threshold_nonnegative. }
  destruct (raw_confidence_sign t _ l d c m Ht Hd) as [Hpos Hzero].
  split; split.
  - exact Hpos.
  - intro Hc. destruct d; [reflexivity|].
    rewrite (Hzero eq_refl) in Hc. discriminate Hc.
  - exact Hzero.
  - intro Hc. destruct d; [|reflexivity].
    specialize (Hpos eq_refl). rewrite Hc in Hpos. discriminate Hpos.
Qed.

(** X19.  From construction on, no result reports a confidence of 1:
    every confidence and the stored previous confidence stay strictly
    below 1. *)
Theorem confidence_stays_below_one `{Numpy} (t : ExerciseType)
    (cfg : option SystemConfig) (cs : list BaseDetector.call) :
  Forall (fun r => confidence r < 1)
    (BaseDetector.results (new_detector t cfg) cs)
  /\ BaseDetector.previous_confidence
       (BaseDetector.base (BaseDetector.run (new_detector t cfg) cs)) < 1.
Proof.
  assert (Hp : BaseDetector.previous_confidence
                 (BaseDetector.base (new_detector t cfg)) < 1).
  { rewrite fresh_detector. reflexivity. }
  destruct (run_below_one cs (new_detector t cfg)
              (every_detector_clamped t) Hp) as [H1 H2].
  split; assumption.
Qed.

(** X20.  On a calibrated detector, a frame on which the exercise is
    not detected answers NOT_DETECTED with 0.7 times the previous
    confidence, and stores that value: the confidence decays rather
    than dropping to 0. *)
Theorem undetected_frame_decays_confidence `{Numpy} (t : ExerciseType)
    (cfg : option SystemConfig) (cs : list BaseDetector.call)
    (l : LandmarkPoints) (c : Q) (m : Metrics) :
  let self := BaseDetector.run (new_detector t cfg) cs in
  BaseDetector.is_calibrated (BaseDetector.base self) = true ->
  BaseDetector._detect_exercise (BaseDetector.ext self) l = Ok (false, c, m) ->
  let r := snd (BaseDetector.detect self (Some l)) in
  status r = NOT_DETECTED
  /\ confidence r
     == (7 # 10) * BaseDetector.previous_confidence (BaseDetector.base self)
  /\ BaseDetector.previous_confidence
       (BaseDetector.base (fst (BaseDetector.detect self (Some l))))
     = confidence r.
Proof.
  intros self Hc Hd.
  assert (Ht : 0 <= threshold_of t (BaseDetector.ext self)).
  { unfold self. rewrite run_keeps_threshold. apply fresh_threshold_nonnegative. }
  destruct (raw_confidence_sign t _ l false c m Ht Hd) as [_ Hzero].
  specialize (Hzero eq_refl). subst c.
  destruct (messages_total t (BaseDetector.ext self) l false 0
              (GeometryUtils.smooth_value 0
                 (BaseDetector.previous_confidence (BaseDetector.base self))
                 GeometryUtils.default_smoothing_factor) m Hd) as [msg Hm].
  cbn zeta.
  rewrite (detect_calibrated_result self l false 0 m msg Hc Hd Hm).
  cbn. split; [reflexivity|]. split; [|reflexivity].
  unfold GeometryUtils.smooth_value, GeometryUtils.default_smoothing_factor. ring.
Qed.
(** ** Detectors side by side *)

Section SideBySide.

Import BaseDetector.

Context {S1 S2 : Type} `{Subclass S1} `{Subclass S2}.

(** The progress of the calibration does not depend on the subclass. *)
Lemma step_same_progress (d1 : obj S1) (d2 : obj S2) (c : call) :
  same_progress (base d1) (base d2) ->
  same_progress (base (fst (step d1 c))) (base (fst (step d2 c))).
Proof.
  unfold same_progress. intros (Hn & Hf & Hc).
  destruct c as [[l|]|]; cbn [step].
  - destruct (is_calibrated (base d1)) eqn:Hc1.
    + pose proof (detect_calibrated_frame d1 l Hc1) as F1.
      pose proof (detect_calibrated_frame d2 l (eq_sym Hc)) as F2.
      destruct (detect d1 (Some l)) as [d1' r1], (detect d2 (Some l)) as [d2' r2].
      cbn [fst].
      destruct F1 as (_ & A1 & A2 & A3), F2 as (_ & B1 & B2 & B3).
      rewrite A1, A2, A3, B1, B2, B3. auto.
    + symmetry in Hc.
      destruct (Z.leb_spec (BaseDetector.calibration_frames (base d1))
                  (frames_collected (base d1) + 1)) as [Hle|Hlt].
      * pose proof (detect_completing d1 l Hc1 Hle) as F1.
        pose proof (detect_completing d2 l Hc ltac:(lia)) as F2.
        destruct (detect d1 (Some l)) as [d1' r1],
          (detect d2 (Some l)) as [d2' r2].
        cbn [fst].
        destruct F1 as (_ & _ & _ & _ & A), F2 as (_ & _ & _ & _ & B).
        rewrite A, B. cbn. repeat split; congruence.
      * pose proof (detect_calibrating d1 l Hc1 Hlt) as F1.
        pose proof (detect_calibrating d2 l Hc ltac:(lia)) as F2.
        destruct (detect d1 (Some l)) as [d1' r1],
          (detect d2 (Some l)) as [d2' r2].
        cbn [fst].
        destruct F1 as (_ & _ & _ & _ & A), F2 as (_ & _ & _ & _ & B).
        rewrite A, B. cbn. repeat split; congruence.
  - cbn. auto.
  - cbn. auto.
Qed.

Lemma run_same_progress (cs : list call) (d1 : obj S1) (d2 : obj S2) :
  same_progress (base d1) (base d2) ->
  same_progress (base (run d1 cs)) (base (run d2 cs)).
Proof.
  revert d1 d2. induction cs as [|c cs IH]; intros d1 d2 Hs; cbn [run].
  - exact Hs.
  - apply IH, step_same_progress, Hs.
Qed.

End SideBySide.

Section FlexionExtension.

Context `{Numpy}.



End FlexionExtension.


(** ** The coordinator and its five detectors *)

Section RealCoordinator.

Import ExerciseDetectionSystem.

Context `{Numpy}.

Lemma call_detect_real (t : ExerciseType) (d : BaseDetector.obj (state_of t))
    (l : option LandmarkPoints) :
  call_detect (detector_object t d) l
  = (detector_object t (fst (BaseDetector.detect d l)),
     Ok (snd (BaseDetector.detect d l))).
Proof.
  unfold call_detect, detector_object. cbn.
  destruct (BaseDetector.detect d l). reflexivity.
Qed.

Lemma call_reset_real (t : ExerciseType) (d : BaseDetector.obj (state_of t)) :
  call_reset (detector_object t d)
  = (detector_object t (BaseDetector.reset d), Ok tt).
Proof. reflexivity. Qed.

Lemma detectors_of_ext
    (d1 d2 : forall t : ExerciseType, BaseDetector.obj (state_of t)) :
  (forall t, d1 t = d2 t) -> detectors_of d1 = detectors_of d2.
Proof.
  intro E. unfold detectors_of, all_exercise_types. cbn [map].
  rewrite (E CERVICAL_FLEXION), (E CERVICAL_EXTENSION), (E LATERAL_NECK_TILT),
    (E NECK_ROTATION), (E CHIN_TUCK). reflexivity.
Qed.

(** The loop hands the landmarks to each of the five detectors and
    files each result under its exercise. *)
Lemma detect_loop_real
    (d : forall t : ExerciseType, BaseDetector.obj (state_of t))
    (l : option LandmarkPoints) :
  detect_loop (detectors_of d) l []
  = (detectors_of (fun t => fst (BaseDetector.detect (d t) l)),
     map (fun t => (t, snd (BaseDetector.detect (d t) l))) all_exercise_types).
Proof.
  unfold detectors_of, all_exercise_types. cbn [map detect_loop].
  rewrite !call_detect_real. reflexivity.
Qed.

Lemma reset_loop_real
    (d : forall t : ExerciseType, BaseDetector.obj (state_of t)) :
  reset_loop (detectors_of d)
  = (detectors_of (fun t => BaseDetector.reset (d t)), Ok tt).
Proof. reflexivity. Qed.

Lemma step_detect_fst {S : Type} `{BaseDetector.Subclass S}
    (self : BaseDetector.obj S) (l : option LandmarkPoints) :
  fst (BaseDetector.step self (BaseDetector.Detect l))
  = fst (BaseDetector.detect self l).
Proof. cbn. destruct (BaseDetector.detect self l). reflexivity. Qed.

(** One call to the coordinator is that call on each detector. *)
Lemma system_step_real (c : system_call) (self : t)
    (d : forall t : ExerciseType, BaseDetector.obj (state_of t)) :
  detectors self = detectors_of d ->
  detectors (system_step self c)
  = detectors_of (fun t => fst (BaseDetector.step (d t) (detector_call c)))
  /\ total_detections (system_step self c)
     = match c with
       | Frame _ _ => (total_detections self + 1)%Z
       | ResetBaselines _ => 0%Z
       end.
Proof.
  intro Hd. destruct c as [p s|now]; cbn [system_step detector_call].
  - unfold detect_exercises. rewrite Hd, detect_loop_real. cbn [fst detectors
      total_detections].
    split; [|reflexivity].
    apply detectors_of_ext. intro ty. symmetry. apply step_detect_fst.
  - unfold reset_baselines. rewrite Hd, reset_loop_real. cbn. auto.
Qed.

Lemma system_run_real (cs : list system_call) (self : t)
    (d : forall t : ExerciseType, BaseDetector.obj (state_of t)) :
  detectors self = detectors_of d ->
  detectors (system_run self cs)
  = detectors_of (fun t => BaseDetector.run (d t) (map detector_call cs))
  /\ total_detections (system_run self cs)
     = frames_since_reset cs (total_detections self).
Proof.
  unfold system_run. revert self d.
  induction cs as [|c cs IH]; intros self d Hd; cbn [fold_left map].
  - cbn. auto.
  - destruct (system_step_real c self d Hd) as [Hs Ht].
    destruct (IH _ _ Hs) as [I1 I2].
    split; [exact I1|].
    rewrite I2, Ht. destruct c; reflexivity.
Qed.

Lemma init_real (cfg : option SystemConfig) (now : Q) :
  detectors (init cfg now)
  = detectors_of
      (fun t => new_detector t
                  (Some (match cfg with
                         | Some c => c
                         | None => SystemConfig_default
                         end))).
Proof. reflexivity. Qed.

End RealCoordinator.

(** X22.  The coordinator is five independent detectors: after any
    frames and resets, its detector for each exercise is the detector
    built by the constructor and given, in order, the landmarks
    extracted from each frame and a reset for each reset; and the
    mapping returned for a frame holds, for each exercise, what that
    detector answers to the extracted landmarks. *)
Theorem coordinator_runs_five_detectors `{Numpy} (cfg : option SystemConfig)
    (now : Q) (cs : list system_call) (pose_results : PoseResults)
    (frame_shape : Z * Z) :
  let config := match cfg with Some c => c | None => SystemConfig_default end in
  let d := fun t =>
    BaseDetector.run (new_detector t (Some config)) (map detector_call cs) in
  let self := system_run (ExerciseDetectionSystem.init cfg now) cs in
  ExerciseDetectionSystem.detectors self = detectors_of d
  /\ snd (ExerciseDetectionSystem.detect_exercises self pose_results frame_shape)
     = map (fun t =>
              (t, snd (BaseDetector.detect (d t)
                         (LandmarkExtractor.extract_landmarks pose_results
                            frame_shape))))
         ExerciseDetectionSystem.all_exercise_types.
Proof.
  intros config d self.
  destruct (system_run_real cs (ExerciseDetectionSystem.init cfg now) _
              (init_real cfg now)) as [Hd _].
  fold config in Hd. fold self in Hd.
  split; [exact Hd|].
  unfold ExerciseDetectionSystem.detect_exercises.
  rewrite Hd, detect_loop_real. reflexivity.
Qed.

(** X23.  A frame in which no pose is found leaves the five detectors
    of the coordinator as they are and still counts as a detection; the
    mapping returned holds an ERROR result, not detected and with
    confidence 0, for every exercise. *)
Theorem frame_without_pose `{Numpy} (cfg : option SystemConfig) (now : Q)
    (cs : list system_call) (pose_results : PoseResults) (frame_shape : Z * Z) :
  LandmarkExtractor.extract_landmarks pose_results frame_shape = None ->
  let self := system_run (ExerciseDetectionSystem.init cfg now) cs in
  let result :=
    ExerciseDetectionSystem.detect_exercises self pose_results frame_shape in
  ExerciseDetectionSystem.detectors (fst result)
  = ExerciseDetectionSystem.detectors self
  /\ ExerciseDetectionSystem.total_detections (fst result)
     = (ExerciseDetectionSystem.total_detections self + 1)%Z
  /\ forall t,
       exists r,
         ExerciseDetectionSystem.dict_get (snd result) t = Some r
         /\ status r = ERROR /\ detected r = false /\ confidence r = 0.
Proof.
  intros Hnone self result.
  destruct (system_run_real cs (ExerciseDetectionSystem.init cfg now) _
              (init_real cfg now)) as [Hd _].
  fold self in Hd.
  unfold result, ExerciseDetectionSystem.detect_exercises.
  rewrite Hnone, Hd, detect_loop_real. cbn [fst snd
    ExerciseDetectionSystem.detectors ExerciseDetectionSystem.total_detections].
  split; [apply detectors_of_ext; intro t; reflexivity|].
  split; [reflexivity|].
  intro t. destruct t; eexists; (split; [reflexivity|]); cbn; auto.
Qed.

(** X24.  [reset_baselines] on the coordinator returns normally,
    sets the detection count to 0 and the session start to the current
    time, and leaves each of the five detectors uncalibrated with no
    frame collected and a previous confidence of 0. *)
Theorem reset_baselines_resets_all `{Numpy} (cfg : option SystemConfig)
    (now : Q) (cs : list system_call) (now' : Q) :
  let result :=
    ExerciseDetectionSystem.reset_baselines
      (system_run (ExerciseDetectionSystem.init cfg now) cs) now' in
  snd result = Ok tt
  /\ ExerciseDetectionSystem.total_detections (fst result) = 0%Z
  /\ ExerciseDetectionSystem.session_start_time (fst result) = now'
  /\ exists d,
       ExerciseDetectionSystem.detectors (fst result) = detectors_of d
       /\ forall t,
            BaseDetector.is_calibrated (BaseDetector.base (d t)) = false
            /\ BaseDetector.frames_collected (BaseDetector.base (d t)) = 0%Z
            /\ BaseDetector.previous_confidence (BaseDetector.base (d t)) = 0.
Proof.
  intro result.
  destruct (system_run_real cs (ExerciseDetectionSystem.init cfg now) _
              (init_real cfg now)) as [Hd _].
  unfold result, ExerciseDetectionSystem.reset_baselines.
  rewrite Hd, reset_loop_real. cbn [fst snd
    ExerciseDetectionSystem.detectors ExerciseDetectionSystem.total_detections
    ExerciseDetectionSystem.session_start_time].
  split; [reflexivity|]. split; [reflexivity|]. split; [reflexivity|].
  eexists. split; [reflexivity|].
  intro t. cbn. auto.
Qed.

(** X25.  The detection count of the coordinator is the number of
    frames processed since the last reset, frames without a pose
    included. *)
Theorem total_detections_counts_frames `{Numpy} (cfg : option SystemConfig)
    (now : Q) (cs : list system_call) :
  ExerciseDetectionSystem.total_detections
    (system_run (ExerciseDetectionSystem.init cfg now) cs)
  = frames_since_reset cs 0.
Proof.
  destruct (system_run_real cs (ExerciseDetectionSystem.init cfg now) _
              (init_real cfg now)) as [_ Ht].
  exact Ht.
Qed.

(** X26.  [get_system_stats] raises [AttributeError] on the
    coordinator, whatever frames and resets it has processed: counting
    the calibrated detectors reads the attribute [calibration], which
    no detector has. *)
Theorem get_system_stats_raises `{Numpy} (cfg : option SystemConfig)
    (now : Q) (cs : list system_call) (now' : Q) :
  get_system_stats (system_run (ExerciseDetectionSystem.init cfg now) cs) now'
  = Raise (AttributeError
             "'CervicalFlexionDetector' object has no attribute 'calibration'").
Proof.
  destruct (first_detector_lacks_calibration cfg now cs)
    as (k & d & ds & Hd & Hx).
  unfold get_system_stats. rewrite Hd.
  cbn [map snd count_complete].
  unfold read_calibration. rewrite Hx. reflexivity.
Qed.

Lemma calibrated_status_detecting `{Numpy} (t : ExerciseType)
    (cfg : option SystemConfig) (cs : list BaseDetector.call)
    (l : LandmarkPoints) :
  BaseDetector.is_calibrated
    (BaseDetector.base (BaseDetector.run (new_detector t cfg) cs)) = true ->
  detecting
    (status
       (snd (BaseDetector.detect (BaseDetector.run (new_detector t cfg) cs)
               (Some l)))) = true.
Proof.
  set (d := BaseDetector.run (new_detector t cfg) cs). intro Hc.
  pose proof (run_has_baselines t cfg cs Hc) as Hb. fold d in Hb.
  destruct (detect_exercise_total t (BaseDetector.ext d) l Hb)
    as (dd & c & m & Hd).
  destruct (messages_total t (BaseDetector.ext d) l dd c
              (GeometryUtils.smooth_value c
                 (BaseDetector.previous_confidence (BaseDetector.base d))
                 GeometryUtils.default_smoothing_factor) m Hd) as [msg Hm].
  rewrite (detect_calibrated_result d l dd c m msg Hc Hd Hm).
  cbn. destruct dd; reflexivity.
Qed.

Lemma calibrating_status {S : Type} `{BaseDetector.Subclass S}
    (d : BaseDetector.obj S) (l : LandmarkPoints) :
  BaseDetector.is_calibrated (BaseDetector.base d) = false ->
  status (snd (BaseDetector.detect d (Some l)))
  = if (BaseDetector.calibration_frames (BaseDetector.base d)
        <=? BaseDetector.frames_collected (BaseDetector.base d) + 1)%Z
    then READY else CALIBRATING.
Proof.
  intro Hc.
  destruct (Z.leb_spec (BaseDetector.calibration_frames (BaseDetector.base d))
              (BaseDetector.frames_collected (BaseDetector.base d) + 1))
    as [Hle|Hlt].
  - pose proof (detect_completing d l Hc Hle) as Hx.
    destruct (BaseDetector.detect d (Some l)). apply Hx.
  - pose proof (detect_calibrating d l Hc Hlt) as Hx.
    destruct (BaseDetector.detect d (Some l)). apply Hx.
Qed.

(** X27.  Detectors of any two exercises that have received the same
    calls since construction answer a frame in the same phase: both
    ERROR, both CALIBRATING, both READY, or both with a detection
    status. *)
Theorem detectors_share_phase `{Numpy} (t1 t2 : ExerciseType)
    (cfg1 cfg2 : option SystemConfig) (cs : list BaseDetector.call)
    (l : option LandmarkPoints) :
  let r1 :=
    snd (BaseDetector.detect (BaseDetector.run (new_detector t1 cfg1) cs) l) in
  let r2 :=
    snd (BaseDetector.detect (BaseDetector.run (new_detector t2 cfg2) cs) l) in
  (detecting (status r1) = false /\ status r1 = status r2)
  \/ (detecting (status r1) = true /\ detecting (status r2) = true).
Proof.
  intros r1 r2.
  assert (Hs : same_progress
                 (BaseDetector.base (BaseDetector.run (new_detector t1 cfg1) cs))
                 (BaseDetector.base (BaseDetector.run (new_detector t2 cfg2) cs))).
  { apply run_same_progress. rewrite !fresh_detector.
    unfold same_progress. cbn. auto. }
  destruct Hs as (Hn & Hf & Hc).
  destruct l as [l|]; [|left; split; reflexivity].
  destruct (BaseDetector.is_calibrated
              (BaseDetector.base (BaseDetector.run (new_detector t1 cfg1) cs)))
    eqn:Hc1.
  - right. split.
    + apply calibrated_status_detecting, Hc1.
    + apply calibrated_status_detecting. symmetry. exact Hc.
  - left. unfold r1, r2.
    rewrite (calibrating_status _ l Hc1).
    rewrite (calibrating_status _ l (eq_sym Hc)).
    rewrite Hn, Hf.
    split; [destruct (_ <=? _)%Z; reflexivity | reflexivity].
Qed.

(** ** The video processor *)

Lemma last_n_all {A : Type} (n : nat) (l : list A) :
  (List.length l <= n)%nat -> last_n n l = l.
Proof.
  intro Hle. unfold last_n.
  replace (List.length l - n)%nat with 0%nat by lia. reflexivity.
Qed.

Lemma last_n_cons {A : Type} (n : nat) (x : A) (l : list A) :
  (n <= List.length l)%nat -> last_n n (x :: l) = last_n n l.
Proof.
  intro Hle. unfold last_n. cbn [List.length].
  replace (S (List.length l) - n)%nat with (S (List.length l - n)) by lia.
  reflexivity.
Qed.

Lemma last_n_length {A : Type} (n : nat) (l : list A) :
  List.length (last_n n l) = Nat.min n (List.length l).
Proof. unfold last_n. rewrite length_skipn. lia. Qed.

(** Recording a time keeps at most 30 times, and what is dropped
    would not be among the last 30 anyway. *)
Lemma record_time_window (times : list Q) (processing_time : Q)
    (rest : list Q) :
  (List.length times <= 30)%nat ->
  (List.length (VideoProcessor.record_time times processing_time) <= 30)%nat
  /\ last_n 30 (VideoProcessor.record_time times processing_time ++ rest)
     = last_n 30 (times ++ processing_time :: rest).
Proof.
  intro Hle. unfold VideoProcessor.record_time.
  assert (Hlen : List.length (times ++ [processing_time])
                 = S (List.length times))
    by (rewrite length_app; cbn; lia).
  replace (times ++ processing_time :: rest)
    with ((times ++ [processing_time]) ++ rest)
    by (rewrite <- app_assoc; reflexivity).
  destruct (Nat.ltb_spec 30 (List.length (times ++ [processing_time])))
    as [Hlt|Hge].
  - destruct (times ++ [processing_time]) as [|x l] eqn:E; [cbn in Hlt; lia|].
    cbn [tl List.length] in *. split; [lia|].
    cbn [app]. rewrite last_n_cons; [reflexivity|].
    rewrite length_app. lia.
  - split; [lia | reflexivity].
Qed.

Lemma run_frames_state (fs : list VideoProcessor.frame_input)
    (self : VideoProcessor.t) :
  (List.length (VideoProcessor.processing_times self) <= 30)%nat ->
  VideoProcessor.processing_times (VideoProcessor.run_frames self fs)
  = last_n 30 (VideoProcessor.processing_times self ++ map snd fs)
  /\ VideoProcessor.frame_count (VideoProcessor.run_frames self fs)
     = (VideoProcessor.frame_count self + Z.of_nat (List.length fs))%Z.
Proof.
  unfold VideoProcessor.run_frames. revert self.
  induction fs as [|[[p s] time] fs IH]; intros self Hle; cbn [fold_left map].
  - rewrite app_nil_r. rewrite last_n_all by exact Hle. cbn. split; [reflexivity|lia].
  - cbn [fst snd].
    destruct (record_time_window (VideoProcessor.processing_times self) time
                (map snd fs) Hle) as [Hlen Hwin].
    unfold VideoProcessor.process_frame at 2 4.
    destruct (ExerciseDetectionSystem.detect_exercises _ p s) as [sys res].
    cbn [fst].
    set (self' := {| VideoProcessor.config := VideoProcessor.config self;
                     VideoProcessor.exercise_system := sys;
                     VideoProcessor.processing_times :=
                       VideoProcessor.record_time
                         (VideoProcessor.processing_times self) time;
                     VideoProcessor.frame_count :=
                       (VideoProcessor.frame_count self + 1)%Z |}).
    destruct (IH self' Hlen) as [I1 I2].
    split.
    + rewrite I1. exact Hwin.
    + rewrite I2. cbn [VideoProcessor.frame_count self' List.length].
      rewrite Nat2Z.inj_succ. lia.
Qed.

(** X28.  The video processor keeps the processing times of the last
    30 frames, in order, and counts every frame: after any frames its
    list of times is the last 30 of the times measured, never longer
    than 30, and its frame count is the number of frames. *)
Theorem processing_times_window `{Numpy} (cfg : option SystemConfig)
    (now : Q) (fs : list VideoProcessor.frame_input) :
  let vp := VideoProcessor.run_frames (VideoProcessor.init cfg now) fs in
  VideoProcessor.processing_times vp = last_n 30 (map snd fs)
  /\ (List.length (VideoProcessor.processing_times vp) <= 30)%nat
  /\ VideoProcessor.frame_count vp = Z.of_nat (List.length fs).
Proof.
  intro vp.
  destruct (run_frames_state fs (VideoProcessor.init cfg now)) as [Ht Hc].
  { cbn. lia. }
  fold vp in Ht, Hc.
  cbn [VideoProcessor.init VideoProcessor.processing_times
       VideoProcessor.frame_count app] in Ht, Hc.
  rewrite Z.add_0_l in Hc.
  split; [exact Ht|]. split; [|exact Hc].
  rewrite Ht, last_n_length. lia.
Qed.

(** * The claims on concrete inputs

    From here on [np.linalg.norm] is [exact_numpy]. *)

#[local] Existing Instance exact_numpy.

Lemma one_failing_detector_is_isolated_witness :
  let self := system_with_faulty_rotation in
  let p := pose_of (face 100 20 20) in
  let landmarks := LandmarkExtractor.extract_landmarks p (1%Z, 1%Z) in
  let results := snd (ExerciseDetectionSystem.detect_exercises self p (1%Z, 1%Z)) in
  detect_outcome self NECK_ROTATION landmarks = Some (Raise (RuntimeError "boom"))
  /\ option_map status (ExerciseDetectionSystem.dict_get results NECK_ROTATION)
     = Some ERROR
  /\ option_map status (ExerciseDetectionSystem.dict_get results CHIN_TUCK)
     = Some CALIBRATING.
Proof.
  intros self p landmarks results.
  destruct (one_failing_detector_is_isolated self p (1%Z, 1%Z) NECK_ROTATION)
    as (_ & (e & He & Hk) & Ho).
  - reflexivity.
  - eexists. reflexivity.
  - intros j Hj. destruct j; try congruence; eexists; reflexivity.
  - split; [reflexivity|].
    split.
    + fold results in Hk. rewrite Hk. reflexivity.
    + destruct (Ho CHIN_TUCK ltac:(discriminate)) as (r & Hr & Hg).
      fold results in Hg. rewrite Hg.
      cbv in Hr. inversion Hr; subst. reflexivity.
Defined.

Lemma rotation_detection_witness :
  BaseDetector.is_calibrated (BaseDetector.base calibrated_rotation) = true
  /\ exists left_ratio right_ratio raw m,
       GeometryUtils.calculate_ratio (left_offset turned)
         (NeckRotationDetector.baseline_left (BaseDetector.ext calibrated_rotation))
       = Ok left_ratio
       /\ GeometryUtils.calculate_ratio (right_offset turned)
            (NeckRotationDetector.baseline_right
               (BaseDetector.ext calibrated_rotation))
          = Ok right_ratio
       /\ NeckRotationDetector.detect_exercise
            (BaseDetector.ext calibrated_rotation) turned
          = Ok (detected (snd (BaseDetector.detect calibrated_rotation (Some turned))),
                raw, m)
       /\ metrics_get m "direction" = Ok (MStr "RIGHT").
Proof.
  unfold calibrated_rotation.
  assert (Hc : BaseDetector.is_calibrated
                 (BaseDetector.base
                    (BaseDetector.run (NeckRotationDetector.init None)
                       (BaseDetector.frames rest_frames))) = true)
    by (vm_compute; reflexivity).
  split; [exact Hc|].
  pose proof (rotation_detection None (BaseDetector.frames rest_frames) turned)
    as Hw.
  cbv zeta in Hw.
  destruct (Hw Hc)
    as (lr & rr & raw & m & dir & Hl & Hr & _ & Hde & _ & _ & Hdir & Hright & _).
  exists lr, rr, raw, m.
  split; [exact Hl|]. split; [exact Hr|]. split; [exact Hde|].
  rewrite Hdir. rewrite Hright; [reflexivity|].
  vm_compute in Hl. vm_compute in Hr.
  inversion Hl; inversion Hr; subst. reflexivity.
Defined.

Lemma calibration_and_smoothing_are_fixed_witness :
  List.length rest_frames = 15%nat
  /\ statuses
       (new_detector NECK_ROTATION
          (Some (with_calibration_frames 20
                   (with_confidence_smoothing (1 # 2) SystemConfig_default))))
       rest_frames
     = repeat CALIBRATING 14 ++ [READY]
  /\ BaseDetector.is_calibrated (BaseDetector.base calibrated_rotation) = true
  /\ confidence (snd (BaseDetector.detect calibrated_rotation (Some turned)))
     = (3 # 10) * (py_max 0 (py_min 1 ((py_max (40 / 20) (20 / 20) - (15 # 10)) / 1)))
       + (1 - (3 # 10))
         * BaseDetector.previous_confidence (BaseDetector.base calibrated_rotation).
Proof.
  pose proof (calibration_and_smoothing_are_fixed NECK_ROTATION
                (Some (with_calibration_frames 20
                         (with_confidence_smoothing (1 # 2) SystemConfig_default))))
    as [Hcal Hsm].
  split; [reflexivity|].
  split; [apply Hcal; reflexivity|].
  assert (Hc : BaseDetector.is_calibrated (BaseDetector.base calibrated_rotation)
               = true) by (vm_compute; reflexivity).
  split; [exact Hc|].
  assert (Hd : NeckRotationDetector.detect_exercise
                 (BaseDetector.ext calibrated_rotation) turned
               = Ok (true,
                     py_max 0 (py_min 1 ((py_max (40 / 20) (20 / 20) - (15 # 10)) / 1)),
                     [("max_ratio", MFloat (py_max (40 / 20) (20 / 20)));
                      ("direction", MStr "RIGHT");
                      ("threshold", MFloat (15 # 10))]))
    by (vm_compute; reflexivity).
  pose proof (Hsm calibrated_rotation turned _ _ _ Hc Hd) as Hw.
  cbv zeta in Hw. exact (proj1 Hw).
Defined.

(** C6, as stated, fails: built with [calibration_frames = 20], the
    neck-rotation detector does not calibrate over 20 frames; it
    answers READY on frame 15. *)
Lemma calibration_follows_config_counterexample :
  ~ calibration_follows_config NECK_ROTATION
      (with_calibration_frames 20 SystemConfig_default).
Proof.
  intro Hc.
  specialize (Hc (repeat (face 100 20 20) 20) eq_refl).
  vm_compute in Hc. discriminate Hc.
Qed.

(** C7, as stated, fails: a configuration with a calibration-frame count
    of 0 is not rejected. *)
Lemma rejected_at_construction_counterexample :
  (calibration_frames (with_calibration_frames 0 SystemConfig_default) <= 0)%Z
  /\ ~ rejected_at_construction
         (with_calibration_frames 0 SystemConfig_default).
Proof.
  split; [cbn; lia|].
  intros [Hsys _]. destruct (Hsys 0) as [e He]. discriminate He.
Qed.

(** C3, as stated, fails: with the left ratio 2 and the right ratio 1
    the direction metric is RIGHT. *)
Lemma rotation_direction_counterexample :
  ~ rotation_direction_names_larger_side calibrated_rotation turned.
Proof.
  intro Hc.
  destruct (Hc (40 / 20) (20 / 20)) as (m & direction & Hm & Hdir & Hside & _).
  - vm_compute. reflexivity.
  - vm_compute. reflexivity.
  - vm_compute in Hm. inversion Hm; subst m.
    vm_compute in Hdir. inversion Hdir; subst direction.
    assert (Hlt : 20 / 20 < 40 / 20) by reflexivity.
    specialize (Hside Hlt). discriminate Hside.
Qed.

Lemma calibration_completes_on_last_frame_witness :
  Z.of_nat (List.length rest_frames) = 15%Z
  /\ BaseDetector.is_calibrated
       (BaseDetector.base
          (BaseDetector.run (new_detector CHIN_TUCK None)
             (BaseDetector.frames rest_frames))) = true
  /\ statuses (new_detector CHIN_TUCK None) rest_frames
     = repeat CALIBRATING 14 ++ [READY].
Proof.
  split; [reflexivity|].
  pose proof (calibration_completes_on_last_frame CHIN_TUCK None rest_frames) as Hw.
  cbv zeta in Hw.
  destruct (Hw eq_refl) as (_ & Hcal & Hst & _).
  split; [exact Hcal | exact Hst].
Defined.

Lemma flexion_end_to_end_witness :
  List.length rest_frames = 15%nat
  /\ Forall (fun f => nose_to_mid_shoulder f == 100) rest_frames
  /\ nose_to_mid_shoulder lowered == 80
  /\ exists b c m,
       CervicalFlexionDetector.baseline_distance (BaseDetector.ext calibrated_flexion)
       = Some b
       /\ b == 100
       /\ CervicalFlexionDetector.detect_exercise
            (BaseDetector.ext calibrated_flexion) lowered
          = Ok (true, c, m)
       /\ c == 1 # 3.
Proof.
  assert (Hall : Forall (fun f => nose_to_mid_shoulder f == 100) rest_frames).
  { unfold rest_frames. apply Forall_forall. intros f Hf.
    apply repeat_spec in Hf. subst f. vm_compute. reflexivity. }
  assert (Hl : nose_to_mid_shoulder lowered == 80)
    by (vm_compute; reflexivity).
  split; [reflexivity|]. split; [exact Hall|]. split; [exact Hl|].
  pose proof (flexion_end_to_end None rest_frames lowered eq_refl Hall Hl) as Hw.
  cbv zeta in Hw. unfold calibrated_flexion.
  destruct Hw as (b & c & m & Hb & Hb100 & Hde & Hc & _).
  exists b, c, m. repeat split; assumption.
Defined.

(** C2: [reset] on the failing input.  A cervical-flexion detector is
    calibrated at distance 100, reset, and calibrated again over 15
    frames at distance 200.  The reset clears the frame count, the
    calibration flag and the previous confidence and keeps the
    threshold, but it also keeps the 15 old samples: the second
    calibration takes the median of 30 samples, and the baseline is 150
    where the median of the new samples is 200. *)
Theorem reset_keeps_calibration_samples :
  let d0 := calibrated_flexion in
  let d1 := BaseDetector.reset d0 in
  let d2 := BaseDetector.run d1 (BaseDetector.frames raised_frames) in
  BaseDetector.frames_collected (BaseDetector.base d1) = 0%Z
  /\ BaseDetector.is_calibrated (BaseDetector.base d1) = false
  /\ BaseDetector.previous_confidence (BaseDetector.base d1) = 0
  /\ CervicalFlexionDetector.threshold (BaseDetector.ext d1)
     = CervicalFlexionDetector.threshold (BaseDetector.ext d0)
  /\ CervicalFlexionDetector.calibration_distances (BaseDetector.ext d1)
     = CervicalFlexionDetector.calibration_distances (BaseDetector.ext d0)
  /\ List.length (CervicalFlexionDetector.calibration_distances (BaseDetector.ext d1))
     = 15%nat
  /\ BaseDetector.is_calibrated (BaseDetector.base d2) = true
  /\ List.length (CervicalFlexionDetector.calibration_distances (BaseDetector.ext d2))
     = 30%nat
  /\ np_median (map nose_to_mid_shoulder raised_frames) == 200
  /\ exists b,
       CervicalFlexionDetector.baseline_distance (BaseDetector.ext d2) = Some b
       /\ b == 150.
Proof.
  cbv zeta.
  do 9 (split; [vm_compute; reflexivity|]).
  exists (np_median
            (CervicalFlexionDetector.calibration_distances
               (BaseDetector.ext calibrated_flexion)
             ++ map nose_to_mid_shoulder raised_frames)).
  split; vm_compute; reflexivity.
Qed.

(** * The further properties on concrete inputs *)

Lemma calculate_ratio_scale_invariant_witness :
  ~ 2 == 0
  /\ exists r1 r2,
       GeometryUtils.calculate_ratio (2 * 30) (Some (2 * 20)) = Ok r1
       /\ GeometryUtils.calculate_ratio 30 (Some 20) = Ok r2
       /\ r1 == r2.
Proof.
  assert (Hk : ~ 2 == 0) by discriminate.
  split; [exact Hk | exact (calculate_ratio_scale_invariant 2 30 20 Hk)].
Defined.

Lemma smooth_value_between_witness :
  0 <= 3 # 10 /\ 3 # 10 <= 1
  /\ Qmin 1 0 <= GeometryUtils.smooth_value 1 0 (3 # 10)
  /\ GeometryUtils.smooth_value 1 0 (3 # 10) <= Qmax 1 0.
Proof.
  assert (H0 : 0 <= 3 # 10) by discriminate.
  assert (H1 : 3 # 10 <= 1) by discriminate.
  split; [exact H0|]. split; [exact H1|].
  exact (smooth_value_between 1 0 (3 # 10) H0 H1).
Defined.

Lemma clamp_within_bounds_witness :
  0 <= 1 /\ MathUtils.clamp 5 0 1 <= 1 /\ MathUtils.clamp 5 1 0 == 1.
Proof.
  assert (H0 : 0 <= 1) by discriminate.
  assert (H1 : 0 < 1) by reflexivity.
  split; [exact H0|]. split.
  - exact (proj1 (proj2 (proj1 (clamp_within_bounds 5 0 1) H0))).
  - exact (proj2 (clamp_within_bounds 5 1 0) H1).
Defined.

Lemma map_range_round_trip_witness :
  ~ 10 == 0 /\ ~ 100 == 32
  /\ MathUtils.map_range (MathUtils.map_range 5 0 10 32 100) 32 100 0 10 == 5.
Proof.
  assert (Hf : ~ 10 == 0) by discriminate.
  assert (Ht : ~ 100 == 32) by discriminate.
  split; [exact Hf|]. split; [exact Ht|].
  exact (proj2 (proj2 (map_range_round_trip 5 0 10 32 100 Hf Ht))).
Defined.

Lemma extracted_landmarks_are_visible_witness :
  LandmarkExtractor.extract_landmarks (pose_of (face 100 20 20)) (1%Z, 1%Z)
  <> None
  /\ forall landmarks,
       LandmarkExtractor.extract_landmarks (pose_of (face 100 20 20)) (1%Z, 1%Z)
       = Some landmarks ->
       is_pose_visible landmarks (1 # 2) = true.
Proof.
  split; [discriminate|].
  intros landmarks Hex.
  apply (extracted_landmarks_are_visible (pose_of (face 100 20 20)) 1 1
           landmarks (1 # 2)); [lia | lia | | exact Hex].
  intros ls l Hp Hin. cbn in Hp. inversion Hp; subst ls. clear Hp.
  cbn [In] in Hin.
  repeat (destruct Hin as [<-|Hin]; [cbn; split; discriminate|]).
  destruct Hin.
Defined.

Lemma progress_percentage_spec_witness :
  let self :=
    {| CalibrationState.frames_collected := 20;
       CalibrationState.frames_required := 15;
       CalibrationState.baseline_values := None;
       CalibrationState.is_complete := true |} in
  (0 < CalibrationState.frames_required self)%Z
  /\ (CalibrationState.frames_required self
      <= CalibrationState.frames_collected self)%Z
  /\ exists p, progress_percentage self = Quotient p /\ p == 100.
Proof.
  intro self.
  assert (H0 : (0 < CalibrationState.frames_required self)%Z) by reflexivity.
  assert (H1 : (CalibrationState.frames_required self
                <= CalibrationState.frames_collected self)%Z)
    by discriminate.
  split; [exact H0|]. split; [exact H1|].
  pose proof (progress_percentage_spec self) as Hw.
  destruct (progress_percentage self) as [p|] eqn:E.
  - exists p. split; [reflexivity|].
    destruct Hw as (_ & _ & Hfull & _). exact (Hfull H0 H1).
  - discriminate Hw.
Defined.


Lemma calibrated_detector_is_frozen_witness :
  let cs := [BaseDetector.Detect (Some turned); BaseDetector.Detect None] in
  BaseDetector.is_calibrated (BaseDetector.base calibrated_rotation) = true
  /\ forallb is_detect cs = true
  /\ baselines NECK_ROTATION
       (BaseDetector.ext (BaseDetector.run calibrated_rotation cs))
     = baselines NECK_ROTATION (BaseDetector.ext calibrated_rotation)
  /\ BaseDetector.is_calibrated
       (BaseDetector.base (BaseDetector.run calibrated_rotation cs)) = true.
Proof.
  intro cs.
  assert (Hc : BaseDetector.is_calibrated (BaseDetector.base calibrated_rotation)
               = true) by (vm_compute; reflexivity).
  assert (Hd : forallb is_detect cs = true) by reflexivity.
  split; [exact Hc|]. split; [exact Hd|].
  pose proof (calibrated_detector_is_frozen NECK_ROTATION calibrated_rotation cs
                Hc Hd) as (W1 & _ & _ & W4 & _).
  split; [exact W1 | exact W4].
Defined.

Lemma frames_collected_counts_present_witness :
  let cs :=
    [BaseDetector.Detect None; BaseDetector.Detect (Some turned);
     BaseDetector.Detect None] in
  forallb is_detect cs = true
  /\ BaseDetector.frames_collected
       (BaseDetector.base (BaseDetector.run (new_detector CHIN_TUCK None) cs))
     = Z.min 15 (Z.of_nat (count_present cs)).
Proof.
  intro cs.
  assert (Hd : forallb is_detect cs = true) by reflexivity.
  split; [exact Hd|].
  pose proof (frames_collected_counts_present CHIN_TUCK None cs Hd) as Hw.
  cbv zeta in Hw. exact (proj1 Hw).
Defined.

Lemma reset_restarts_calibration_witness :
  List.length rest_frames = 15%nat
  /\ statuses
       (BaseDetector.reset
          (BaseDetector.run (new_detector NECK_ROTATION None)
             (BaseDetector.frames rest_frames)))
       rest_frames
     = repeat CALIBRATING 14 ++ [READY].
Proof.
  assert (Hl : List.length rest_frames = 15%nat) by reflexivity.
  split; [exact Hl|].
  pose proof (reset_restarts_calibration NECK_ROTATION None
                (BaseDetector.frames rest_frames) rest_frames Hl) as Hw.
  cbv zeta in Hw. exact (proj1 Hw).
Defined.

Lemma raw_confidence_positive_iff_detected_witness :
  let c := py_max 0 (py_min 1 ((py_max (40 / 20) (20 / 20) - (15 # 10)) / 1)) in
  let m := [("max_ratio", MFloat (py_max (40 / 20) (20 / 20)));
            ("direction", MStr "RIGHT");
            ("threshold", MFloat (15 # 10))] in
  BaseDetector._detect_exercise
    (BaseDetector.ext
       (BaseDetector.run (new_detector NECK_ROTATION None)
          (BaseDetector.frames rest_frames))) turned
  = Ok (true, c, m)
  /\ 0 < c.
Proof.
  intros c m.
  assert (Hd : BaseDetector._detect_exercise
                 (BaseDetector.ext
                    (BaseDetector.run (new_detector NECK_ROTATION None)
                       (BaseDetector.frames rest_frames))) turned
               = Ok (true, c, m)) by (vm_compute; reflexivity).
  split; [exact Hd|].
  pose proof (raw_confidence_positive_iff_detected NECK_ROTATION None
                (BaseDetector.frames rest_frames) turned true c m Hd) as Hw.
  exact (proj1 (proj1 Hw) eq_refl).
Defined.

Lemma undetected_frame_decays_confidence_witness :
  let self :=
    BaseDetector.run (new_detector NECK_ROTATION None)
      (BaseDetector.frames rest_frames ++ [BaseDetector.Detect (Some turned)]) in
  let m := [("max_ratio", MFloat (py_max (20 / 20) (20 / 20)));
            ("direction", MStr "LEFT");
            ("threshold", MFloat (15 # 10))] in
  BaseDetector.is_calibrated (BaseDetector.base self) = true
  /\ BaseDetector._detect_exercise (BaseDetector.ext self) (face 100 20 20)
     = Ok (false, 0, m)
  /\ confidence (snd (BaseDetector.detect self (Some (face 100 20 20))))
     == (7 # 10) * BaseDetector.previous_confidence (BaseDetector.base self).
Proof.
  intros self m.
  assert (Hc : BaseDetector.is_calibrated (BaseDetector.base self) = true)
    by (vm_compute; reflexivity).
  assert (Hd : BaseDetector._detect_exercise (BaseDetector.ext self)
                 (face 100 20 20) = Ok (false, 0, m))
    by (vm_compute; reflexivity).
  split; [exact Hc|]. split; [exact Hd|].
  pose proof (undetected_frame_decays_confidence NECK_ROTATION None
                (BaseDetector.frames rest_frames
                 ++ [BaseDetector.Detect (Some turned)])
                (face 100 20 20) 0 m) as Hw.
  cbv zeta in Hw. exact (proj1 (proj2 (Hw Hc Hd))).
Defined.


Lemma frame_without_pose_witness :
  let nobody := {| pose_landmarks := None |} in
  let self := system_run (ExerciseDetectionSystem.init None 0) [] in
  LandmarkExtractor.extract_landmarks nobody (480%Z, 640%Z) = None
  /\ ExerciseDetectionSystem.total_detections
       (fst (ExerciseDetectionSystem.detect_exercises self nobody (480%Z, 640%Z)))
     = (ExerciseDetectionSystem.total_detections self + 1)%Z.
Proof.
  intros nobody self.
  assert (Hn : LandmarkExtractor.extract_landmarks nobody (480%Z, 640%Z) = None)
    by reflexivity.
  split; [exact Hn|].
  pose proof (frame_without_pose None 0 [] nobody (480%Z, 640%Z) Hn) as Hw.
  cbv zeta in Hw. exact (proj1 (proj2 Hw)).
Defined.
